(** * accountability: result cache and return-series calculator

    A shallow embedding of [accountability/caching.py], [accountability/rh_types.py]
    and [accountability/rh_api.py], followed by the properties of the
    specification that were settled against it.

    Modelling conventions.
    - Python [float] values are exact rationals ([Q]); rounding and the
      non-finite values (nan, inf) are outside the model.  [x / y] raises
      [ZeroDivisionError] when [y] is zero, as in Python.
    - A Python exception is a value of [exn]; a computation that may raise
      returns [result A].
    - A [datetime.datetime] is a record of its calendar fields together with
      an optional UTC offset in whole minutes ([None] for a naive value).
    - A [TypedDict] handled by the calculator is a record with the declared
      fields; the loosely typed dictionaries handled by the converter and the
      cache are values of [pyval]. *)

From Stdlib Require Import ZArith QArith String Ascii List Lia Sorted.
From stdpp Require Import base option list functions gmap strings.
From Equations Require Import Equations.
From Equations.Prop Require Import Logic.

Set Warnings "-register-all".

Local Open Scope string_scope.
Local Open Scope list_scope.
Local Open Scope Z_scope.

(** ** Exceptions and fallible computations *)

Inductive sqlite_error : Type :=
| OperationalError   (* lock contention: "database is locked" *)
| DatabaseError.     (* any other subclass of sqlite3.Error *)

Inductive exn : Type :=
| IndexError
| KeyError
| TypeError
| ValueError
| OverflowError
| ZeroDivisionError
| SqliteError (e : sqlite_error).

Inductive result (A : Type) : Type :=
| Ok (a : A)
| Raise (e : exn).
Arguments Ok {A} a.
Arguments Raise {A} e.

(** Sequencing: an exception raised by the first computation skips the
    second.  The notation [x ← m; k] is the one of stdpp's [MBind]. *)
#[global] Instance result_ret : MRet result := fun A a => Ok a.
#[global] Instance result_bind : MBind result := fun A B k m =>
  match m with
  | Ok a => k a
  | Raise e => Raise e
  end.

Definition is_ok {A : Type} (m : result A) : bool :=
  match m with Ok _ => true | Raise _ => false end.

(** ** Numbers *)

(** [x / y] on floats. *)
Definition py_div (x y : Q) : result Q :=
  if Qeq_bool y 0 then Raise ZeroDivisionError else Ok (x / y)%Q.

(** ** Dates and datetimes *)

Record pydate : Type := mk_date {
  d_year : Z;
  d_month : Z;
  d_day : Z
}.

Record datetime : Type := mk_datetime {
  year : Z;
  month : Z;
  day : Z;
  hour : Z;
  minute : Z;
  second : Z;
  microsecond : Z;
  tzoffset : option Z
}.

Definition is_leap (y : Z) : bool :=
  (y mod 4 =? 0) && (negb (y mod 100 =? 0) || (y mod 400 =? 0)).

Definition days_in_month (y m : Z) : Z :=
  if m =? 2 then (if is_leap y then 29 else 28)
  else if (m =? 4) || (m =? 6) || (m =? 9) || (m =? 11) then 30
  else 31.

(** Days before the first day of month [m] in year [y]. *)
Definition days_before_month (y m : Z) : Z :=
  fold_right Z.add 0 (map (days_in_month y) (map Z.of_nat (seq 1 (Z.to_nat (m - 1))))).

(** Days before January 1st of year [y]. *)
Definition days_before_year (y : Z) : Z :=
  let p := y - 1 in p * 365 + p / 4 - p / 100 + p / 400.

(** Proleptic Gregorian ordinal, January 1st of year 1 being day 1. *)
Definition ymd2ord (y m d : Z) : Z :=
  days_before_year y + days_before_month y m + d.

(** The invariant kept by the [datetime] constructor. *)
Definition datetime_ok (t : datetime) : bool :=
  (1 <=? year t) && (year t <=? 9999) &&
  (1 <=? month t) && (month t <=? 12) &&
  (1 <=? day t) && (day t <=? days_in_month (year t) (month t)) &&
  (0 <=? hour t) && (hour t <? 24) &&
  (0 <=? minute t) && (minute t <? 60) &&
  (0 <=? second t) && (second t <? 60) &&
  (0 <=? microsecond t) && (microsecond t <? 1000000) &&
  match tzoffset t with
  | None => true
  | Some off => (-1440 <? off) && (off <? 1440)
  end.

(** [t.date()] *)
Definition date_of (t : datetime) : pydate :=
  mk_date (year t) (month t) (day t).

(** [a >= b] on dates. *)
Definition date_ge (a b : pydate) : bool :=
  (d_year b <? d_year a) ||
  ((d_year b =? d_year a) &&
   ((d_month b <? d_month a) ||
    ((d_month b =? d_month a) && (d_day b <=? d_day a)))).

(** Microseconds since the start of year 1, on the UTC scale when the value
    is aware. *)
Definition instant (t : datetime) : Z :=
  let off := match tzoffset t with Some o => o | None => 0 end in
  ((((ymd2ord (year t) (month t) (day t) * 24 + hour t) * 60
     + minute t - off) * 60) + second t) * 1000000 + microsecond t.

(** [a < b] on datetimes; comparing a naive with an aware value raises. *)
Definition dt_lt (a b : datetime) : result bool :=
  match tzoffset a, tzoffset b with
  | None, None | Some _, Some _ => Ok (instant a <? instant b)
  | _, _ => Raise TypeError
  end.

(** [t - datetime.timedelta(days=1)] *)
Definition sub_one_day (t : datetime) : result datetime :=
  let set y m d :=
    mk_datetime y m d (hour t) (minute t) (second t) (microsecond t) (tzoffset t) in
  if 1 <? day t then Ok (set (year t) (month t) (day t - 1))
  else if 1 <? month t then
    Ok (set (year t) (month t - 1) (days_in_month (year t) (month t - 1)))
  else if 1 <? year t then Ok (set (year t - 1) 12 31)
  else Raise OverflowError.

(** ** rh_types.py: the typed dictionaries used by the calculator *)

(** The [date] field of a [PercentageDate] holds a [datetime.date] in the
    anchor point of the year-to-date series and a [datetime.datetime]
    everywhere else. *)
Inductive date_value : Type :=
| DDate (d : pydate)
| DDatetime (t : datetime).

Record PercentageDate : Type := mk_PercentageDate {
  date : date_value;
  percentage : Q
}.

Record EquityHistorical : Type := mk_EquityHistorical {
  adjusted_open_equity : Q;
  adjusted_close_equity : Q;
  open_equity : Q;
  close_equity : Q;
  open_market_value : Q;
  close_market_value : Q;
  begins_at : datetime;
  net_return : Q;
  session : string
}.

(** The field [id] of the source is [transfer_id] here. *)
Record BankTransfer : Type := mk_BankTransfer {
  transfer_id : string;
  url : string;
  ref_id : string;
  cancel : option string;
  ach_relationship : string;
  account : string;
  amount : Q;
  direction : string;
  state : string;
  created_at : datetime;
  updated_at : datetime
}.

(** ** rh_api.py: Operation A *)

(** The [for h in historicals] loop, threading [prev_close] and the list
    [percentages]. *)
Fixpoint percentage_loop (hs : list EquityHistorical) (prev_close : Q)
    (percentages : list Q) : result (list Q) :=
  match hs with
  | [] => Ok percentages
  | h :: rest =>
      p ← py_div (close_equity h - prev_close)%Q prev_close;
      percentage_loop rest (close_equity h) (percentages ++ [p])
  end.

Definition _get_historical_portfolio_percentage
    (historicals : list EquityHistorical) : result (list PercentageDate) :=
  match historicals with
  | [] => Ok []
  | h0 :: _ =>
      percentages ← percentage_loop historicals (close_equity h0) [];
      Ok (zip_with (fun h p => mk_PercentageDate (DDatetime (begins_at h)) p)
            historicals percentages)
  end.

(** ** rh_api.py: Operation B *)

(** Python objects are shared by reference.  The dictionaries returned by
    the two cached fetches live in a heap, and the lists handed to the
    calculator hold their addresses. *)
Definition loc : Type := nat.

Record heap : Type := mk_heap {
  equity_obj : loc -> EquityHistorical;
  transfer_obj : loc -> BankTransfer
}.

(** [transfer["created_at"] = c] *)
Definition set_created_at (t : BankTransfer) (c : datetime) : BankTransfer :=
  mk_BankTransfer (transfer_id t) (url t) (ref_id t) (cancel t)
    (ach_relationship t) (account t) (amount t) (direction t) (state t)
    c (updated_at t).

Definition store_transfer (σ : heap) (l : loc) (t : BankTransfer) : heap :=
  mk_heap (equity_obj σ) (<[l := t]> (transfer_obj σ)).

(** [for transfer in transfers: transfer["created_at"] -= timedelta(days=1)] *)
Fixpoint shift_transfers (transfers : list loc) (σ : heap) : result unit * heap :=
  match transfers with
  | [] => (Ok tt, σ)
  | l :: rest =>
      let transfer := transfer_obj σ l in
      match sub_one_day (created_at transfer) with
      | Ok c => shift_transfers rest (store_transfer σ l (set_created_at transfer c))
      | Raise e => (Raise e, σ)
      end
  end.

Definition is_completed_deposit (transfer : BankTransfer) : bool :=
  String.eqb (direction transfer) "deposit" && String.eqb (state transfer) "completed".

(** The inner [while] loop of one day: the transfer pointer and the
    accumulator go in and come out. *)
Equations? consume_transfers (transfers : list BankTransfer) (d : EquityHistorical)
    (current_transfer_idx : nat) (total_deposits : Q) : result (nat * Q)
    by wf (length transfers - current_transfer_idx)%nat lt :=
  consume_transfers transfers d idx total with inspect (transfers !! idx) := {
    | exist _ None _ := Ok (idx, total);
    | exist _ (Some transfer) Hidx with dt_lt (created_at transfer) (begins_at d) := {
        | Raise e := Raise e;
        | Ok false := Ok (idx, total);
        | Ok true :=
            consume_transfers transfers d (S idx)
              (if is_completed_deposit transfer then (total + amount transfer)%Q
               else total) } }.
Proof.
  apply lookup_lt_Some in Hidx. lia.
Qed.

(** The state of the [for day in historical[1:]] loop. *)
Record walk : Type := mk_walk {
  w_idx : nat;                         (* current_transfer_idx *)
  w_total : Q;                         (* total_deposits *)
  w_percentages : list PercentageDate  (* percentages *)
}.

(** The body of the [for] loop for one day. *)
Definition day_step (start_equity : Q) (transfers : list BankTransfer)
    (w : walk) (d : EquityHistorical) : result walk :=
  '(idx, total) ← consume_transfers transfers d (w_idx w) (w_total w);
  let adjusted_start := (start_equity + total)%Q in
  if negb (Qeq_bool adjusted_start 0) then
    pct ← py_div (close_equity d - adjusted_start)%Q adjusted_start;
    Ok (mk_walk idx total
          (w_percentages w ++ [mk_PercentageDate (DDatetime (begins_at d)) pct]))
  else Ok (mk_walk idx total (w_percentages w)).

Fixpoint day_loop (start_equity : Q) (transfers : list BankTransfer)
    (days : list EquityHistorical) (w : walk) : result walk :=
  match days with
  | [] => Ok w
  | d :: rest =>
      w' ← day_step start_equity transfers w d;
      day_loop start_equity transfers rest w'
  end.

(** Everything after the shift of the transfer dates; from there on the
    function only reads its two lists. *)
Definition running_ytd (historical : list EquityHistorical)
    (transfers : list BankTransfer) : result (list PercentageDate) :=
  match last historical, head historical with
  | Some h_last, Some h_first =>
      let cur_year := year (begins_at h_last) in
      let start_equity := open_equity h_first in
      let start_date := mk_date cur_year 1 1 in
      let historical' :=
        List.filter (fun h => date_ge (date_of (begins_at h)) start_date) historical in
      let transfers' :=
        List.filter (fun t => date_ge (date_of (created_at t)) start_date) transfers in
      w ← day_loop start_equity transfers' (tail historical')
             (mk_walk 0 0 [mk_PercentageDate (DDate start_date) 0]);
      Ok (w_percentages w)
  | _, _ => Raise IndexError
  end.

(** [historical] and [transfers] are the lists returned by
    [get_historical_portfolio(fidelity="day", span="year", bounds="regular")]
    and [get_bank_transfers()]. *)
Definition get_running_ytd_percentage (historical transfers : list loc) (σ : heap)
    : result (list PercentageDate) * heap :=
  match shift_transfers transfers σ with
  | (Raise e, σ') => (Raise e, σ')
  | (Ok _, σ') =>
      (running_ytd (map (equity_obj σ') historical) (map (transfer_obj σ') transfers), σ')
  end.

(** ** datetime.isoformat and datetime.fromisoformat

    The two library functions behind the cache's serialization hooks, after
    CPython: [isoformat] writes [YYYY-MM-DDTHH:MM:SS], then [.ffffff] when
    the microsecond is not zero, then [+HH:MM] or [-HH:MM] when the value is
    aware.  [fromisoformat] reads [YYYY-MM-DD], optionally followed by one
    separator character and [HH[:MM[:SS[.fff[fff]]]]] with an optional
    offset, and raises [ValueError] on anything else. *)

Definition digit_char (d : Z) : ascii := ascii_of_nat (48 + Z.to_nat d).

Definition digit_of_char (c : ascii) : option Z :=
  let n := Z.of_nat (nat_of_ascii c) in
  if (48 <=? n) && (n <=? 57) then Some (n - 48) else None.

(** [n] written with exactly [k] decimal digits, most significant first. *)
Fixpoint digits (k : nat) (n : Z) : string :=
  match k with
  | O => ""
  | S k' => String (digit_char (n / 10 ^ Z.of_nat k')) (digits k' (n mod 10 ^ Z.of_nat k'))
  end.

(** Reads exactly [k] decimal digits; [acc] is the value read so far. *)
Fixpoint parse_digits (k : nat) (acc : Z) (s : string) : option (Z * string) :=
  match k with
  | O => Some (acc, s)
  | S k' =>
      match s with
      | String c rest =>
          match digit_of_char c with
          | Some d => parse_digits k' (acc * 10 + d) rest
          | None => None
          end
      | EmptyString => None
      end
  end.

Definition expect (c : ascii) (s : string) : option string :=
  match s with
  | String c' rest => if Ascii.eqb c c' then Some rest else None
  | EmptyString => None
  end.

Definition format_offset (off : Z) : string :=
  (if off <? 0 then "-" else "+") ++
  digits 2 (Z.abs off / 60) ++ ":" ++ digits 2 (Z.abs off mod 60).

Definition isoformat (t : datetime) : string :=
  digits 4 (year t) ++ "-" ++ digits 2 (month t) ++ "-" ++ digits 2 (day t) ++
  "T" ++ digits 2 (hour t) ++ ":" ++ digits 2 (minute t) ++ ":" ++ digits 2 (second t) ++
  (if microsecond t =? 0 then "" else "." ++ digits 6 (microsecond t)) ++
  match tzoffset t with
  | None => ""
  | Some off => format_offset off
  end.

(** The offset that ends a time string: nothing, or a sign and [HH:MM]. *)
Definition parse_offset (s : string) : option (option Z) :=
  match s with
  | EmptyString => Some None
  | String c rest =>
      if Ascii.eqb c "+" || Ascii.eqb c "-" then
        '(hh, r1) ← parse_digits 2 0 rest;
        r2 ← expect ":" r1;
        '(mm, r3) ← parse_digits 2 0 r2;
        match r3 with
        | EmptyString =>
            let off := hh * 60 + mm in
            Some (Some (if Ascii.eqb c "-" then - off else off))
        | String _ _ => None
        end
      else None
  end.

(** The optional fraction of a second: three or six digits after a dot. *)
Definition parse_fraction (s : string) : option (Z * string) :=
  match s with
  | String "." rest =>
      match parse_digits 6 0 rest with
      | Some r => Some r
      | None => '(ms, r) ← parse_digits 3 0 rest; Some (ms * 1000, r)
      end
  | _ => Some (0, s)
  end.

(** [HH[:MM[:SS[.fff[fff]]]]] and the offset: hour, minute, second,
    microsecond, offset. *)
Definition parse_time (s : string) : option (Z * Z * Z * Z * option Z) :=
  '(hh, r1) ← parse_digits 2 0 s;
  match r1 with
  | String ":" r2 =>
      '(mi, r3) ← parse_digits 2 0 r2;
      match r3 with
      | String ":" r4 =>
          '(ss, r5) ← parse_digits 2 0 r4;
          '(us, r6) ← parse_fraction r5;
          tz ← parse_offset r6;
          Some (hh, mi, ss, us, tz)
      | _ => tz ← parse_offset r3; Some (hh, mi, 0, 0, tz)
      end
  | _ => tz ← parse_offset r1; Some (hh, 0, 0, 0, tz)
  end.

Definition parse_date (s : string) : option (Z * Z * Z * string) :=
  '(y, r1) ← parse_digits 4 0 s;
  r2 ← expect "-" r1;
  '(m, r3) ← parse_digits 2 0 r2;
  r4 ← expect "-" r3;
  '(d, r5) ← parse_digits 2 0 r4;
  Some (y, m, d, r5).

(** The constructor call that ends [fromisoformat]: out-of-range fields
    raise [ValueError]. *)
Definition checked (t : datetime) : result datetime :=
  if datetime_ok t then Ok t else Raise ValueError.

Definition fromisoformat (s : string) : result datetime :=
  match parse_date s with
  | None => Raise ValueError
  | Some (y, m, d, EmptyString) => checked (mk_datetime y m d 0 0 0 0 None)
  | Some (y, m, d, String _ tstr) =>
      match parse_time tstr with
      | None => Raise ValueError
      | Some (hh, mi, ss, us, tz) => checked (mk_datetime y m d hh mi ss us tz)
      end
  end.

(** [s.replace("Z", "+00:00")] *)
Fixpoint replace_Z (s : string) : string :=
  match s with
  | EmptyString => ""
  | String c rest =>
      if Ascii.eqb c "Z" then "+00:00" ++ replace_Z rest else String c (replace_Z rest)
  end.

(** ** Python values

    The values that travel through the converter and the cache: what the
    brokerage client decodes from JSON, and datetimes.  A dictionary is the
    list of its items in insertion order, with string keys. *)
Inductive pyval : Type :=
| VNone
| VBool (b : bool)
| VInt (z : Z)
| VFloat (q : Q)
| VStr (s : string)
| VDatetime (t : datetime)
| VList (l : list pyval)
| VDict (d : list (string * pyval)).

(** [d.get(k)] and [k in d] *)
Fixpoint dict_get {A : Type} (d : list (string * A)) (k : string) : option A :=
  match d with
  | [] => None
  | (k', v) :: rest => if String.eqb k' k then Some v else dict_get rest k
  end.

(** [d[k] = v]: an existing key keeps its place. *)
Fixpoint dict_set {A : Type} (d : list (string * A)) (k : string) (v : A)
    : list (string * A) :=
  match d with
  | [] => [(k, v)]
  | (k', v') :: rest =>
      if String.eqb k' k then (k, v) :: rest else (k', v') :: dict_set rest k v
  end.

Definition is_none (v : pyval) : bool :=
  match v with VNone => true | _ => false end.

Definition is_dict (v : pyval) : bool :=
  match v with VDict _ => true | _ => false end.

(** [try: body except Exception: handler] *)
Definition try_except {A : Type} (body : result A) (handler : exn -> result A)
    : result A :=
  match body with
  | Ok a => Ok a
  | Raise e => handler e
  end.

(** ** rh_types.py: conversion of loosely typed dictionaries *)

(** The annotations of a [TypedDict].  A field is a float, a datetime, some
    other basic type ([str], [bool], [Optional[str]]), a list of typed
    dictionaries or a nested typed dictionary. *)
Inductive field_type : Type :=
| FFloat
| FDatetime
| FBasic
| FList (elem : typed_dict)
| FNested (td : typed_dict)
with typed_dict : Type :=
| TypedDict (type_hints : list (string * field_type)).

(** [float(value)] for an [int]: integers that round beyond the largest
    double raise [OverflowError]. *)
Definition float_of_int (z : Z) : result Q :=
  if 2 ^ 1024 - 2 ^ 970 <=? Z.abs z then Raise OverflowError else Ok (inject_Z z).

Section Conversion.

(** [float(s)] for a string, [None] standing for [ValueError]. *)
Variable float_of_str : string -> option Q.

Definition _convert_value_to_type (value : pyval) (target_type : field_type)
    : result pyval :=
  match value with
  | VNone => Ok VNone
  | _ =>
      match target_type, value with
      | FDatetime, VStr s =>
          t ← fromisoformat (replace_Z s); Ok (VDatetime t)
      | FFloat, VInt z => q ← float_of_int z; Ok (VFloat q)
      | FFloat, VBool b => Ok (VFloat (if b then 1 else 0))
      | FFloat, VFloat q => Ok (VFloat q)
      | FFloat, VStr s =>
          match float_of_str s with
          | Some q => Ok (VFloat q)
          | None => Ok (VFloat 0)     (* except ValueError: return 0.0 *)
          end
      | FFloat, _ => Ok (VFloat 0)
      | _, _ => Ok value
      end
  end.

(** The three branches of the loop body that compute the value of one
    field; [convert] is the function itself, for the nested calls. *)
Definition convert_field (convert : pyval -> typed_dict -> result pyval)
    (field_value : pyval) (field_type : field_type) : result pyval :=
  match field_type with
  | FList element_type =>
      match field_value with
      | VList items =>
          items' ← mapM (fun item =>
                      if is_dict item then convert item element_type
                      else Ok item) items;
          Ok (VList items')
      | _ => Ok (VList [])
      end
  | FNested td => convert field_value td
  | _ => _convert_value_to_type field_value field_type
  end.

(** The loop [for field_name, field_type in type_hints.items()] with its
    per-field handler; the dictionary [result] of the source is [res]. *)
Fixpoint convert_fields (convert : pyval -> typed_dict -> result pyval)
    (data : list (string * pyval)) (type_hints : list (string * field_type))
    (res : list (string * pyval)) : result (list (string * pyval)) :=
  match type_hints with
  | [] => Ok res
  | (field_name, field_type) :: rest =>
      res' ←
        try_except
          (let field_value := default VNone (dict_get data field_name) in
           v ← convert_field convert field_value field_type;
           Ok (dict_set res field_name v))
          (fun _ => Ok (dict_set res field_name VNone));
      convert_fields convert data rest res'
  end.

(** The function returns [None] or a dictionary; [Raise] is an exception
    that leaves the function. *)
Fixpoint convert_dict_to_typed_dict (data : pyval) (target_type : typed_dict)
    {struct target_type} : result pyval :=
  match data with
  | VNone => Ok VNone
  | VDict d =>
      match target_type with
      | TypedDict type_hints =>
          try_except
            (res ← convert_fields convert_dict_to_typed_dict d type_hints [];
             Ok (VDict res))
            (fun _ => Ok VNone)
      end
  | _ => Ok VNone
  end.

End Conversion.

(** ** Comparison of Python values *)

Definition number_of (v : pyval) : option Q :=
  match v with
  | VBool b => Some (if b then 1 else 0)%Q
  | VInt z => Some (inject_Z z)
  | VFloat q => Some q
  | _ => None
  end.

Definition Qlt_bool (x y : Q) : bool := negb (Qle_bool y x).

(** [a == b] on datetimes: a naive and an aware value are never equal. *)
Definition dt_eq (a b : datetime) : bool :=
  match tzoffset a, tzoffset b with
  | None, None | Some _, Some _ => instant a =? instant b
  | _, _ => false
  end.

(** [a == b] *)
Fixpoint py_eq (a b : pyval) {struct a} : bool :=
  match a, b with
  | VNone, VNone => true
  | VStr s1, VStr s2 => String.eqb s1 s2
  | VDatetime t1, VDatetime t2 => dt_eq t1 t2
  | VList l1, VList l2 =>
      (fix eq_items (l1 l2 : list pyval) {struct l1} : bool :=
         match l1, l2 with
         | [], [] => true
         | x :: r1, y :: r2 => py_eq x y && eq_items r1 r2
         | _, _ => false
         end) l1 l2
  | VDict d1, VDict d2 =>
      (length d1 =? length d2)%nat &&
      (fix eq_items (d : list (string * pyval)) {struct d} : bool :=
         match d with
         | [] => true
         | (k, v) :: rest =>
             match dict_get d2 k with
             | Some v' => py_eq v v'
             | None => false
             end && eq_items rest
         end) d1
  | _, _ =>
      match number_of a, number_of b with
      | Some x, Some y => Qeq_bool x y
      | _, _ => false
      end
  end.

(** [a < b]; values without an order between them raise [TypeError]. *)
Fixpoint py_lt (a b : pyval) {struct a} : result bool :=
  match a, b with
  | VStr s1, VStr s2 => Ok (String.ltb s1 s2)
  | VDatetime t1, VDatetime t2 => dt_lt t1 t2
  | VList l1, VList l2 =>
      (fix lt_items (l1 l2 : list pyval) {struct l1} : result bool :=
         match l1, l2 with
         | [], [] => Ok false
         | [], _ :: _ => Ok true
         | _ :: _, [] => Ok false
         | x :: r1, y :: r2 => if py_eq x y then lt_items r1 r2 else py_lt x y
         end) l1 l2
  | _, _ =>
      match number_of a, number_of b with
      | Some x, Some y => Ok (Qlt_bool x y)
      | _, _ => Raise TypeError
      end
  end.

(** ** sorted(iterable, key=...)

    A stable insertion sort on the keys, which are computed first.  With
    keys that can all be compared it returns the list that Python returns;
    an incomparable pair raises [TypeError]. *)
Fixpoint insert_by_key {A : Type} (k : pyval) (x : A) (sorted : list (pyval * A))
    : result (list (pyval * A)) :=
  match sorted with
  | [] => Ok [(k, x)]
  | (k', y) :: rest =>
      before ← py_lt k k';
      if (before : bool) then Ok ((k, x) :: (k', y) :: rest)
      else rest' ← insert_by_key k x rest; Ok ((k', y) :: rest')
  end.

Fixpoint sort_by_key {A : Type} (l : list (pyval * A)) (sorted : list (pyval * A))
    : result (list (pyval * A)) :=
  match l with
  | [] => Ok sorted
  | (k, x) :: rest => sorted' ← insert_by_key k x sorted; sort_by_key rest sorted'
  end.

Definition py_sorted {A : Type} (key : A -> result pyval) (l : list A)
    : result (list A) :=
  keys ← mapM key l;
  sorted ← sort_by_key (zip keys l) [];
  Ok (map snd sorted).

(** [x[k]] on a value. *)
Definition getitem (x : pyval) (k : string) : result pyval :=
  match x with
  | VDict d =>
      match dict_get d k with
      | Some v => Ok v
      | None => Raise KeyError
      end
  | _ => Raise TypeError
  end.

(** ** rh_api.py: get_bank_transfers *)

Definition BankTransfer_type : typed_dict :=
  TypedDict
    [("id", FBasic); ("url", FBasic); ("ref_id", FBasic); ("cancel", FBasic);
     ("ach_relationship", FBasic); ("account", FBasic); ("amount", FFloat);
     ("direction", FBasic); ("state", FBasic);
     ("created_at", FDatetime); ("updated_at", FDatetime)].

(** The body of the cached function; [transfers] is what
    [rh.get_bank_transfers()] returned. *)
Definition get_bank_transfers (float_of_str : string -> option Q)
    (transfers : list pyval) : result (list pyval) :=
  transfers_list ←
    mapM (fun transfer =>
            convert_dict_to_typed_dict float_of_str transfer BankTransfer_type)
         transfers;
  py_sorted (fun x => getitem x "updated_at")
    (List.filter (fun t => negb (is_none t)) transfers_list).

(** ** caching.py: serialization hooks *)

Definition _serialize_for_cache (obj : pyval) : pyval :=
  match obj with
  | VDatetime t => VDict [("__datetime__", VStr (isoformat t))]
  | _ => obj
  end.

Definition _deserialize_from_cache (obj : pyval) : result pyval :=
  match obj with
  | VDict d =>
      match dict_get d "__datetime__" with
      | Some (VStr s) => t ← fromisoformat s; Ok (VDatetime t)
      | Some _ => Raise TypeError     (* fromisoformat: argument must be str *)
      | None => Ok obj
      end
  | _ => Ok obj
  end.

(** The text held in the [value] column, as the JSON document it spells. *)
Inductive json : Type :=
| JNull
| JBool (b : bool)
| JInt (z : Z)
| JFloat (q : Q)
| JStr (s : string)
| JList (l : list json)
| JDict (d : list (string * json)).

(** What the encoder does with a value it writes natively. *)
Definition json_of_basic (v : pyval) : json :=
  match v with
  | VBool b => JBool b
  | VInt z => JInt z
  | VFloat q => JFloat q
  | VStr s => JStr s
  | _ => JNull
  end.

(** [json.dumps(v, default=_serialize_for_cache)].  A datetime is the one
    value the encoder cannot write; it asks the hook and writes the
    dictionary of one string that the hook returns. *)
Fixpoint json_dumps (v : pyval) : json :=
  match v with
  | VList l => JList (map json_dumps l)
  | VDict d => JDict (map (fun kv => (fst kv, json_dumps (snd kv))) d)
  | VDatetime _ =>
      match _serialize_for_cache v with
      | VDict d => JDict (map (fun kv => (fst kv, json_of_basic (snd kv))) d)
      | o => json_of_basic o
      end
  | _ => json_of_basic v
  end.

(** [json.loads(s, object_hook=_deserialize_from_cache)]: the hook sees
    every decoded object, innermost first. *)
Fixpoint json_loads (j : json) : result pyval :=
  match j with
  | JNull => Ok VNone
  | JBool b => Ok (VBool b)
  | JInt z => Ok (VInt z)
  | JFloat q => Ok (VFloat q)
  | JStr s => Ok (VStr s)
  | JList l =>
      items ← (fix items (l : list json) : result (list pyval) :=
                 match l with
                 | [] => Ok []
                 | x :: rest => v ← json_loads x; vs ← items rest; Ok (v :: vs)
                 end) l;
      Ok (VList items)
  | JDict d =>
      obj ← (fix pairs (d : list (string * json)) (obj : list (string * pyval))
                : result (list (string * pyval)) :=
               match d with
               | [] => Ok obj
               | (k, x) :: rest => v ← json_loads x; pairs rest (dict_set obj k v)
               end) d [];
      _deserialize_from_cache (VDict obj)
  end.

(** ** caching.py: the store, the clock and the wrapped function *)

(** The backing store holds one table per name, each mapping a key to its
    [(value, timestamp)] row.  Every operation on the store (connect,
    execute, commit) can fail; [faults] lists the outcome of the operations
    to come, [None] or a missing entry being a success.  [calls] counts the
    invocations of the wrapped function. *)
Record world : Type := mk_world {
  tables : gmap string (gmap string (json * Q));
  clock : Q;
  faults : list (option sqlite_error);
  calls : nat
}.

(** A computation that reads and changes the world and may raise. *)
Definition M (A : Type) : Type := world -> result A * world.

#[global] Instance M_ret : MRet M := fun A a w => (Ok a, w).
#[global] Instance M_bind : MBind M := fun A B k m w =>
  match m w with
  | (Ok a, w') => k a w'
  | (Raise e, w') => (Raise e, w')
  end.

Definition lift {A : Type} (r : result A) : M A := fun w => (r, w).

(** One operation on the store. *)
Definition store_op : M unit := fun w =>
  match faults w with
  | [] => (Ok tt, w)
  | None :: rest => (Ok tt, mk_world (tables w) (clock w) rest (calls w))
  | Some e :: rest =>
      (Raise (SqliteError e), mk_world (tables w) (clock w) rest (calls w))
  end.

(** [time.time()] *)
Definition time : M Q := fun w => (Ok (clock w), w).

(** [time.sleep(seconds)] *)
Definition sleep (seconds : Q) : M unit := fun w =>
  (Ok tt, mk_world (tables w) (clock w + seconds)%Q (faults w) (calls w)).

(** A call of the wrapped function, which is given by what its
    successive invocations return or raise. *)
Definition call (func : nat -> result pyval) : M pyval := fun w =>
  (func (calls w), mk_world (tables w) (clock w) (faults w) (S (calls w))).

Definition get_world : M world := fun w => (Ok w, w).

Definition put_world (w : world) : M unit := fun _ => (Ok tt, w).

Definition set_tables (w : world) (t : gmap string (gmap string (json * Q))) : world :=
  mk_world t (clock w) (faults w) (calls w).

(** [CREATE TABLE IF NOT EXISTS] *)
Definition create_table (table_name : string) : M unit :=
  _ ← store_op;
  w ← get_world;
  match tables w !! table_name with
  | Some _ => mret tt
  | None => put_world (set_tables w (<[table_name := ∅]> (tables w)))
  end.

(** [SELECT value, timestamp ... WHERE key = ?] followed by [fetchone()] *)
Definition select_row (table_name cache_key : string) : M (option (json * Q)) :=
  _ ← store_op;
  w ← get_world;
  mret (tables w !! table_name ≫= fun t => t !! cache_key).

(** [INSERT OR REPLACE] followed by [commit()]; the row is in the store
    once the commit has succeeded. *)
Definition insert_or_replace (table_name cache_key : string) (value : json)
    (timestamp : Q) : M unit :=
  _ ← store_op;
  _ ← store_op;
  w ← get_world;
  let t := default ∅ (tables w !! table_name) in
  put_world
    (set_tables w (<[table_name := <[cache_key := (value, timestamp)]> t]> (tables w))).

Definition MAX_RETRIES : nat := 5.
Definition RETRY_DELAY : Q := 1 # 10.

(** [RETRY_DELAY * (2**attempt)] *)
Definition backoff (attempt : nat) : Q := (RETRY_DELAY * inject_Z (2 ^ Z.of_nat attempt))%Q.

(** [for attempt in range(MAX_RETRIES)] with the retry policy shared by the
    connection and the upsert: [body] is tried again after a sleep when it
    raises [OperationalError], except at the last attempt.  [remaining]
    counts the attempts still to run. *)
Fixpoint retry_loop (body : M unit) (remaining attempt : nat) : M unit := fun w =>
  match remaining with
  | O => (Ok tt, w)
  | S remaining' =>
      match body w with
      | (Ok _, w') => (Ok tt, w')
      | (Raise (SqliteError OperationalError), w') =>
          if (attempt =? MAX_RETRIES - 1)%nat
          then (Raise (SqliteError OperationalError), w')
          else (_ ← sleep (backoff attempt); retry_loop body remaining' (S attempt)) w'
      | (Raise e, w') => (Raise e, w')
      end
  end.

(** [RetryableDatabase.__enter__]: [sqlite3.connect] and the [PRAGMA]. *)
Definition __enter__ : M unit :=
  retry_loop (_ ← store_op; store_op) MAX_RETRIES 0.

(** [except sqlite3.Error as e: handler] *)
Definition except_sqlite {A : Type} (body : M A) (handler : M A) : M A := fun w =>
  match body w with
  | (Raise (SqliteError _), w') => handler w'
  | r => r
  end.

(** ** caching.py: cache_result *)

(** The key of a call; [args] and [kwargs] are the strings [str(args)] and
    [str(kwargs)]. *)
Definition make_cache_key (func_name args kwargs : string) : string :=
  func_name +:+ ":" +:+ args +:+ ":" +:+ kwargs.

Definition wrapper (table_name : string) (ttl_seconds : Z) (func_name : string)
    (func : nat -> result pyval) (args kwargs : string) : M pyval :=
  let cache_key := make_cache_key func_name args kwargs in
  except_sqlite
    (_ ← __enter__;
     _ ← create_table table_name;
     row ← select_row table_name cache_key;
     current_time ← time;
     let compute_and_store : M pyval :=
       new_value ← call func;
       _ ← retry_loop
             (insert_or_replace table_name cache_key (json_dumps new_value)
                current_time)
             MAX_RETRIES 0;
       mret new_value in
     match row with
     | Some (value, timestamp) =>
         if Qlt_bool (current_time - timestamp) (inject_Z ttl_seconds)
         then lift (json_loads value)
         else compute_and_store
     | None => compute_and_store
     end)
    (call func).

(** ** Vocabulary of the properties *)

(** The percentages that the loop appends, as a function of the closing
    value it starts from. *)
Fixpoint deltas (prev_close : Q) (hs : list EquityHistorical) : list Q :=
  match hs with
  | [] => []
  | h :: rest =>
      ((close_equity h - prev_close) / prev_close)%Q :: deltas (close_equity h) rest
  end.

Definition nonzero_close (h : EquityHistorical) : Prop := ~ (close_equity h == 0)%Q.

(** The transfers that count for the baseline. *)
Definition completed_deposit (t : BankTransfer) : Prop :=
  direction t = "deposit" /\ state t = "completed".

#[global] Instance completed_deposit_dec (t : BankTransfer)
    : Decision (completed_deposit t) :=
  and_dec (decide (direction t = "deposit")) (decide (state t = "completed")).

(** What one consumed transfer does to the accumulator. *)
Definition add_deposit (total : Q) (t : BankTransfer) : Q :=
  if decide (completed_deposit t) then (total + amount t)%Q else total.

(** An aware datetime carries a UTC offset. *)
Definition aware (t : datetime) : Prop := tzoffset t <> None.

(** The value that the loop stores for a field: the converted value, or
    [None] when the conversion raised. *)
Definition field_outcome (float_of_str : string -> option Q)
    (data : list (string * pyval)) (field_name : string)
    (ft : field_type) : pyval :=
  match convert_field float_of_str (convert_dict_to_typed_dict float_of_str)
        (default VNone (dict_get data field_name)) ft with
  | Ok v => v
  | Raise _ => VNone
  end.

(** The store, with other faults to come or at another time. *)
Definition set_faults (w : world) (f : list (option sqlite_error)) : world :=
  mk_world (tables w) (clock w) f (calls w).

Definition set_clock (w : world) (now : Q) : world :=
  mk_world (tables w) now (faults w) (calls w).

(** None of the next [n] operations on the store fails. *)
Definition next_ops_succeed (n : nat) (w : world) : Prop :=
  forall i e, (i < n)%nat -> faults w !! i <> Some (Some e).

(** The test [result and (current_time - result[1]) < ttl_seconds]. *)
Definition fresh_row (ttl_seconds : Z) (now : Q) (row : option (json * Q)) : bool :=
  match row with
  | Some (_, timestamp) => Qlt_bool (now - timestamp) (inject_Z ttl_seconds)
  | None => false
  end.

Definition lookup_row (w : world) (table_name cache_key : string)
    : option (json * Q) :=
  tables w !! table_name ≫= fun t => t !! cache_key.

(** The world differs at most by the clock and the pending faults. *)
Definition same_data (w w' : world) : Prop :=
  tables w' = tables w /\ calls w' = calls w.


(** ** Sample inputs *)

(** Midnight UTC of a day. *)
Definition utc (y m d : Z) : datetime := mk_datetime y m d 0 0 0 0 (Some 0).

Definition equity_sample (opening closing : Q) (t : datetime) : EquityHistorical :=
  mk_EquityHistorical opening closing opening closing opening closing t 0 "reg".

Definition transfer_sample (amount : Q) (direction state : string) (created : datetime)
    : BankTransfer :=
  mk_BankTransfer "id" "url" "ref" None "ach" "account" amount direction state
    created created.

(** A heap that holds the given objects at the addresses 0, 1, 2, ... *)
Definition heap_of (equities : list EquityHistorical) (transfers : list BankTransfer)
    : heap :=
  mk_heap (fun l => nth l equities (equity_sample 0 0 (utc 1 1 1)))
          (fun l => nth l transfers (transfer_sample 0 "" "" (utc 1 1 1))).

(** Two closes, 100 then 110. *)
Definition two_day_series : list EquityHistorical :=
  [equity_sample 100 100 (utc 2024 1 1); equity_sample 100 110 (utc 2024 1 2)].

(** A daily series over one year reaches back into the year before. *)
Definition prior_year_series : list EquityHistorical :=
  [equity_sample 500 500 (utc 2023 12 31);
   equity_sample 1000 1000 (utc 2024 1 1);
   equity_sample 1000 1100 (utc 2024 1 2)].

(** A deposit, a withdrawal and a pending deposit, all before January 3rd. *)
Definition mixed_transfers : list BankTransfer :=
  [transfer_sample 500 "deposit" "completed" (utc 2024 1 1);
   transfer_sample 300 "withdraw" "completed" (utc 2024 1 1);
   transfer_sample 200 "deposit" "pending" (utc 2024 1 2)].

(** What the brokerage client returns for one transfer. *)
Definition raw_transfer (id created updated : string) : pyval :=
  VDict [("id", VStr id); ("amount", VFloat 100); ("direction", VStr "deposit");
         ("state", VStr "completed");
         ("created_at", VStr created); ("updated_at", VStr updated)].

(** The first transfer was created first and updated last. *)
Definition late_update_transfers : list pyval :=
  [raw_transfer "T1" "2024-01-05T00:00:00Z" "2024-01-20T00:00:00Z";
   raw_transfer "T2" "2024-01-10T00:00:00Z" "2024-01-11T00:00:00Z"].

(** A dictionary with a float that does not parse, an integer too large for
    a float and a date that is none. *)
Definition malformed_transfer : pyval :=
  VDict [("amount", VStr "abc"); ("created_at", VStr "yesterday")].

Definition huge_amount : pyval := VDict [("amount", VInt (2 ^ 1024))].

(** A wrapped function that returns 10, 11, ... at its successive
    invocations. *)
Definition counting_func (n : nat) : result pyval := Ok (VInt (10 + Z.of_nat n)).

(** An empty store at time 1000 with the given faults to come. *)
Definition empty_store (faults : list (option sqlite_error)) : world :=
  mk_world ∅ 1000 faults 0.

(** A store that holds the integer 7 for the call [f(5)], written at time
    900. *)
Definition warm_store : world :=
  mk_world {[ "t" := {[ "f:(5,):{}" := (JInt 7, 900%Q) ]} ]} 1000 [] 3.

(** ** rh_api.py: get_historical_portfolio *)

Definition EquityHistorical_type : typed_dict :=
  TypedDict
    [("adjusted_open_equity", FFloat); ("adjusted_close_equity", FFloat);
     ("open_equity", FFloat); ("close_equity", FFloat);
     ("open_market_value", FFloat); ("close_market_value", FFloat);
     ("begins_at", FDatetime); ("net_return", FFloat); ("session", FBasic)].

Definition HistoricalPortfolio_type : typed_dict :=
  TypedDict
    [("adjusted_open_equity", FFloat); ("adjusted_previous_close_equity", FFloat);
     ("open_equity", FFloat); ("previous_close_equity", FFloat);
     ("open_time", FDatetime); ("interval", FBasic); ("span", FBasic);
     ("bounds", FBasic); ("total_return", FFloat);
     ("equity_historicals", FList EquityHistorical_type); ("use_new_hp", FBasic)].

(** [not result] for what the converter returns: [None] and the empty
    dictionary are false. *)
Definition is_falsy (v : pyval) : bool :=
  match v with
  | VNone | VDict [] => true
  | _ => false
  end.

(** The body of the cached function; [historical] is what
    [rh.get_historical_portfolio(fidelity, span, bounds)] returned. *)
Definition get_historical_portfolio (float_of_str : string -> option Q)
    (historical : pyval) : result pyval :=
  result ← convert_dict_to_typed_dict float_of_str historical HistoricalPortfolio_type;
  if is_falsy result then Ok (VList []) else getitem result "equity_historicals".

(** ** Further vocabulary *)

Definition zero_close (h : EquityHistorical) : Prop := (close_equity h == 0)%Q.

(** The anchor point of the year-to-date series. *)
Definition anchor (cur_year : Z) : PercentageDate :=
  mk_PercentageDate (DDate (mk_date cur_year 1 1)) 0.

(** The samples and the transfers on or after January 1st of [cur_year]. *)
Definition in_year (cur_year : Z) (t : datetime) : bool :=
  date_ge (date_of t) (mk_date cur_year 1 1).

(** The point of a day against a fixed baseline. *)
Definition point_against (baseline : Q) (d : EquityHistorical) : PercentageDate :=
  mk_PercentageDate (DDatetime (begins_at d)) ((close_equity d - baseline) / baseline)%Q.

(** [transfer] with its date one day earlier, when that day exists. *)
Definition shifted (t : BankTransfer) : BankTransfer :=
  match sub_one_day (created_at t) with
  | Ok c => set_created_at t c
  | Raise _ => t
  end.

(** The two loops of [json_loads], by name. *)
Fixpoint loads_items (l : list json) : result (list pyval) :=
  match l with
  | [] => Ok []
  | x :: rest => v ← json_loads x; vs ← loads_items rest; Ok (v :: vs)
  end.

Fixpoint loads_pairs (d : list (string * json)) (obj : list (string * pyval))
    : result (list (string * pyval)) :=
  match d with
  | [] => Ok obj
  | (k, x) :: rest => v ← json_loads x; loads_pairs rest (dict_set obj k v)
  end.

Definition has_key {A : Type} (d : list (string * A)) (k : string) : bool :=
  existsb (String.eqb k) (map fst d).

Fixpoint keys_distinct (ks : list string) : bool :=
  match ks with
  | [] => true
  | k :: rest => negb (existsb (String.eqb k) rest) && keys_distinct rest
  end.

(** The values that the cache gives back as they were: their datetimes are
    valid, and their dictionaries have distinct keys, none of which is the
    tag of the hooks. *)
Fixpoint json_safe (v : pyval) : bool :=
  match v with
  | VDatetime t => datetime_ok t
  | VList l => forallb json_safe l
  | VDict d =>
      negb (has_key d "__datetime__") && keys_distinct (map fst d) &&
      forallb (fun kv => json_safe (snd kv)) d
  | _ => true
  end.

(** The clock after the sleeps that follow [k] failed attempts, the first
    of which has number [attempt]. *)
Fixpoint slept (attempt k : nat) (now : Q) : Q :=
  match k with
  | O => now
  | S k' => slept (S attempt) k' (now + backoff attempt)%Q
  end.

(** A computation that invokes the wrapped function at most [n] times. *)
Definition calls_within (n : nat) {A : Type} (m : M A) : Prop :=
  forall w, (calls w <= calls (m w).2 <= calls w + n)%nat.

(** What the converter makes of a value, [None] standing for an exception
    that it does not let out. *)
Definition converted (float_of_str : string -> option Q) (target_type : typed_dict)
    (data : pyval) : pyval :=
  match convert_dict_to_typed_dict float_of_str data target_type with
  | Ok v => v
  | Raise _ => VNone
  end.

(** The sort key of [get_bank_transfers]. *)
Definition updated_at_key (x : pyval) : result pyval := getitem x "updated_at".

(** The fields of the dictionary that the converter returns: the declared
    names in the order of the declaration, each with its outcome. *)
Definition declared_fields (float_of_str : string -> option Q)
    (data : list (string * pyval)) (type_hints : list (string * field_type))
    : list (string * pyval) :=
  map (fun f => (f.1, field_outcome float_of_str data f.1 f.2)) type_hints.

(** What a field that the input does not have becomes. *)
Definition missing_field (ft : field_type) : pyval :=
  match ft with
  | FList _ => VList []
  | _ => VNone
  end.

(** The same wall-clock time, at UTC. *)
Definition as_utc (t : datetime) : datetime :=
  mk_datetime (year t) (month t) (day t) (hour t) (minute t) (second t)
    (microsecond t) (Some 0).

(** What the list branch of the converter makes of one item. *)
Definition convert_item (float_of_str : string -> option Q) (element_type : typed_dict)
    (item : pyval) : pyval :=
  if is_dict item then converted float_of_str element_type item else item.

(** The instant of the [updated_at] of a converted transfer. *)
Definition updated_instant (x : pyval) : Z :=
  match updated_at_key x with
  | Ok (VDatetime t) => instant t
  | _ => 0
  end.

(** A raw transfer whose [updated_at] is a timestamp that parses to an
    aware datetime. *)
Definition stamped (x : pyval) : Prop :=
  match x with
  | VDict d =>
      exists s t, dict_get d "updated_at" = Some (VStr s) /\
                  fromisoformat (replace_Z s) = Ok t /\ aware t
  | _ => True
  end.

(** A raw transfer without a usable [updated_at]: the key is missing, the
    value is null, or it is a string that does not parse. *)
Definition unstamped (d : list (string * pyval)) : Prop :=
  match dict_get d "updated_at" with
  | None | Some VNone => True
  | Some (VStr s) => is_ok (fromisoformat (replace_Z s)) = false
  | Some _ => False
  end.

(** ** Further sample inputs *)

(** A series whose second close is zero. *)
Definition zero_close_series : list EquityHistorical :=
  [equity_sample 100 100 (utc 2024 1 1); equity_sample 100 0 (utc 2024 1 2);
   equity_sample 0 50 (utc 2024 1 3)].

(** The second transfer is dated on the first day of year one. *)
Definition first_day_transfers : list BankTransfer :=
  [transfer_sample 500 "deposit" "completed" (utc 2024 1 1);
   transfer_sample 100 "deposit" "completed" (utc 1 1 1);
   transfer_sample 200 "deposit" "completed" (utc 2024 1 2)].

(** The first transfer of the year is dated after the last sample. *)
Definition late_transfers : list BankTransfer :=
  [transfer_sample 500 "deposit" "completed" (utc 2024 6 1);
   transfer_sample 100 "deposit" "completed" (utc 2024 1 1)].

(** A wrapped function that raises [ValueError]. *)
Definition failing_func (n : nat) : result pyval := Raise ValueError.

(** A wrapped function whose first invocation raises a store error. *)
Definition locked_func (n : nat) : result pyval :=
  match n with
  | O => Raise (SqliteError OperationalError)
  | S _ => Ok (VInt 1)
  end.

(** A value with a datetime inside, and a wrapped function that returns
    it. *)
Definition dated_value : pyval :=
  VDict [("amount", VFloat (5 # 2)); ("at", VDatetime (utc 2024 1 2));
         ("tags", VList [VStr "a"; VNone])].

Definition dated_func (n : nat) : result pyval := Ok dated_value.

(** The second transfer has no [updated_at]. *)
Definition unstamped_transfers : list pyval :=
  [raw_transfer "T1" "2024-01-05T00:00:00Z" "2024-01-20T00:00:00Z";
   VDict [("id", VStr "T3")]].

(** * Properties *)

(** ** Fallible computations *)

Lemma bind_Ok {A B : Type} (a : A) (k : A -> result B) : (Ok a ≫= k) = k a.
Proof. reflexivity. Qed.

Lemma bind_Raise {A B : Type} (e : exn) (k : A -> result B) :
  (Raise e ≫= k) = Raise e.
Proof. reflexivity. Qed.

Lemma py_div_nonzero (x y : Q) : ~ (y == 0)%Q -> py_div x y = Ok (x / y)%Q.
Proof.
  intros Hy. unfold py_div.
  destruct (Qeq_bool y 0) eqn:E; [|reflexivity].
  apply Qeq_bool_iff in E. contradiction.
Qed.

Lemma py_div_zero (x y : Q) : (y == 0)%Q -> py_div x y = Raise ZeroDivisionError.
Proof.
  intros Hy. unfold py_div. apply Qeq_bool_iff in Hy. rewrite Hy. reflexivity.
Qed.

(** ** Operation A *)

Lemma percentage_loop_deltas (hs : list EquityHistorical) :
  forall prev_close percentages,
    ~ (prev_close == 0)%Q -> Forall nonzero_close hs ->
    percentage_loop hs prev_close percentages = Ok (percentages ++ deltas prev_close hs).
Proof.
  induction hs as [|h rest IH]; intros prev acc Hprev Hall; simpl.
  - by rewrite app_nil_r.
  - inversion Hall as [|? ? Hh Hrest]; subst.
    rewrite py_div_nonzero by assumption. rewrite bind_Ok.
    rewrite IH by assumption. by rewrite <- app_assoc.
Qed.

Lemma deltas_length (hs : list EquityHistorical) :
  forall prev_close, length (deltas prev_close hs) = length hs.
Proof. induction hs as [|h rest IH]; intros prev; simpl; [done|]. by rewrite IH. Qed.

Lemma deltas_lookup_succ (hs : list EquityHistorical) :
  forall prev_close n h' h,
    hs !! n = Some h' -> hs !! S n = Some h ->
    deltas prev_close hs !! S n
    = Some ((close_equity h - close_equity h') / close_equity h')%Q.
Proof.
  induction hs as [|h0 rest IH]; intros prev n h' h Hn HSn; [done|].
  destruct n as [|n]; simpl in *.
  - destruct rest as [|h1 rest']; [discriminate HSn|].
    simpl in *. injection Hn as ->. injection HSn as ->. reflexivity.
  - by apply IH.
Qed.

(** C4. Operation A returns the empty list on the empty list; on [N] samples
    whose closes are all non-zero it returns [N] pairs dated by the samples,
    the first with percentage zero and the pair of rank [n >= 1] with
    percentage [(close_n - close_(n-1)) / close_(n-1)]. *)
Theorem percentage_series_spec (historicals : list EquityHistorical)
    (Hclose : Forall nonzero_close historicals) :
  exists pairs,
    _get_historical_portfolio_percentage historicals = Ok pairs /\
    length pairs = length historicals /\
    (historicals = [] -> pairs = []) /\
    (forall h0, historicals !! 0%nat = Some h0 ->
       exists p, pairs !! 0%nat = Some p /\
         date p = DDatetime (begins_at h0) /\ (percentage p == 0)%Q) /\
    (forall n h' h,
       historicals !! n = Some h' -> historicals !! S n = Some h ->
       exists p, pairs !! S n = Some p /\
         date p = DDatetime (begins_at h) /\
         percentage p = ((close_equity h - close_equity h') / close_equity h')%Q).
Proof.
  destruct historicals as [|h0 rest].
  - exists []. repeat split; try done.
  - unfold _get_historical_portfolio_percentage.
    assert (Hh0 : ~ (close_equity h0 == 0)%Q) by (by inversion Hclose).
    rewrite percentage_loop_deltas by assumption.
    rewrite bind_Ok, app_nil_l.
    eexists. split; [reflexivity|].
    split; [|split; [done|split]].
    + rewrite length_zip_with, deltas_length. lia.
    + intros h Hh. simpl in Hh. injection Hh as <-. simpl.
      eexists. split; [reflexivity|]. split; [reflexivity|]. simpl.
      unfold Qdiv. ring.
    + intros n h' h Hn HSn.
      rewrite lookup_zip_with, HSn.
      rewrite (deltas_lookup_succ _ (close_equity h0) _ _ _ Hn HSn). simpl.
      eexists. split; [reflexivity|]. by split.
Qed.

(** ** Operation B: the merge-join *)

Lemma consume_transfers_body transfers d idx total :
  consume_transfers transfers d idx total =
  match transfers !! idx with
  | None => Ok (idx, total)
  | Some transfer =>
      match dt_lt (created_at transfer) (begins_at d) with
      | Raise e => Raise e
      | Ok false => Ok (idx, total)
      | Ok true =>
          consume_transfers transfers d (S idx)
            (if is_completed_deposit transfer then (total + amount transfer)%Q
             else total)
      end
  end.
Proof.
  funelim (consume_transfers transfers d idx total);
    repeat match goal with
           | H : _ !! _ = _ |- _ => rewrite H
           | H : dt_lt _ _ = _ |- _ => rewrite H
           end; reflexivity.
Qed.

Lemma is_completed_deposit_decide t :
  is_completed_deposit t = bool_decide (completed_deposit t).
Proof.
  unfold is_completed_deposit, completed_deposit.
  destruct (String.eqb_spec (direction t) "deposit") as [Hd|Hd],
           (String.eqb_spec (state t) "completed") as [Hs|Hs]; simpl; symmetry.
  - by apply bool_decide_eq_true_2.
  - apply bool_decide_eq_false_2. tauto.
  - apply bool_decide_eq_false_2. tauto.
  - apply bool_decide_eq_false_2. tauto.
Qed.

Lemma is_completed_deposit_add total t :
  (if is_completed_deposit t then (total + amount t)%Q else total) = add_deposit total t.
Proof.
  unfold add_deposit. rewrite is_completed_deposit_decide.
  case_bool_decide; case_decide; tauto.
Qed.

Lemma consume_transfers_step transfers d idx total t :
  transfers !! idx = Some t ->
  dt_lt (created_at t) (begins_at d) = Ok true ->
  consume_transfers transfers d idx total
  = consume_transfers transfers d (S idx) (add_deposit total t).
Proof.
  intros Hidx Hlt. rewrite consume_transfers_body, Hidx, Hlt.
  by rewrite is_completed_deposit_add.
Qed.

Lemma consume_transfers_inv transfers d (n : nat) :
  forall idx total idx' total',
    (length transfers - idx)%nat = n ->
    consume_transfers transfers d idx total = Ok (idx', total') ->
    (idx <= idx')%nat /\
    (forall i t, (idx <= i < idx')%nat -> transfers !! i = Some t ->
                 dt_lt (created_at t) (begins_at d) = Ok true) /\
    (forall t, transfers !! idx' = Some t ->
               dt_lt (created_at t) (begins_at d) = Ok false) /\
    total' = fold_left add_deposit (take (idx' - idx) (drop idx transfers)) total.
Proof.
  induction n as [|n IH]; intros idx total idx' total' Hn Hrun.
  - rewrite consume_transfers_body in Hrun.
    destruct (transfers !! idx) as [t|] eqn:Hidx.
    { apply lookup_lt_Some in Hidx. lia. }
    injection Hrun as <- <-. rewrite Nat.sub_diag.
    repeat split; [lia | intros; lia | congruence].
  - rewrite consume_transfers_body in Hrun.
    destruct (transfers !! idx) as [t|] eqn:Hidx.
    2:{ injection Hrun as <- <-. rewrite Nat.sub_diag.
        repeat split; [lia | intros; lia | congruence]. }
    destruct (dt_lt (created_at t) (begins_at d)) as [[|]|e] eqn:Hlt; [| |done].
    + rewrite is_completed_deposit_add in Hrun.
      apply IH in Hrun as (Hle & Hcons & Hstop & Htot); [|lia].
      split; [lia|]. split; [|split; [exact Hstop|]].
      * intros i t' Hi Hit. destruct (decide (i = idx)) as [->|Hne].
        -- congruence.
        -- apply (Hcons i); [lia|done].
      * rewrite Htot. rewrite (drop_S _ _ _ Hidx).
        replace (idx' - idx)%nat with (S (idx' - S idx)) by lia.
        reflexivity.
    + injection Hrun as <- <-. rewrite Nat.sub_diag.
      repeat split; [lia | intros; lia | congruence].
Qed.

(** C6. In the merge-join of Operation B the transfers consumed for one day
    are those from the old pointer up to the new one; the accumulator grows
    by the amount of each consumed transfer whose direction is [deposit] and
    whose state is [completed], and every other consumed transfer leaves it
    as it is while the pointer moves past it. *)
Theorem merge_join_deposits transfers d idx total idx' total'
    (Hrun : consume_transfers transfers d idx total = Ok (idx', total')) :
  (idx <= idx')%nat /\
  total' = fold_left add_deposit (take (idx' - idx) (drop idx transfers)) total /\
  (forall acc t, completed_deposit t -> add_deposit acc t = (acc + amount t)%Q) /\
  (forall acc t, ~ completed_deposit t -> add_deposit acc t = acc) /\
  (forall acc t, transfers !! idx = Some t ->
     dt_lt (created_at t) (begins_at d) = Ok true ->
     consume_transfers transfers d idx acc
     = consume_transfers transfers d (S idx) (add_deposit acc t)).
Proof.
  destruct (consume_transfers_inv transfers d _ idx total idx' total' eq_refl Hrun)
    as (Hle & _ & _ & Htot).
  split; [exact Hle|]. split; [exact Htot|].
  split; [|split].
  - intros acc t Ht. unfold add_deposit. by rewrite decide_True.
  - intros acc t Ht. unfold add_deposit. by rewrite decide_False.
  - intros acc t Hidx Hlt. by apply consume_transfers_step.
Qed.

(** ** Operation B: exceptions *)

Lemma consume_transfers_raise transfers d (n : nat) :
  forall idx total e,
    (length transfers - idx)%nat = n ->
    consume_transfers transfers d idx total = Raise e -> e = TypeError.
Proof.
  induction n as [|n IH]; intros idx total e Hn Hrun;
    rewrite consume_transfers_body in Hrun;
    destruct (transfers !! idx) as [t|] eqn:Hidx; try discriminate.
  - apply lookup_lt_Some in Hidx. lia.
  - apply lookup_lt_Some in Hidx.
    unfold dt_lt in Hrun.
    destruct (tzoffset (created_at t)), (tzoffset (begins_at d));
      try (injection Hrun as <-; reflexivity);
      destruct (instant (created_at t) <? instant (begins_at d));
      try discriminate; (eapply IH; [|exact Hrun]; lia).
Qed.

Lemma day_step_cases start_equity transfers w d :
  match consume_transfers transfers d (w_idx w) (w_total w) with
  | Raise e => day_step start_equity transfers w d = Raise e
  | Ok (idx, total) =>
      if Qeq_bool (start_equity + total) 0
      then day_step start_equity transfers w d = Ok (mk_walk idx total (w_percentages w))
      else day_step start_equity transfers w d
           = Ok (mk_walk idx total
                   (w_percentages w ++
                    [mk_PercentageDate (DDatetime (begins_at d))
                       ((close_equity d - (start_equity + total))
                        / (start_equity + total))%Q]))
  end.
Proof.
  unfold day_step.
  destruct (consume_transfers transfers d (w_idx w) (w_total w)) as [[idx total]|e];
    [|reflexivity].
  rewrite bind_Ok. unfold py_div.
  destruct (Qeq_bool (start_equity + total) 0); reflexivity.
Qed.

Lemma day_step_raise start_equity transfers w d e :
  day_step start_equity transfers w d = Raise e -> e = TypeError.
Proof.
  intros Hrun. pose proof (day_step_cases start_equity transfers w d) as Hc.
  destruct (consume_transfers transfers d (w_idx w) (w_total w))
    as [[idx total]|e'] eqn:Hcons.
  - destruct (Qeq_bool (start_equity + total) 0); congruence.
  - rewrite Hc in Hrun. injection Hrun as <-.
    by eapply consume_transfers_raise.
Qed.

Lemma day_loop_raise start_equity transfers days :
  forall w e, day_loop start_equity transfers days w = Raise e -> e = TypeError.
Proof.
  induction days as [|d rest IH]; intros w e Hrun; simpl in Hrun; [done|].
  destruct (day_step start_equity transfers w d) as [w'|e'] eqn:Hstep.
  - rewrite bind_Ok in Hrun. by eapply IH.
  - rewrite bind_Raise in Hrun. injection Hrun as <-. by eapply day_step_raise.
Qed.

Lemma running_ytd_raise historical transfers e :
  running_ytd historical transfers = Raise e -> e = TypeError \/ e = IndexError.
Proof.
  unfold running_ytd. intros Hrun.
  destruct (last historical); [|right; congruence].
  destruct (head historical); [|right; congruence].
  match type of Hrun with
  | (?m ≫= _) = _ => destruct m as [w|e'] eqn:Hloop
  end.
  - done.
  - rewrite bind_Raise in Hrun. injection Hrun as <-.
    left. by eapply day_loop_raise.
Qed.

Lemma shift_transfers_raise transfers :
  forall σ e, (shift_transfers transfers σ).1 = Raise e -> e = OverflowError.
Proof.
  induction transfers as [|l rest IH]; intros σ e Hrun; simpl in Hrun; [done|].
  destruct (sub_one_day (created_at (transfer_obj σ l))) as [c|e'] eqn:Hsub.
  - by eapply IH.
  - simpl in Hrun. injection Hrun as <-.
    unfold sub_one_day in Hsub.
    repeat match type of Hsub with
           | (if ?b then _ else _) = _ => destruct b; try discriminate
           end.
    congruence.
Qed.

Lemma get_running_ytd_percentage_raise historical transfers σ e :
  (get_running_ytd_percentage historical transfers σ).1 = Raise e ->
  e = OverflowError \/ e = TypeError \/ e = IndexError.
Proof.
  unfold get_running_ytd_percentage. intros Hrun.
  destruct (shift_transfers transfers σ) as [[[]|e'] σ'] eqn:Hshift; simpl in Hrun.
  - right. by eapply running_ytd_raise.
  - left. injection Hrun as <-.
    apply (shift_transfers_raise transfers σ). by rewrite Hshift.
Qed.

(** C7. For a day of the walk, once the transfers of the day are consumed:
    when [start_equity + total_deposits] is zero the day adds no point and
    raises nothing, otherwise it adds the point
    [(close_equity - adjusted_start) / adjusted_start]; the function never
    raises [ZeroDivisionError]. *)
Theorem zero_baseline_skipped start_equity transfers w d idx total
    (Hrun : consume_transfers transfers d (w_idx w) (w_total w) = Ok (idx, total)) :
  ((start_equity + total == 0)%Q ->
   day_step start_equity transfers w d = Ok (mk_walk idx total (w_percentages w))) /\
  (~ (start_equity + total == 0)%Q ->
   day_step start_equity transfers w d
   = Ok (mk_walk idx total
           (w_percentages w ++
            [mk_PercentageDate (DDatetime (begins_at d))
               ((close_equity d - (start_equity + total))
                / (start_equity + total))%Q]))) /\
  (forall historical refs σ,
     (get_running_ytd_percentage historical refs σ).1 <> Raise ZeroDivisionError).
Proof.
  pose proof (day_step_cases start_equity transfers w d) as Hc.
  rewrite Hrun in Hc.
  split; [|split].
  - intros Hz. apply Qeq_bool_iff in Hz. by rewrite Hz in Hc.
  - intros Hnz. destruct (Qeq_bool (start_equity + total) 0) eqn:E; [|exact Hc].
    apply Qeq_bool_iff in E. contradiction.
  - intros historical refs σ Hraise.
    apply get_running_ytd_percentage_raise in Hraise.
    destruct Hraise as [|[|]]; discriminate.
Qed.

(** ** Operation B returns *)



Lemma elem_of_tail {A : Type} (x : A) (l : list A) : x ∈ tail l -> x ∈ l.
Proof. destruct l as [|y l]; simpl; [done|]. intros H. by apply elem_of_cons; right. Qed.



(** ** The calendar *)

Lemma days_before_year_succ y :
  days_before_year (y + 1) = days_before_year y + 365 + (if is_leap y then 1 else 0).
Proof.
  unfold days_before_year, is_leap.
  replace (y + 1 - 1) with y by lia.
  destruct (y mod 4 =? 0) eqn:E4, (y mod 100 =? 0) eqn:E100, (y mod 400 =? 0) eqn:E400;
    simpl; Z.div_mod_to_equations; lia.
Qed.

Lemma days_before_month_succ y m :
  1 <= m <= 11 -> days_before_month y (m + 1) = days_before_month y m + days_in_month y m.
Proof.
  intros Hm.
  assert (H : m = 1 \/ m = 2 \/ m = 3 \/ m = 4 \/ m = 5 \/ m = 6 \/ m = 7 \/ m = 8 \/ m = 9 \/ m = 10 \/ m = 11) by lia.
  unfold days_before_month.
  repeat destruct H as [->|H]; try subst m;
    repeat match goal with
           | |- context [Z.to_nat ?e] =>
               let v := eval vm_compute in (Z.to_nat e) in
               change (Z.to_nat e) with v
           end;
    cbn [seq map fold_right]; cbv [Z.of_nat Pos.of_succ_nat Pos.succ]; lia.
Qed.

(** [sub_one_day] moves a valid datetime to the previous ordinal day and
    keeps the time of day: the instant is 86400 seconds earlier. *)
Lemma sub_one_day_ordinal t c :
  datetime_ok t = true -> sub_one_day t = Ok c ->
  ymd2ord (year c) (month c) (day c) = ymd2ord (year t) (month t) (day t) - 1 /\
  instant c = instant t - 86400000000.
Proof.
  intros Hok Hsub.
  assert (Hord : ymd2ord (year c) (month c) (day c) = ymd2ord (year t) (month t) (day t) - 1).
  { unfold datetime_ok in Hok. repeat (apply andb_prop in Hok as [Hok ?]).
    unfold sub_one_day in Hsub.
    destruct (1 <? day t) eqn:Ed.
    - injection Hsub as <-. simpl. unfold ymd2ord. lia.
    - destruct (1 <? month t) eqn:Em.
      + injection Hsub as <-. simpl. unfold ymd2ord.
        pose proof (days_before_month_succ (year t) (month t - 1)) as Hm.
        replace (month t - 1 + 1) with (month t) in Hm by lia. lia.
      + destruct (1 <? year t) eqn:Ey; [|discriminate].
        injection Hsub as <-. simpl. unfold ymd2ord.
        pose proof (days_before_year_succ (year t - 1)) as Hy.
        replace (year t - 1 + 1) with (year t) in Hy by lia.
        assert (month t = 1) as -> by lia.
        assert (day t = 1) as -> by lia.
        generalize dependent (year t - 1). intros p Hy.
        unfold days_before_month.
        repeat match goal with
               | |- context [Z.to_nat ?e] =>
                   let v := eval vm_compute in (Z.to_nat e) in
                   change (Z.to_nat e) with v
               end.
        cbn [seq map fold_right]; cbv [Z.of_nat Pos.of_succ_nat Pos.succ].
        unfold days_in_month. simpl. destruct (is_leap p); lia. }
  split; [exact Hord|].
  unfold instant. rewrite Hord.
  unfold sub_one_day in Hsub.
  repeat match type of Hsub with
         | (if ?b then _ else _) = _ => destruct b
         end; try discriminate; injection Hsub as <-; simpl; lia.
Qed.

(** ** Operation B: the shift of the transfer dates *)

Lemma shift_transfers_equities transfers :
  forall σ, equity_obj (shift_transfers transfers σ).2 = equity_obj σ.
Proof.
  induction transfers as [|l rest IH]; intros σ; simpl; [done|].
  destruct (sub_one_day (created_at (transfer_obj σ l))); [|done].
  by rewrite IH.
Qed.

Lemma shift_transfers_frame transfers :
  forall σ l, l ∉ transfers ->
    transfer_obj (shift_transfers transfers σ).2 l = transfer_obj σ l.
Proof.
  induction transfers as [|l0 rest IH]; intros σ l Hl; simpl; [done|].
  apply not_elem_of_cons in Hl as [Hne Hl].
  destruct (sub_one_day (created_at (transfer_obj σ l0))); [|done].
  rewrite IH by done. simpl. by rewrite fn_lookup_insert_ne.
Qed.

Lemma shift_transfers_shifted transfers :
  forall σ,
    NoDup transfers ->
    (forall l, l ∈ transfers ->
       is_ok (sub_one_day (created_at (transfer_obj σ l))) = true) ->
    (shift_transfers transfers σ).1 = Ok tt /\
    forall l, l ∈ transfers ->
      exists c, sub_one_day (created_at (transfer_obj σ l)) = Ok c /\
        transfer_obj (shift_transfers transfers σ).2 l
        = set_created_at (transfer_obj σ l) c.
Proof.
  induction transfers as [|l0 rest IH]; intros σ Hdup Hok; simpl.
  { split; [done|]. intros l Hl. by apply elem_of_nil in Hl. }
  apply NoDup_cons in Hdup as [Hl0 Hdup].
  assert (Hok0 := Hok l0 (proj2 (elem_of_cons rest l0 l0) (or_introl eq_refl))).
  destruct (sub_one_day (created_at (transfer_obj σ l0))) as [c|e] eqn:Hsub;
    [|discriminate].
  set (σ1 := store_transfer σ l0 (set_created_at (transfer_obj σ l0) c)).
  assert (Hsame : forall l, l ∈ rest -> transfer_obj σ1 l = transfer_obj σ l).
  { intros l Hl. simpl. rewrite fn_lookup_insert_ne; [done|].
    intros ->. contradiction. }
  destruct (IH σ1 Hdup) as [Hres Hshift].
  { intros l Hl. rewrite Hsame by done. apply Hok. apply elem_of_cons. by right. }
  split; [exact Hres|].
  intros l Hl. apply elem_of_cons in Hl as [->|Hl].
  - exists c. split; [exact Hsub|].
    rewrite shift_transfers_frame by done. simpl. by rewrite fn_lookup_insert.
  - destruct (Hshift l Hl) as (c' & Hc' & Hobj).
    rewrite Hsame in Hc', Hobj by done. by exists c'.
Qed.

Lemma get_running_ytd_percentage_heap historical transfers σ :
  (get_running_ytd_percentage historical transfers σ).2
  = (shift_transfers transfers σ).2.
Proof.
  unfold get_running_ytd_percentage.
  by destruct (shift_transfers transfers σ) as [[[]|e] σ'].
Qed.

(** C9. The function changes the transfer objects it was handed, in the
    heap: after the call every listed transfer has its [created_at] one day
    earlier and its other fields as before, every other transfer object is
    as before, and so is every equity sample. *)
Theorem transfers_shifted_in_place historical transfers σ
    (Hdup : NoDup transfers)
    (Hrange : forall l, l ∈ transfers ->
                is_ok (sub_one_day (created_at (transfer_obj σ l))) = true) :
  let σ' := (get_running_ytd_percentage historical transfers σ).2 in
  (forall l, l ∈ transfers ->
     exists c, sub_one_day (created_at (transfer_obj σ l)) = Ok c /\
       transfer_obj σ' l = set_created_at (transfer_obj σ l) c /\
       (datetime_ok (created_at (transfer_obj σ l)) = true ->
        instant c = instant (created_at (transfer_obj σ l)) - 86400000000)) /\
  (forall l, l ∉ transfers -> transfer_obj σ' l = transfer_obj σ l) /\
  equity_obj σ' = equity_obj σ.
Proof.
  intros σ'. subst σ'. rewrite get_running_ytd_percentage_heap.
  split; [|split].
  - intros l Hl.
    destruct (shift_transfers_shifted transfers σ Hdup Hrange) as [_ Hshift].
    destruct (Hshift l Hl) as (c & Hc & Hobj).
    exists c. split; [exact Hc|]. split; [exact Hobj|].
    intros Hvalid. by apply sub_one_day_ordinal.
  - intros l Hl. by apply shift_transfers_frame.
  - apply shift_transfers_equities.
Qed.

(** ** isoformat and fromisoformat are inverse *)

Lemma digit_of_digit_char d : 0 <= d <= 9 -> digit_of_char (digit_char d) = Some d.
Proof.
  intros Hd.
  assert (H : d = 0 \/ d = 1 \/ d = 2 \/ d = 3 \/ d = 4 \/ d = 5 \/ d = 6 \/ d = 7
              \/ d = 8 \/ d = 9) by lia.
  repeat destruct H as [->|H]; try subst d; reflexivity.
Qed.

Lemma append_String c s rest : String c s +:+ rest = String c (s +:+ rest).
Proof. reflexivity. Qed.

Lemma append_empty_l s : "" +:+ s = s.
Proof. reflexivity. Qed.

Lemma append_empty_r s : s +:+ "" = s.
Proof. induction s as [|c s IH]; [reflexivity|]. by rewrite append_String, IH. Qed.

Lemma parse_digits_digits (k : nat) :
  forall acc n rest,
    0 <= n < 10 ^ Z.of_nat k ->
    parse_digits k acc (digits k n +:+ rest) = Some (acc * 10 ^ Z.of_nat k + n, rest).
Proof.
  induction k as [|k IH]; intros acc n rest Hn.
  - simpl in *. f_equal. f_equal. lia.
  - rewrite Nat2Z.inj_succ, Z.pow_succ_r in * by lia.
    assert (Hpos : 0 < 10 ^ Z.of_nat k) by (apply Z.pow_pos_nonneg; lia).
    assert (Hq : 0 <= n / 10 ^ Z.of_nat k <= 9).
    { split; [apply Z.div_pos; lia|].
      assert (n / 10 ^ Z.of_nat k < 10); [|lia].
      apply Z.div_lt_upper_bound; lia. }
    pose proof (Z.mod_pos_bound n _ Hpos) as Hr.
    pose proof (Z.div_mod n (10 ^ Z.of_nat k) ltac:(lia)) as Hdm.
    cbn [digits]. rewrite append_String. cbn [parse_digits].
    rewrite digit_of_digit_char by exact Hq.
    rewrite IH by exact Hr. f_equal. f_equal. lia.
Qed.

Lemma parse_digits_all (k : nat) n :
  0 <= n < 10 ^ Z.of_nat k -> parse_digits k 0 (digits k n) = Some (n, "").
Proof.
  intros Hn. rewrite <- (append_empty_r (digits k n)).
  rewrite parse_digits_digits by exact Hn. f_equal.
Qed.

Lemma parse_digits_prefix (k : nat) n rest :
  0 <= n < 10 ^ Z.of_nat k -> parse_digits k 0 (digits k n +:+ rest) = Some (n, rest).
Proof. intros Hn. rewrite parse_digits_digits by exact Hn. f_equal. Qed.

(** Evaluates the bounds [10 ^ k] of the digit lemmas. *)
Ltac pow10 :=
  repeat match goal with
         | |- context [10 ^ Z.of_nat ?k] =>
             let v := eval vm_compute in (10 ^ Z.of_nat k) in
             change (10 ^ Z.of_nat k) with v
         end.

Arguments digits : simpl never.
Arguments parse_digits : simpl never.

Lemma option_bind_Some {A B : Type} (a : A) (k : A -> option B) : (Some a ≫= k) = k a.
Proof. reflexivity. Qed.

Lemma expect_head c rest : expect c (String c "" +:+ rest) = Some rest.
Proof.
  rewrite append_String, append_empty_l. unfold expect.
  by rewrite Ascii.eqb_refl.
Qed.

(** One step of the parser once its next token is known. *)
Ltac step := rewrite ?option_bind_Some; cbv beta iota.

Lemma parse_date_isoformat y m d rest :
  0 <= y < 10000 -> 0 <= m < 100 -> 0 <= d < 100 ->
  parse_date (digits 4 y +:+ "-" +:+ digits 2 m +:+ "-" +:+ digits 2 d +:+ rest)
  = Some (y, m, d, rest).
Proof.
  intros Hy Hm Hd. unfold parse_date.
  rewrite parse_digits_prefix by (pow10; lia). step.
  rewrite expect_head. step.
  rewrite parse_digits_prefix by (pow10; lia). step.
  rewrite expect_head. step.
  rewrite parse_digits_prefix by (pow10; lia). step.
  reflexivity.
Qed.

Lemma parse_offset_format tz :
  match tz with Some off => -1440 < off < 1440 | None => True end ->
  parse_offset (match tz with Some off => format_offset off | None => "" end)
  = Some tz.
Proof.
  destruct tz as [off|]; intros Hoff; [|reflexivity].
  unfold format_offset.
  assert (Ha : 0 <= Z.abs off / 60 < 100).
  { split; [apply Z.div_pos; lia|]. apply Z.div_lt_upper_bound; lia. }
  assert (Hb : 0 <= Z.abs off mod 60 < 100).
  { pose proof (Z.mod_pos_bound (Z.abs off) 60). lia. }
  pose proof (Z.div_mod (Z.abs off) 60 ltac:(lia)) as Hdm.
  destruct (off <? 0) eqn:Hneg; rewrite append_String, append_empty_l;
    cbn [parse_offset Ascii.eqb Bool.eqb orb]; cbv beta iota;
    rewrite parse_digits_prefix by (pow10; lia); step;
    rewrite expect_head; step;
    rewrite parse_digits_all by (pow10; lia); step;
    f_equal; f_equal; lia.
Qed.

Lemma append_assoc_string (a b c : string) : (a +:+ b) +:+ c = a +:+ (b +:+ c).
Proof.
  induction a as [|x a IH]; [reflexivity|].
  by rewrite !append_String, IH.
Qed.

Lemma parse_fraction_format us rest :
  0 <= us < 1000000 ->
  match rest with String c _ => c <> "."%char | EmptyString => True end ->
  parse_fraction ((if us =? 0 then "" else "." +:+ digits 6 us) +:+ rest)
  = Some (us, rest).
Proof.
  intros Hus Hrest. destruct (us =? 0) eqn:E.
  - apply Z.eqb_eq in E as ->. rewrite append_empty_l.
    destruct rest as [|c r]; [reflexivity|].
    unfold parse_fraction.
    destruct c as [[] [] [] [] [] [] [] []]; try reflexivity. done.
  - rewrite append_assoc_string. rewrite append_String, append_empty_l.
    unfold parse_fraction. rewrite parse_digits_prefix by (pow10; lia). reflexivity.
Qed.

Lemma parse_time_isoformat hh mi ss us tz :
  0 <= hh < 100 -> 0 <= mi < 100 -> 0 <= ss < 100 -> 0 <= us < 1000000 ->
  match tz with Some off => -1440 < off < 1440 | None => True end ->
  parse_time (digits 2 hh +:+ ":" +:+ digits 2 mi +:+ ":" +:+ digits 2 ss +:+
              (if us =? 0 then "" else "." +:+ digits 6 us) +:+
              match tz with Some off => format_offset off | None => "" end)
  = Some (hh, mi, ss, us, tz).
Proof.
  intros Hh Hm Hs Hus Htz. unfold parse_time.
  rewrite parse_digits_prefix by (pow10; lia). step.
  rewrite append_String, append_empty_l.
  rewrite parse_digits_prefix by (pow10; lia). step.
  rewrite append_String, append_empty_l.
  rewrite parse_digits_prefix by (pow10; lia). step.
  rewrite parse_fraction_format; [|exact Hus|].
  - step. rewrite parse_offset_format by exact Htz. reflexivity.
  - destruct tz as [off|]; [|done]. unfold format_offset.
    destruct (off <? 0); rewrite append_String; done.
Qed.

Lemma fromisoformat_isoformat t :
  datetime_ok t = true -> fromisoformat (isoformat t) = Ok t.
Proof.
  intros Hok. pose proof Hok as Hfields. unfold datetime_ok in Hfields.
  repeat (apply andb_prop in Hfields as [Hfields ?]).
  destruct t as [y m d hh mi ss us tz]; simpl in *.
  assert (Hd : d <= 31).
  { unfold days_in_month in *.
    repeat match goal with
           | H : context [if ?b then _ else _] |- _ => destruct b
           end; lia. }
  assert (Htz : match tz with Some off => -1440 < off < 1440 | None => True end).
  { destruct tz as [off|]; [|done].
    match goal with H : _ && _ = true |- _ => apply andb_prop in H as [? ?] end. lia. }
  unfold fromisoformat, isoformat; cbn [year month day hour minute second microsecond tzoffset].
  rewrite parse_date_isoformat by lia.
  rewrite append_String, append_empty_l.
  rewrite parse_time_isoformat by (done || lia).
  unfold checked. by rewrite Hok.
Qed.

(** C8. Decoding what the encode hook makes of a datetime gives the same
    datetime back, both through the two hooks alone and through
    [json.dumps] and [json.loads] that call them. *)
Theorem datetime_hook_roundtrip (v : datetime) (Hvalid : datetime_ok v = true) :
  _deserialize_from_cache (_serialize_for_cache (VDatetime v)) = Ok (VDatetime v) /\
  json_loads (json_dumps (VDatetime v)) = Ok (VDatetime v).
Proof.
  assert (Hhook : _deserialize_from_cache (_serialize_for_cache (VDatetime v))
                  = Ok (VDatetime v)).
  { unfold _serialize_for_cache, _deserialize_from_cache.
    cbn [dict_get String.eqb Ascii.eqb Bool.eqb].
    rewrite fromisoformat_isoformat by exact Hvalid. reflexivity. }
  split; [exact Hhook|].
  cbn [json_dumps _serialize_for_cache map fst snd json_of_basic json_loads].
  rewrite !bind_Ok. cbn [dict_set]. exact Hhook.
Qed.

(** ** Conversion of loosely typed dictionaries *)

Lemma dict_get_set_eq {A : Type} (d : list (string * A)) k v :
  dict_get (dict_set d k v) k = Some v.
Proof.
  induction d as [|[k' v'] rest IH]; simpl.
  - by rewrite String.eqb_refl.
  - destruct (String.eqb k' k) eqn:E; simpl.
    + by rewrite String.eqb_refl.
    + by rewrite E.
Qed.

Lemma dict_get_set_ne {A : Type} (d : list (string * A)) k k' v :
  k <> k' -> dict_get (dict_set d k v) k' = dict_get d k'.
Proof.
  intros Hne. induction d as [|[k0 v0] rest IH]; simpl.
  - destruct (String.eqb_spec k k'); [contradiction|reflexivity].
  - destruct (String.eqb_spec k0 k) as [->|Hk0]; simpl.
    + destruct (String.eqb_spec k k'); [contradiction|reflexivity].
    + by rewrite IH.
Qed.

Section ConversionProperties.

Variable float_of_str : string -> option Q.

Abbreviation convert := (convert_dict_to_typed_dict float_of_str).
Abbreviation field := (convert_field float_of_str convert).
Abbreviation fields := (convert_fields float_of_str convert).

Lemma convert_fields_step data field_name ft rest res :
  fields data ((field_name, ft) :: rest) res
  = fields data rest (dict_set res field_name (field_outcome float_of_str data field_name ft)).
Proof.
  cbn [convert_fields]. unfold field_outcome.
  destruct (field (default VNone (dict_get data field_name)) ft); reflexivity.
Qed.

Lemma convert_fields_ok data type_hints :
  forall res, exists res', fields data type_hints res = Ok res'.
Proof.
  induction type_hints as [|[field_name ft] rest IH]; intros res.
  - by exists res.
  - rewrite convert_fields_step. apply IH.
Qed.

Lemma convert_fields_other data type_hints :
  forall res res' k,
    k ∉ map fst type_hints ->
    fields data type_hints res = Ok res' ->
    dict_get res' k = dict_get res k.
Proof.
  induction type_hints as [|[field_name ft] rest IH]; intros res res' k Hk Hrun.
  - by injection Hrun as <-.
  - rewrite convert_fields_step in Hrun. simpl in Hk.
    apply not_elem_of_cons in Hk as [Hne Hk].
    rewrite (IH _ _ _ Hk Hrun). by apply dict_get_set_ne.
Qed.

Lemma convert_fields_field data type_hints :
  forall res res' field_name ft,
    NoDup (map fst type_hints) ->
    (field_name, ft) ∈ type_hints ->
    fields data type_hints res = Ok res' ->
    dict_get res' field_name = Some (field_outcome float_of_str data field_name ft).
Proof.
  induction type_hints as [|[k0 ft0] rest IH];
    intros res res' field_name ft Hdup Hin Hrun.
  - by apply elem_of_nil in Hin.
  - rewrite convert_fields_step in Hrun. simpl in Hdup.
    apply NoDup_cons in Hdup as [Hk0 Hdup].
    apply elem_of_cons in Hin as [Heq|Hin].
    + injection Heq as -> ->.
      rewrite (convert_fields_other _ _ _ _ _ Hk0 Hrun).
      apply dict_get_set_eq.
    + by eapply IH.
Qed.

Lemma convert_dict data type_hints :
  exists res,
    fields data type_hints [] = Ok res /\
    convert (VDict data) (TypedDict type_hints) = Ok (VDict res).
Proof.
  destruct (convert_fields_ok data type_hints []) as [res Hres].
  exists res. split; [exact Hres|].
  cbn [convert_dict_to_typed_dict]. by rewrite Hres.
Qed.

(** C10. [convert_dict_to_typed_dict] never raises; it returns [None] for
    [None] and for anything that is not a dictionary; for a dictionary it
    returns a dictionary in which a float field whose string does not
    parse is [0.0] and a field whose conversion raised is [None]. *)
Theorem convert_never_raises (data : pyval) (target_type : typed_dict) :
  (exists v, convert data target_type = Ok v) /\
  (is_dict data = false -> convert data target_type = Ok VNone) /\
  (forall d type_hints,
     data = VDict d -> target_type = TypedDict type_hints ->
     NoDup (map fst type_hints) ->
     exists res,
       convert data target_type = Ok (VDict res) /\
       (forall field_name s,
          (field_name, FFloat) ∈ type_hints ->
          dict_get d field_name = Some (VStr s) ->
          float_of_str s = None ->
          dict_get res field_name = Some (VFloat 0)) /\
       (forall field_name ft e,
          (field_name, ft) ∈ type_hints ->
          field (default VNone (dict_get d field_name)) ft = Raise e ->
          dict_get res field_name = Some VNone)).
Proof.
  split; [|split].
  - destruct target_type as [type_hints].
    destruct data as [| | | | | | |d]; try (by eexists).
    destruct (convert_dict d type_hints) as (res & _ & Hres). by eexists.
  - destruct target_type as [type_hints].
    by destruct data.
  - intros d type_hints -> -> Hdup.
    destruct (convert_dict d type_hints) as (res & Hfields & Hres).
    exists res. split; [exact Hres|]. split.
    + intros field_name s Hin Hget Hparse.
      rewrite (convert_fields_field _ _ _ _ _ _ Hdup Hin Hfields).
      unfold field_outcome. rewrite Hget.
      simpl. by rewrite Hparse.
    + intros field_name ft e Hin Hraise.
      rewrite (convert_fields_field _ _ _ _ _ _ Hdup Hin Hfields).
      unfold field_outcome. by rewrite Hraise.
Qed.

End ConversionProperties.

(** ** The store model *)

Lemma Qlt_bool_iff (x y : Q) : Qlt_bool x y = true <-> (x < y)%Q.
Proof.
  unfold Qlt_bool. rewrite negb_true_iff.
  split.
  - intros H. apply Qnot_le_lt. intros Hle. apply Qle_bool_iff in Hle. congruence.
  - intros H. destruct (Qle_bool y x) eqn:E; [|reflexivity].
    apply Qle_bool_iff in E. by apply Qlt_not_le in H.
Qed.

Lemma M_bind_unfold {A B : Type} (m : M A) (k : A -> M B) (w : world) :
  (m ≫= k) w =
  match m w with
  | (Ok a, w') => k a w'
  | (Raise e, w') => (Raise e, w')
  end.
Proof. reflexivity. Qed.

Lemma M_bind_ok {A B : Type} (m : M A) (k : A -> M B) (w w' : world) (a : A) :
  m w = (Ok a, w') -> (m ≫= k) w = k a w'.
Proof. intros H. by rewrite M_bind_unfold, H. Qed.

Lemma M_bind_raise {A B : Type} (m : M A) (k : A -> M B) (w w' : world) (e : exn) :
  m w = (Raise e, w') -> (m ≫= k) w = (Raise e, w').
Proof. intros H. by rewrite M_bind_unfold, H. Qed.

Lemma set_faults_id w : set_faults w (faults w) = w.
Proof. by destruct w. Qed.

Lemma set_faults_twice w f g : set_faults (set_faults w f) g = set_faults w g.
Proof. reflexivity. Qed.

Lemma store_op_succeeds w :
  next_ops_succeed 1 w -> store_op w = (Ok tt, set_faults w (drop 1 (faults w))).
Proof.
  intros Hok. unfold store_op.
  destruct (faults w) as [|[e|] rest] eqn:Hf.
  - destruct w as [tb ck fl cl]. simpl in Hf. by subst fl.
  - exfalso. apply (Hok 0%nat e); [lia|]. by rewrite Hf.
  - reflexivity.
Qed.

Lemma next_ops_succeed_le n m w :
  (m <= n)%nat -> next_ops_succeed n w -> next_ops_succeed m w.
Proof. intros Hle Hok i e Hi. apply Hok. lia. Qed.

Lemma next_ops_succeed_drop n k w :
  next_ops_succeed (k + n) w -> next_ops_succeed n (set_faults w (drop k (faults w))).
Proof.
  intros Hok i e Hi. simpl. rewrite lookup_drop. apply Hok. lia.
Qed.

Lemma next_ops_succeed_nil n w : faults w = [] -> next_ops_succeed n w.
Proof. intros Hf i e _. by rewrite Hf. Qed.

(** Two operations in a row. *)
Lemma store_op_twice w :
  next_ops_succeed 2 w ->
  (_ ← store_op; store_op) w = (Ok tt, set_faults w (drop 2 (faults w))).
Proof.
  intros Hok.
  rewrite (M_bind_ok _ _ _ _ _ (store_op_succeeds w (next_ops_succeed_le 2 1 w ltac:(lia) Hok))).
  rewrite store_op_succeeds by (by apply (next_ops_succeed_drop 1 1)).
  simpl. by rewrite drop_drop.
Qed.

Lemma retry_loop_first_ok (body : M unit) remaining attempt w w' :
  body w = (Ok tt, w') ->
  retry_loop body (S remaining) attempt w = (Ok tt, w').
Proof. intros H. simpl. by rewrite H. Qed.

Lemma enter_succeeds w :
  next_ops_succeed 2 w -> __enter__ w = (Ok tt, set_faults w (drop 2 (faults w))).
Proof.
  intros Hok. unfold __enter__, MAX_RETRIES.
  apply retry_loop_first_ok. by apply store_op_twice.
Qed.

Lemma create_table_existing table_name t w :
  next_ops_succeed 1 w -> tables w !! table_name = Some t ->
  create_table table_name w = (Ok tt, set_faults w (drop 1 (faults w))).
Proof.
  intros Hok Ht. unfold create_table.
  rewrite (M_bind_ok _ _ _ _ _ (store_op_succeeds w Hok)).
  rewrite M_bind_unfold. unfold get_world. simpl. by rewrite Ht.
Qed.

Lemma create_table_missing table_name w :
  next_ops_succeed 1 w -> tables w !! table_name = None ->
  create_table table_name w
  = (Ok tt, set_tables (set_faults w (drop 1 (faults w)))
              (<[table_name := ∅]> (tables w))).
Proof.
  intros Hok Ht. unfold create_table.
  rewrite (M_bind_ok _ _ _ _ _ (store_op_succeeds w Hok)).
  rewrite M_bind_unfold. unfold get_world. simpl. by rewrite Ht.
Qed.

Lemma select_row_succeeds table_name cache_key w :
  next_ops_succeed 1 w ->
  select_row table_name cache_key w
  = (Ok (tables w !! table_name ≫= fun t => t !! cache_key),
     set_faults w (drop 1 (faults w))).
Proof.
  intros Hok. unfold select_row.
  rewrite (M_bind_ok _ _ _ _ _ (store_op_succeeds w Hok)).
  reflexivity.
Qed.

Lemma insert_or_replace_succeeds table_name cache_key value timestamp w :
  next_ops_succeed 2 w ->
  insert_or_replace table_name cache_key value timestamp w
  = (Ok tt,
     set_tables (set_faults w (drop 2 (faults w)))
       (<[table_name := <[cache_key := (value, timestamp)]>
                          (default ∅ (tables w !! table_name))]> (tables w))).
Proof.
  intros Hok. unfold insert_or_replace.
  pose proof (store_op_twice w Hok) as H2. rewrite M_bind_unfold in H2.
  rewrite M_bind_unfold.
  destruct (store_op w) as [[[]|e] w1]; [|discriminate].
  rewrite M_bind_unfold, H2. reflexivity.
Qed.

(** ** Decoding raises no store error *)

Lemma fromisoformat_raise s e : fromisoformat s = Raise e -> e = ValueError.
Proof.
  unfold fromisoformat, checked. intros H.
  repeat match type of H with
         | match ?x with _ => _ end = _ => destruct x
         | (if ?b then _ else _) = _ => destruct b
         end; congruence.
Qed.

Lemma deserialize_raise obj e :
  _deserialize_from_cache obj = Raise e -> e = ValueError \/ e = TypeError.
Proof.
  unfold _deserialize_from_cache. intros H.
  destruct obj as [| | | | | | |d]; try discriminate.
  destruct (dict_get d "__datetime__") as [[| | | |s| | |]|]; try discriminate;
    try (right; congruence).
  destruct (fromisoformat s) as [t|e'] eqn:Hs; [discriminate|].
  rewrite bind_Raise in H. injection H as <-.
  left. by eapply fromisoformat_raise.
Qed.

Lemma json_loads_raise :
  forall j e, json_loads j = Raise e -> e = ValueError \/ e = TypeError.
Proof.
  fix IH 1. intros [| | | | |l|d] e H; try discriminate.
  - cbn [json_loads] in H.
    match type of H with (?m ≫= _) = _ => destruct m as [items|e'] eqn:Hitems end;
      [discriminate|].
    rewrite bind_Raise in H. injection H as <-.
    revert e' Hitems.
    induction l as [|x rest IHl]; intros e' Hitems; [discriminate|].
    destruct (json_loads x) as [v|ex] eqn:Hx.
    + rewrite bind_Ok in Hitems.
      match type of Hitems with
      | (?m ≫= _) = _ => destruct m as [vs|er] eqn:Hrest
      end; [discriminate|].
      rewrite bind_Raise in Hitems. injection Hitems as <-. by apply IHl.
    + rewrite bind_Raise in Hitems. injection Hitems as <-. by eapply IH.
  - cbn [json_loads] in H.
    match type of H with (?m ≫= _) = _ => destruct m as [obj|e'] eqn:Hpairs end.
    + rewrite bind_Ok in H. by eapply deserialize_raise.
    + rewrite bind_Raise in H. injection H as <-.
      revert Hpairs. generalize (@nil (string * pyval)).
      induction d as [|[k x] rest IHd]; intros obj Hpairs; [discriminate|].
      destruct (json_loads x) as [v|ex] eqn:Hx.
      * rewrite bind_Ok in Hpairs. by eapply IHd.
      * rewrite bind_Raise in Hpairs. injection Hpairs as <-. by eapply IH.
Qed.

(** ** What an operation leaves as it is *)

Lemma store_op_same_data w : same_data w (store_op w).2.
Proof. unfold store_op. by destruct (faults w) as [|[e|] rest]. Qed.

Lemma same_data_trans w1 w2 w3 : same_data w1 w2 -> same_data w2 w3 -> same_data w1 w3.
Proof. intros [? ?] [? ?]. split; congruence. Qed.

Lemma store_op_twice_same_data w : same_data w ((_ ← store_op; store_op) w).2.
Proof.
  rewrite M_bind_unfold. pose proof (store_op_same_data w) as H1.
  destruct (store_op w) as [[[]|e] w1]; simpl in *; [|done].
  eapply same_data_trans; [exact H1|]. apply store_op_same_data.
Qed.

Lemma retry_loop_same_data (body : M unit) :
  (forall w, same_data w (body w).2) ->
  forall remaining attempt w, same_data w (retry_loop body remaining attempt w).2.
Proof.
  intros Hbody. induction remaining as [|remaining IH]; intros attempt w.
  - by split.
  - simpl. pose proof (Hbody w) as H1.
    destruct (body w) as [[[]|e] w1]; simpl in H1; [exact H1|].
    destruct e as [| | | | | |[|]]; try exact H1.
    match goal with |- context [if ?b then _ else _] => destruct b end;
      [exact H1|].
    rewrite M_bind_unfold. simpl.
    eapply same_data_trans; [exact H1|].
    eapply same_data_trans; [|apply IH]. by split.
Qed.

Lemma enter_same_data w : same_data w (__enter__ w).2.
Proof. apply retry_loop_same_data. apply store_op_twice_same_data. Qed.

(** ** The cached wrapper *)

(** A hit, whatever the number of attempts the connection took: [w1] is the
    world once the connection is open. *)
Lemma wrapper_hit table_name ttl_seconds func_name func args kwargs w w1 value
    timestamp :
  __enter__ w = (Ok tt, w1) ->
  next_ops_succeed 2 w1 ->
  lookup_row w1 table_name (make_cache_key func_name args kwargs)
  = Some (value, timestamp) ->
  (clock w1 - timestamp < inject_Z ttl_seconds)%Q ->
  wrapper table_name ttl_seconds func_name func args kwargs w
  = (json_loads value, set_faults w1 (drop 2 (faults w1))).
Proof.
  intros H1 Hok Hrow Hfresh.
  set (cache_key := make_cache_key func_name args kwargs) in *.
  assert (Htable : exists t, tables w1 !! table_name = Some t).
  { unfold lookup_row in Hrow. destruct (tables w1 !! table_name) as [t|]; [by eexists|done]. }
  destruct Htable as [t Htable].
  set (w2 := set_faults w1 (drop 1 (faults w1))).
  set (w3 := set_faults w2 (drop 1 (faults w2))).
  assert (H2 : create_table table_name w1 = (Ok tt, w2)).
  { apply (create_table_existing _ t); [|exact Htable].
    apply (next_ops_succeed_le 2 1); [lia|done]. }
  assert (H3 : select_row table_name cache_key w2 = (Ok (Some (value, timestamp)), w3)).
  { rewrite select_row_succeeds.
    - change (tables w2) with (tables w1). by rewrite <- Hrow.
    - by apply (next_ops_succeed_drop 1 1). }
  assert (Hw3 : w3 = set_faults w1 (drop 2 (faults w1))).
  { unfold w3, w2. unfold set_faults. cbn [tables clock faults calls].
    rewrite !drop_drop. reflexivity. }
  unfold wrapper, except_sqlite. cbv zeta.
  change (make_cache_key func_name args kwargs) with cache_key.
  rewrite (M_bind_ok _ _ _ _ _ H1), (M_bind_ok _ _ _ _ _ H2), (M_bind_ok _ _ _ _ _ H3).
  rewrite M_bind_unfold. unfold time. change (clock w3) with (clock w1).
  apply Qlt_bool_iff in Hfresh. rewrite Hfresh. unfold lift. rewrite <- Hw3.
  destruct (json_loads value) as [v|e] eqn:Hload; [reflexivity|].
  destruct (json_loads_raise _ _ Hload) as [-> | ->]; reflexivity.
Qed.

Lemma wrapper_miss table_name ttl_seconds func_name func args kwargs w v :
  faults w = [] ->
  fresh_row ttl_seconds (clock w)
    (lookup_row w table_name (make_cache_key func_name args kwargs)) = false ->
  func (calls w) = Ok v ->
  wrapper table_name ttl_seconds func_name func args kwargs w
  = (Ok v,
     mk_world
       (<[table_name := <[make_cache_key func_name args kwargs
                            := (json_dumps v, clock w)]>
                          (default ∅ (tables w !! table_name))]> (tables w))
       (clock w) [] (S (calls w))).
Proof.
  intros Hf Hmiss Hfunc.
  set (cache_key := make_cache_key func_name args kwargs) in *.
  destruct w as [tb ck fl cl]. simpl in Hf. subst fl.
  unfold lookup_row in Hmiss. simpl in Hmiss, Hfunc.
  set (w := mk_world tb ck [] cl).
  assert (Hnil : forall n w', faults w' = [] -> next_ops_succeed n w')
    by (intros; by apply next_ops_succeed_nil).
  assert (H1 : __enter__ w = (Ok tt, w)).
  { rewrite enter_succeeds by (by apply Hnil). reflexivity. }
  unfold wrapper, except_sqlite. cbv zeta.
  change (make_cache_key func_name args kwargs) with cache_key.
  rewrite (M_bind_ok _ _ _ _ _ H1).
  destruct (tb !! table_name) as [t|] eqn:Htable.
  - assert (H2 : create_table table_name w = (Ok tt, w)).
    { rewrite (create_table_existing _ t) by (by apply Hnil || done). reflexivity. }
    rewrite (M_bind_ok _ _ _ _ _ H2).
    assert (H3 : select_row table_name cache_key w = (Ok (t !! cache_key), w)).
    { rewrite select_row_succeeds by (by apply Hnil). simpl. by rewrite Htable. }
    rewrite (M_bind_ok _ _ _ _ _ H3).
    rewrite M_bind_unfold. unfold time. cbn [clock w].
    simpl in Hmiss.
    assert (Hstore :
      (new_value ← call func;
       _ ← retry_loop
             (insert_or_replace table_name cache_key (json_dumps new_value) ck)
             MAX_RETRIES 0;
       mret new_value) w
      = (Ok v, mk_world (<[table_name := <[cache_key := (json_dumps v, ck)]> t]> tb)
                 ck [] (S cl))).
    { rewrite M_bind_unfold. unfold call. cbn [calls w]. rewrite Hfunc.
      rewrite M_bind_unfold. unfold MAX_RETRIES.
      erewrite retry_loop_first_ok;
        [|apply insert_or_replace_succeeds; by apply Hnil].
      simpl. by rewrite Htable. }
    destruct (t !! cache_key) as [[value timestamp]|].
    + simpl in Hmiss. rewrite Hmiss, Hstore. subst w. simpl. by rewrite Htable.
    + rewrite Hstore. subst w. simpl. by rewrite Htable.
  - assert (H2 : create_table table_name w
                 = (Ok tt, mk_world (<[table_name := ∅]> tb) ck [] cl)).
    { rewrite create_table_missing by (by apply Hnil || done). reflexivity. }
    rewrite (M_bind_ok _ _ _ _ _ H2).
    set (w2 := mk_world (<[table_name := ∅]> tb) ck [] cl).
    assert (H3 : select_row table_name cache_key w2 = (Ok None, w2)).
    { rewrite select_row_succeeds by (by apply Hnil). simpl.
      by rewrite lookup_insert_eq. }
    rewrite (M_bind_ok _ _ _ _ _ H3).
    rewrite M_bind_unfold. unfold time. cbn [clock w2].
    rewrite M_bind_unfold. unfold call. cbn [calls w2]. rewrite Hfunc.
    rewrite M_bind_unfold. unfold MAX_RETRIES.
    erewrite retry_loop_first_ok;
      [|apply insert_or_replace_succeeds; by apply Hnil].
    simpl. rewrite lookup_insert_eq. simpl.
    unfold set_tables, set_faults. simpl. by rewrite insert_insert_eq, Htable.
Qed.

(** C5. When the connection is open and the store answers, the row of the
    key exists and its timestamp is less than the TTL old at the time the
    wrapper reads the clock, the wrapper returns the decoded stored value,
    does not invoke the wrapped function and leaves the store as it is;
    hence of two calls less than the TTL apart on a store that answers, the
    first one missing the cache, only the first invokes the function. *)
Theorem cached_within_ttl table_name ttl_seconds func_name func args kwargs w w1 value
    timestamp
    (Hopen : __enter__ w = (Ok tt, w1))
    (Hstore : next_ops_succeed 2 w1)
    (Hrow : lookup_row w table_name (make_cache_key func_name args kwargs)
            = Some (value, timestamp))
    (Hfresh : (clock w1 - timestamp < inject_Z ttl_seconds)%Q) :
  ((wrapper table_name ttl_seconds func_name func args kwargs w).1 = json_loads value /\
   calls (wrapper table_name ttl_seconds func_name func args kwargs w).2 = calls w /\
   tables (wrapper table_name ttl_seconds func_name func args kwargs w).2 = tables w) /\
  (forall w0 v now,
     faults w0 = [] ->
     fresh_row ttl_seconds (clock w0)
       (lookup_row w0 table_name (make_cache_key func_name args kwargs)) = false ->
     func (calls w0) = Ok v ->
     (now - clock w0 < inject_Z ttl_seconds)%Q ->
     let first := wrapper table_name ttl_seconds func_name func args kwargs w0 in
     let second :=
       wrapper table_name ttl_seconds func_name func args kwargs (set_clock first.2 now) in
     first.1 = Ok v /\
     second.1 = json_loads (json_dumps v) /\
     calls second.2 = S (calls w0)).
Proof.
  split.
  - destruct (enter_same_data w) as [Ht Hc]. rewrite Hopen in Ht, Hc. simpl in Ht, Hc.
    assert (Hrow1 : lookup_row w1 table_name (make_cache_key func_name args kwargs)
                    = Some (value, timestamp)).
    { unfold lookup_row in *. by rewrite Ht. }
    rewrite (wrapper_hit _ _ _ _ _ _ _ _ _ _ Hopen Hstore Hrow1 Hfresh). simpl.
    by rewrite Ht, Hc.
  - intros w0 v now Hf Hmiss Hfunc Hnow first second. subst first second.
    rewrite (wrapper_miss _ _ _ _ _ _ _ _ Hf Hmiss Hfunc).
    cbn [fst snd set_clock tables clock faults calls].
    match goal with
    | |- context [wrapper _ _ _ _ _ _ ?w] => set (w2 := w)
    end.
    assert (Hopen2 : __enter__ w2 = (Ok tt, w2)).
    { rewrite enter_succeeds by (by apply next_ops_succeed_nil). reflexivity. }
    rewrite (wrapper_hit _ _ _ _ _ _ w2 w2 (json_dumps v) (clock w0) Hopen2).
    + done.
    + by apply next_ops_succeed_nil.
    + unfold lookup_row. simpl. rewrite lookup_insert_eq. simpl.
      by rewrite lookup_insert_eq.
    + exact Hnow.
Qed.

(** ** Exhausted retries *)

Lemma insert_or_replace_raise_same_data table_name cache_key value timestamp w e w' :
  insert_or_replace table_name cache_key value timestamp w = (Raise e, w') ->
  same_data w w'.
Proof.
  unfold insert_or_replace. rewrite M_bind_unfold.
  pose proof (store_op_same_data w) as H1.
  destruct (store_op w) as [[[]|e1] w1]; simpl in H1.
  - rewrite M_bind_unfold. pose proof (store_op_same_data w1) as H2.
    destruct (store_op w1) as [[[]|e2] w2]; simpl in H2.
    + discriminate.
    + intros [= <- <-]. by eapply same_data_trans.
  - by intros [= <- <-].
Qed.

Lemma retry_loop_raise_same_data (body : M unit) :
  (forall w e w', body w = (Raise e, w') -> same_data w w') ->
  forall remaining attempt w e w',
    retry_loop body remaining attempt w = (Raise e, w') -> same_data w w'.
Proof.
  intros Hbody. induction remaining as [|remaining IH]; intros attempt w e w' Hrun.
  - discriminate.
  - simpl in Hrun.
    destruct (body w) as [[[]|eb] w1] eqn:Hb; [discriminate|].
    pose proof (Hbody _ _ _ Hb) as H1.
    destruct eb as [| | | | | |[|]]; try (injection Hrun as <- <-; exact H1).
    match type of Hrun with context [if ?b then _ else _] => destruct b end.
    + injection Hrun as <- <-. exact H1.
    + rewrite M_bind_unfold in Hrun. simpl in Hrun.
      apply IH in Hrun. eapply same_data_trans; [exact H1|]. exact Hrun.
Qed.

Lemma enter_raise_same_data w e w' :
  __enter__ w = (Raise e, w') -> same_data w w'.
Proof.
  apply retry_loop_raise_same_data. intros w0 e0 w0' H.
  pose proof (store_op_twice_same_data w0) as Hs. by rewrite H in Hs.
Qed.

(** C2, as the code has it. When the connection or the upsert has failed
    with a store error, also after the five attempts of a contention error,
    the error does not reach the caller: the handler of [sqlite3.Error]
    around the whole body catches it and the call gives what a direct
    invocation of the wrapped function gives.  Nothing has been written; in
    the upsert case the value computed before the write is dropped and the
    function is invoked once more. *)
Theorem store_failure_falls_back table_name ttl_seconds func_name func args kwargs :
  (forall w w' e,
     __enter__ w = (Raise (SqliteError e), w') ->
     wrapper table_name ttl_seconds func_name func args kwargs w = call func w' /\
     (wrapper table_name ttl_seconds func_name func args kwargs w).1 = func (calls w) /\
     tables w' = tables w) /\
  (forall w w1 w2 w3 w4 w5 row v e,
     __enter__ w = (Ok tt, w1) ->
     create_table table_name w1 = (Ok tt, w2) ->
     select_row table_name (make_cache_key func_name args kwargs) w2 = (Ok row, w3) ->
     fresh_row ttl_seconds (clock w3) row = false ->
     call func w3 = (Ok v, w4) ->
     retry_loop
       (insert_or_replace table_name (make_cache_key func_name args kwargs)
          (json_dumps v) (clock w3))
       MAX_RETRIES 0 w4 = (Raise (SqliteError e), w5) ->
     wrapper table_name ttl_seconds func_name func args kwargs w = call func w5 /\
     (wrapper table_name ttl_seconds func_name func args kwargs w).1 = func (S (calls w3)) /\
     tables w5 = tables w3).
Proof.
  split.
  - intros w w' e Henter.
    assert (Hw : wrapper table_name ttl_seconds func_name func args kwargs w = call func w').
    { unfold wrapper, except_sqlite. cbv zeta.
      by rewrite (M_bind_raise _ _ _ _ _ Henter). }
    destruct (enter_raise_same_data _ _ _ Henter) as [Ht Hc].
    split; [exact Hw|]. split; [|exact Ht].
    rewrite Hw. unfold call. simpl. by rewrite Hc.
  - intros w w1 w2 w3 w4 w5 row v e Henter Hcreate Hselect Hmiss Hcall Hupsert.
    set (cache_key := make_cache_key func_name args kwargs) in *.
    assert (Hstore :
      (new_value ← call func;
       _ ← retry_loop
             (insert_or_replace table_name cache_key (json_dumps new_value) (clock w3))
             MAX_RETRIES 0;
       mret new_value) w3 = (Raise (SqliteError e), w5)).
    { rewrite (M_bind_ok _ _ _ _ _ Hcall). by rewrite (M_bind_raise _ _ _ _ _ Hupsert). }
    assert (Hw : wrapper table_name ttl_seconds func_name func args kwargs w = call func w5).
    { unfold wrapper, except_sqlite. cbv zeta.
      change (make_cache_key func_name args kwargs) with cache_key.
      rewrite (M_bind_ok _ _ _ _ _ Henter), (M_bind_ok _ _ _ _ _ Hcreate),
        (M_bind_ok _ _ _ _ _ Hselect).
      rewrite M_bind_unfold. unfold time.
      destruct row as [[value timestamp]|].
      - simpl in Hmiss. rewrite Hmiss. by rewrite Hstore.
      - by rewrite Hstore. }
    assert (Hdata : same_data w4 w5).
    { eapply retry_loop_raise_same_data; [|exact Hupsert].
      intros. by eapply insert_or_replace_raise_same_data. }
    destruct Hdata as [Ht Hc].
    unfold call in Hcall. injection Hcall as Hv <-. simpl in Ht, Hc.
    split; [exact Hw|]. split; [|exact Ht].
    rewrite Hw. unfold call. simpl. by rewrite Hc.
Qed.

(** * The specification at concrete inputs *)

(** The baseline of the walk is the opening equity of the head of the
    series as it was fetched. *)
Lemma running_ytd_baseline h_first rest transfers h_last :
  last (h_first :: rest) = Some h_last ->
  let start_date := mk_date (year (begins_at h_last)) 1 1 in
  running_ytd (h_first :: rest) transfers
  = (w ← day_loop (open_equity h_first)
           (List.filter (fun t => date_ge (date_of (created_at t)) start_date) transfers)
           (tail (List.filter (fun h => date_ge (date_of (begins_at h)) start_date)
                    (h_first :: rest)))
           (mk_walk 0 0 [mk_PercentageDate (DDate start_date) 0]);
     Ok (w_percentages w)).
Proof. intros Hlast. unfold running_ytd. by rewrite Hlast. Qed.

(** C1. The baseline of every point is the opening equity of the first
    sample of the series as fetched, before the restriction to the current
    year.  On a series that starts on December 31st with an opening equity
    of 500, the point of January 2nd is [(1100 - 500) / 500], whereas the
    first sample on or after January 1st opens at 1000. *)
Theorem ytd_baseline_before_filter :
  (get_running_ytd_percentage [0; 1; 2]%nat [] (heap_of prior_year_series [])).1
  = Ok [mk_PercentageDate (DDate (mk_date 2024 1 1)) 0;
        mk_PercentageDate (DDatetime (utc 2024 1 2)) (600 # 500)] /\
  head (List.filter (fun h => date_ge (date_of (begins_at h)) (mk_date 2024 1 1))
          prior_year_series)
  = Some (equity_sample 1000 1000 (utc 2024 1 1)) /\
  ~ (600 # 500 == (1100 - (1000 + 0)) / (1000 + 0))%Q.
Proof.
  split; [|split].
  - vm_compute. reflexivity.
  - vm_compute. reflexivity.
  - intros H. vm_compute in H. discriminate.
Qed.

(** C3. [get_bank_transfers] sorts by [updated_at].  Of two transfers the
    first of which was created first and updated last, it returns the
    second before the first: the one created on January 10th comes before
    the one created on January 5th. *)
Theorem transfers_sorted_by_updated_at (float_of_str : string -> option Q) :
  exists first second,
    get_bank_transfers float_of_str late_update_transfers = Ok [first; second] /\
    getitem first "id" = Ok (VStr "T2") /\
    getitem second "id" = Ok (VStr "T1") /\
    getitem first "created_at" = Ok (VDatetime (utc 2024 1 10)) /\
    getitem second "created_at" = Ok (VDatetime (utc 2024 1 5)) /\
    py_lt (VDatetime (utc 2024 1 5)) (VDatetime (utc 2024 1 10)) = Ok true.
Proof.
  do 2 eexists. split; [vm_compute; reflexivity|].
  repeat split; vm_compute; reflexivity.
Qed.

(** C2, as stated, fails.  After five contention errors at the connection,
    and after five contention errors at the upsert, the caller receives the
    value of the wrapped function and no error. *)
Lemma store_error_not_propagated :
  (__enter__ (empty_store (repeat (Some OperationalError) 5))).1
  = Raise (SqliteError OperationalError) /\
  (wrapper "t" 3600 "f" counting_func "(5,)" "{}"
     (empty_store (repeat (Some OperationalError) 5))).1 = Ok (VInt 10) /\
  (retry_loop (insert_or_replace "t" "f:(5,):{}" (JInt 10) 1000) MAX_RETRIES 0
     (empty_store (repeat (Some OperationalError) 5))).1
  = Raise (SqliteError OperationalError) /\
  (wrapper "t" 3600 "f" counting_func "(5,)" "{}"
     (empty_store (repeat None 4 ++ repeat (Some OperationalError) 5))).1
  = Ok (VInt 11) /\
  ~ (forall table_name ttl_seconds func_name func args kwargs w,
       (__enter__ w).1 = Raise (SqliteError OperationalError) ->
       (wrapper table_name ttl_seconds func_name func args kwargs w).1
       = Raise (SqliteError OperationalError)).
Proof.
  split; [vm_compute; reflexivity|].
  split; [vm_compute; reflexivity|].
  split; [vm_compute; reflexivity|].
  split; [vm_compute; reflexivity|].
  intros H.
  specialize (H "t" 3600 "f" counting_func "(5,)" "{}"
                (empty_store (repeat (Some OperationalError) 5))).
  vm_compute in H. specialize (H eq_refl). discriminate.
Qed.

(** ** Instances of the theorems *)

(** Membership in a list that is written out. *)
Ltac find_elem :=
  repeat first [apply list_elem_of_here | apply list_elem_of_further].

(** Closes 100 then 110 give two pairs. *)
Lemma percentage_series_witness :
  exists pairs,
    _get_historical_portfolio_percentage two_day_series = Ok pairs /\
    length pairs = 2%nat /\
    (exists p, pairs !! 1%nat = Some p /\
       percentage p = ((110 - 100) / 100)%Q).
Proof.
  destruct (percentage_series_spec two_day_series)
    as (pairs & Hrun & Hlen & _ & _ & Hnext).
  - repeat constructor; intros H; vm_compute in H; discriminate.
  - exists pairs. split; [exact Hrun|]. split; [exact Hlen|].
    destruct (Hnext 0%nat (equity_sample 100 100 (utc 2024 1 1))
                (equity_sample 100 110 (utc 2024 1 2)) eq_refl eq_refl)
      as (p & Hp & _ & Hpct).
    exists p. split; [exact Hp | exact Hpct].
Defined.

(** A warm store answers without a call, here after one contention error
    at the connection; a cold one calls once for two calls 500 seconds
    apart. *)
Lemma cached_within_ttl_witness :
  (wrapper "t" 3600 "f" counting_func "(5,)" "{}"
     (set_faults warm_store [Some OperationalError])).1 = json_loads (JInt 7) /\
  calls (wrapper "t" 3600 "f" counting_func "(5,)" "{}"
           (set_faults warm_store [Some OperationalError])).2 = 3%nat /\
  calls (wrapper "t" 3600 "f" counting_func "(5,)" "{}"
           (set_clock (wrapper "t" 3600 "f" counting_func "(5,)" "{}" (empty_store [])).2
              1500)).2
  = 1%nat.
Proof.
  destruct (cached_within_ttl "t" 3600 "f" counting_func "(5,)" "{}"
              (set_faults warm_store [Some OperationalError])
              (__enter__ (set_faults warm_store [Some OperationalError])).2
              (JInt 7) 900)
    as [(Hval & Hcalls & _) Htwice].
  - vm_compute. reflexivity.
  - intros i e _. destruct i; discriminate.
  - vm_compute. reflexivity.
  - vm_compute. reflexivity.
  - split; [exact Hval|]. split; [exact Hcalls|].
    destruct (Htwice (empty_store []) (VInt 10) 1500%Q eq_refl eq_refl eq_refl eq_refl)
      as (_ & _ & Hone).
    exact Hone.
Defined.

(** Of a completed deposit, a completed withdrawal and a pending deposit,
    only the first counts. *)
Lemma merge_join_deposits_witness :
  fold_left add_deposit (take (3 - 0) (drop 0 mixed_transfers)) 0%Q = (0 + 500)%Q.
Proof.
  destruct (merge_join_deposits mixed_transfers
              (equity_sample 1000 1100 (utc 2024 1 3)) 0 0 3 (0 + 500)%Q)
    as (_ & Htotal & _).
  - vm_compute. reflexivity.
  - symmetry. exact Htotal.
Defined.

(** With no equity and no deposit the day adds no point. *)
Lemma zero_baseline_skipped_witness :
  day_step 0 [] (mk_walk 0 0 []) (equity_sample 0 100 (utc 2024 1 2))
  = Ok (mk_walk 0 0 []).
Proof.
  destruct (zero_baseline_skipped 0 [] (mk_walk 0 0 [])
              (equity_sample 0 100 (utc 2024 1 2)) 0%nat 0%Q)
    as (Hskip & _).
  - vm_compute. reflexivity.
  - apply Hskip. reflexivity.
Defined.

(** A datetime with microseconds and a negative offset. *)
Lemma datetime_hook_roundtrip_witness :
  _deserialize_from_cache
    (_serialize_for_cache
       (VDatetime (mk_datetime 2024 1 2 13 5 9 235268 (Some (-240)))))
  = Ok (VDatetime (mk_datetime 2024 1 2 13 5 9 235268 (Some (-240)))).
Proof.
  apply (datetime_hook_roundtrip (mk_datetime 2024 1 2 13 5 9 235268 (Some (-240)))).
  vm_compute. reflexivity.
Defined.

(** The transfer created on January 1st is dated December 31st after the
    call. *)
Lemma transfers_shifted_in_place_witness :
  created_at
    (transfer_obj
       (get_running_ytd_percentage [0; 1]%nat [0; 1; 2]%nat
          (heap_of two_day_series mixed_transfers)).2 0%nat)
  = utc 2023 12 31.
Proof.
  destruct (transfers_shifted_in_place [0; 1]%nat [0; 1; 2]%nat
              (heap_of two_day_series mixed_transfers))
    as (Hshift & _ & _).
  - apply (bool_decide_unpack _). vm_compute. exact I.
  - intros l Hl.
    repeat (apply elem_of_cons in Hl as [->|Hl]; [vm_compute; reflexivity|]).
    by apply elem_of_nil in Hl.
  - destruct (Hshift 0%nat) as (c & Hc & Hobj & _).
    + apply elem_of_cons. by left.
    + rewrite Hobj. vm_compute in Hc. injection Hc as <-. reflexivity.
Defined.

(** A float that does not parse becomes 0.0 and a date that is none
    becomes [None]. *)
Lemma convert_never_raises_witness :
  exists res,
    convert_dict_to_typed_dict (fun _ => None) malformed_transfer BankTransfer_type
    = Ok (VDict res) /\
    dict_get res "amount" = Some (VFloat 0) /\
    dict_get res "created_at" = Some VNone.
Proof.
  destruct (convert_never_raises (fun _ => None) malformed_transfer BankTransfer_type)
    as (_ & _ & Hdict).
  destruct (Hdict _ _ eq_refl eq_refl) as (res & Hres & Hfloat & Hraise).
  - apply (bool_decide_unpack _). vm_compute. exact I.
  - exists res. split; [exact Hres|]. split.
    + apply (Hfloat "amount" "abc"); [find_elem|reflexivity|reflexivity].
    + apply (Hraise "created_at" FDatetime ValueError); [find_elem|].
      vm_compute. reflexivity.
Defined.

(** Five contention errors at the connection: the caller gets the value of
    the first invocation. *)
Lemma store_failure_falls_back_witness :
  (wrapper "t" 3600 "f" counting_func "(5,)" "{}"
     (empty_store (repeat (Some OperationalError) 5))).1 = counting_func 0.
Proof.
  destruct (store_failure_falls_back "t" 3600 "f" counting_func "(5,)" "{}") as [Hconn _].
  destruct (Hconn (empty_store (repeat (Some OperationalError) 5))
              (__enter__ (empty_store (repeat (Some OperationalError) 5))).2
              OperationalError) as (_ & Hres & _).
  - vm_compute. reflexivity.
  - exact Hres.
Defined.

(** * Further properties *)

(** ** Operation A and division by zero *)

Lemma removelast_cons {A : Type} (x y : A) (l : list A) :
  removelast (x :: y :: l) = x :: removelast (y :: l).
Proof. reflexivity. Qed.

Lemma percentage_loop_last_free (hs : list EquityHistorical) :
  forall prev_close percentages,
    hs <> [] -> ~ (prev_close == 0)%Q -> Forall nonzero_close (removelast hs) ->
    percentage_loop hs prev_close percentages = Ok (percentages ++ deltas prev_close hs).
Proof.
  induction hs as [|h rest IH]; intros prev acc Hne Hprev Hall; [done|].
  cbn [percentage_loop deltas]. rewrite py_div_nonzero by assumption. rewrite bind_Ok.
  destruct rest as [|h' rest'].
  - reflexivity.
  - rewrite removelast_cons in Hall. inversion Hall as [|? ? Hh Hrest]; subst.
    rewrite IH by done. by rewrite <- app_assoc.
Qed.

Lemma percentage_loop_zero (hs : list EquityHistorical) :
  forall prev_close percentages,
    hs <> [] -> ((prev_close == 0)%Q \/ Exists zero_close (removelast hs)) ->
    percentage_loop hs prev_close percentages = Raise ZeroDivisionError.
Proof.
  induction hs as [|h rest IH]; intros prev acc Hne Hzero; [done|].
  cbn [percentage_loop].
  destruct (Qeq_bool prev 0) eqn:Hprev.
  - apply Qeq_bool_iff in Hprev. by rewrite py_div_zero.
  - assert (Hnz : ~ (prev == 0)%Q).
    { intros Hz. apply Qeq_bool_iff in Hz. congruence. }
    rewrite py_div_nonzero by exact Hnz. rewrite bind_Ok.
    destruct Hzero as [Hz|Hex]; [contradiction|].
    destruct rest as [|h' rest']; [by apply Exists_nil in Hex|].
    rewrite removelast_cons in Hex. apply IH; [done|].
    apply Exists_cons in Hex as [Hh|Hrest]; [by left|by right].
Qed.

(** X1. Operation A divides by the first close and by every close but the
    last: when one of them is zero it raises [ZeroDivisionError], and when
    none is it returns one pair per sample, whatever the last close is. *)
Theorem percentage_series_zero_close (h0 : EquityHistorical)
    (rest : list EquityHistorical) :
  (Exists zero_close (h0 :: removelast rest) ->
   _get_historical_portfolio_percentage (h0 :: rest) = Raise ZeroDivisionError) /\
  (Forall nonzero_close (h0 :: removelast rest) ->
   exists pairs,
     _get_historical_portfolio_percentage (h0 :: rest) = Ok pairs /\
     length pairs = S (length rest)).
Proof.
  unfold _get_historical_portfolio_percentage. split.
  - intros Hex. rewrite percentage_loop_zero; [done|done|].
    apply Exists_cons in Hex as [Hz|Hex]; [by left|].
    destruct rest as [|h1 rest']; [by apply Exists_nil in Hex|].
    right. rewrite removelast_cons. by apply Exists_cons; right.
  - intros Hall. inversion Hall as [|? ? Hh0 Hrest]; subst.
    rewrite percentage_loop_last_free; [|done|exact Hh0|].
    + rewrite bind_Ok, app_nil_l. eexists. split; [reflexivity|].
      rewrite length_zip_with, deltas_length. simpl. lia.
    + destruct rest as [|h1 rest']; [constructor|].
      rewrite removelast_cons. by constructor.
Qed.

(** ** Operation B: the shape of the series *)

Lemma consume_transfers_nil d idx total : consume_transfers [] d idx total = Ok (idx, total).
Proof. rewrite consume_transfers_body. by rewrite lookup_nil. Qed.

Lemma day_loop_points start_equity transfers days :
  forall w w',
    day_loop start_equity transfers days w = Ok w' ->
    exists added,
      w_percentages w' = w_percentages w ++ added /\
      (length added <= length days)%nat /\
      Forall (fun p => exists d, d ∈ days /\ date p = DDatetime (begins_at d)) added.
Proof.
  induction days as [|d rest IH]; intros w w' Hrun; simpl in Hrun.
  - injection Hrun as <-. exists []. rewrite app_nil_r. repeat split; [done|constructor].
  - pose proof (day_step_cases start_equity transfers w d) as Hc.
    destruct (consume_transfers transfers d (w_idx w) (w_total w)) as [[idx total]|e];
      [|by rewrite Hc in Hrun].
    destruct (Qeq_bool (start_equity + total) 0); rewrite Hc, bind_Ok in Hrun;
      apply IH in Hrun as (added & Hadd & Hlen & Hdates); simpl in Hadd.
    + exists added. split; [exact Hadd|]. split; [simpl; lia|].
      eapply Forall_impl; [exact Hdates|].
      intros p (d' & Hd' & Hp). exists d'. split; [by apply elem_of_cons; right|done].
    + eexists (_ :: added). split; [by rewrite Hadd, <- app_assoc|].
      split; [simpl; lia|]. constructor.
      * exists d. split; [by apply elem_of_cons; left|done].
      * eapply Forall_impl; [exact Hdates|].
        intros p (d' & Hd' & Hp). exists d'. split; [by apply elem_of_cons; right|done].
Qed.

Lemma tail_length {A : Type} (l : list A) : length (tail l) = (length l - 1)%nat.
Proof. destruct l; simpl; lia. Qed.

Lemma get_running_ytd_percentage_result historical transfers σ points :
  (get_running_ytd_percentage historical transfers σ).1 = Ok points ->
  running_ytd (map (equity_obj σ) historical)
    (map (transfer_obj (shift_transfers transfers σ).2) transfers) = Ok points.
Proof.
  unfold get_running_ytd_percentage. intros Hrun.
  pose proof (shift_transfers_equities transfers σ) as Heq.
  destruct (shift_transfers transfers σ) as [[[]|e] σ']; simpl in *; [|done].
  by rewrite <- Heq.
Qed.

(** X2. Whenever the year-to-date function returns, its list starts with
    the anchor [(January 1st of the year of the last sample, 0)], and every
    other point is dated by a sample on or after that day; there are at
    most as many further points as such samples after the first. *)
Theorem ytd_points_shape historical transfers σ points
    (Hrun : (get_running_ytd_percentage historical transfers σ).1 = Ok points) :
  exists h_last rest,
    last (map (equity_obj σ) historical) = Some h_last /\
    points = anchor (year (begins_at h_last)) :: rest /\
    (length rest
     <= length (List.filter (fun h => in_year (year (begins_at h_last)) (begins_at h))
                  (map (equity_obj σ) historical)) - 1)%nat /\
    Forall (fun p => exists h,
                h ∈ map (equity_obj σ) historical /\
                in_year (year (begins_at h_last)) (begins_at h) = true /\
                date p = DDatetime (begins_at h)) rest.
Proof.
  apply get_running_ytd_percentage_result in Hrun.
  unfold running_ytd in Hrun.
  destruct (last (map (equity_obj σ) historical)) as [h_last|]; [|done].
  destruct (head (map (equity_obj σ) historical)) as [h_first|]; [|done].
  match type of Hrun with
  | (?m ≫= _) = _ => destruct m as [w'|e] eqn:Hloop; [|done]
  end.
  rewrite bind_Ok in Hrun. injection Hrun as <-.
  apply day_loop_points in Hloop as (added & Hadd & Hlen & Hdates). simpl in Hadd.
  exists h_last, added. split; [done|]. split; [exact Hadd|]. split.
  - rewrite tail_length in Hlen. exact Hlen.
  - eapply Forall_impl; [exact Hdates|].
    intros p (d & Hd & Hp). exists d.
    apply elem_of_tail, list_elem_of_In, filter_In in Hd as [Hin Hyear].
    split; [by apply list_elem_of_In|]. by split.
Qed.

(** ** Operation B: the empty series *)

Lemma shifted_spec t c : sub_one_day (created_at t) = Ok c -> shifted t = set_created_at t c.
Proof. intros H. unfold shifted. by rewrite H. Qed.

(** X3. On an empty equity series the year-to-date function raises
    [IndexError], and it does so after it has moved the date of every
    transfer it was handed. *)
Theorem ytd_empty_series transfers σ
    (Hdup : NoDup transfers)
    (Hrange : forall l, l ∈ transfers ->
                is_ok (sub_one_day (created_at (transfer_obj σ l))) = true) :
  (get_running_ytd_percentage [] transfers σ).1 = Raise IndexError /\
  forall l, l ∈ transfers ->
    transfer_obj (get_running_ytd_percentage [] transfers σ).2 l
    = shifted (transfer_obj σ l).
Proof.
  destruct (shift_transfers_shifted transfers σ Hdup Hrange) as [Hok Hshift].
  split.
  - unfold get_running_ytd_percentage.
    destruct (shift_transfers transfers σ) as [[[]|e] σ']; simpl in *; done.
  - intros l Hl. rewrite get_running_ytd_percentage_heap.
    destruct (Hshift l Hl) as (c & Hc & Hobj). by rewrite Hobj, (shifted_spec _ c).
Qed.

(** ** Operation B returns on aware data *)

Lemma sub_one_day_tzoffset t c : sub_one_day t = Ok c -> tzoffset c = tzoffset t.
Proof.
  unfold sub_one_day. intros H.
  repeat match type of H with
         | (if ?b then _ else _) = _ => destruct b
         end; try discriminate; by injection H as <-.
Qed.



(** ** Operation B without transfers, and with a transfer that blocks *)

Lemma day_loop_fixed_baseline start_equity transfers days :
  forall w,
    (forall d, d ∈ days ->
       consume_transfers transfers d (w_idx w) (w_total w) = Ok (w_idx w, w_total w)) ->
    day_loop start_equity transfers days w
    = Ok (mk_walk (w_idx w) (w_total w)
            (w_percentages w ++
             if Qeq_bool (start_equity + w_total w) 0 then []
             else map (point_against (start_equity + w_total w)) days)).
Proof.
  induction days as [|d rest IH]; intros w Hstall; simpl.
  - destruct w. simpl. destruct (Qeq_bool _ 0); by rewrite app_nil_r.
  - pose proof (day_step_cases start_equity transfers w d) as Hc.
    rewrite (Hstall d) in Hc by (by apply elem_of_cons; left).
    destruct (Qeq_bool (start_equity + w_total w) 0) eqn:Hz;
      rewrite Hc, bind_Ok; rewrite IH; simpl; rewrite ?Hz.
    + done.
    + intros d' Hd'. apply Hstall. by apply elem_of_cons; right.
    + by rewrite <- app_assoc.
    + intros d' Hd'. apply Hstall. by apply elem_of_cons; right.
Qed.

(** X5. With no transfers the year-to-date function never compares dates:
    on a series that is not empty it returns the anchor followed, unless
    the opening equity of the first sample is zero, by one point per
    further sample of the year, each against that opening equity. *)
Theorem ytd_without_transfers historical σ h_first h_last
    (Hfirst : head (map (equity_obj σ) historical) = Some h_first)
    (Hlast : last (map (equity_obj σ) historical) = Some h_last) :
  (get_running_ytd_percentage historical [] σ).1
  = Ok (anchor (year (begins_at h_last)) ::
        if Qeq_bool (open_equity h_first + 0) 0 then []
        else map (point_against (open_equity h_first + 0))
               (tail (List.filter
                        (fun h => in_year (year (begins_at h_last)) (begins_at h))
                        (map (equity_obj σ) historical)))).
Proof.
  unfold get_running_ytd_percentage. cbn [shift_transfers map fst].
  unfold running_ytd. rewrite Hlast, Hfirst. cbn [List.filter].
  rewrite day_loop_fixed_baseline.
  - rewrite bind_Ok. reflexivity.
  - intros d _. apply consume_transfers_nil.
Qed.

(** X6. The transfer pointer never passes a transfer that is not before the
    day.  After the shift of the dates, when the first transfer of the year
    is before none of the days walked, no transfer is ever counted and the
    series is the one computed without transfers, whatever follows it in
    the list. *)
Theorem ytd_blocked_by_late_transfer historical transfers h_last t
    (Hlast : last historical = Some h_last)
    (Hhead : head (List.filter
                     (fun t => in_year (year (begins_at h_last)) (created_at t))
                     transfers) = Some t)
    (Hlate : forall d,
        d ∈ tail (List.filter
                    (fun h => in_year (year (begins_at h_last)) (begins_at h))
                    historical) ->
        dt_lt (created_at t) (begins_at d) = Ok false) :
  running_ytd historical transfers = running_ytd historical [].
Proof.
  unfold running_ytd. rewrite Hlast.
  destruct (head historical) as [h_first|]; [|done].
  cbn [List.filter]. fold (in_year (year (begins_at h_last))).
  rewrite !day_loop_fixed_baseline; [done| |].
  - intros d _. apply consume_transfers_nil.
  - intros d Hd. cbn [w_idx w_total].
    rewrite consume_transfers_body.
    destruct (List.filter _ transfers) as [|t0 rest]; [done|].
    injection Hhead as ->. cbn [lookup list_lookup].
    by rewrite (Hlate d Hd).
Qed.

(** ** Operation B: the shift at the first day of year one *)

Lemma shift_transfers_app pre post :
  forall σ,
    shift_transfers (pre ++ post) σ
    = match shift_transfers pre σ with
      | (Ok _, σ') => shift_transfers post σ'
      | (Raise e, σ') => (Raise e, σ')
      end.
Proof.
  induction pre as [|l rest IH]; intros σ; simpl; [done|].
  destruct (sub_one_day (created_at (transfer_obj σ l))); [apply IH|done].
Qed.

(** X7. A transfer dated on the first day of year one stops the function
    with [OverflowError] in the middle of the shift: the transfers listed
    before it are already one day earlier, every other one is as it was. *)
Theorem ytd_overflow_partial historical pre l post σ
    (Hdup : NoDup (pre ++ l :: post))
    (Hrange : forall l', l' ∈ pre ->
                is_ok (sub_one_day (created_at (transfer_obj σ l'))) = true)
    (Hfirst_day : sub_one_day (created_at (transfer_obj σ l)) = Raise OverflowError) :
  let after := get_running_ytd_percentage historical (pre ++ l :: post) σ in
  after.1 = Raise OverflowError /\
  (forall l', l' ∈ pre -> transfer_obj after.2 l' = shifted (transfer_obj σ l')) /\
  (forall l', l' ∉ pre -> transfer_obj after.2 l' = transfer_obj σ l').
Proof.
  apply NoDup_app in Hdup as (Hpre & Hdisj & _).
  destruct (shift_transfers_shifted pre σ Hpre Hrange) as [Hok Hshift].
  assert (Hl : transfer_obj (shift_transfers pre σ).2 l = transfer_obj σ l).
  { apply shift_transfers_frame. intros Hin. apply (Hdisj l Hin).
    by apply elem_of_cons; left. }
  assert (Hrun : shift_transfers (pre ++ l :: post) σ
                 = (Raise OverflowError, (shift_transfers pre σ).2)).
  { rewrite shift_transfers_app.
    destruct (shift_transfers pre σ) as [[[]|e] σ1]; simpl in *; [|done].
    by rewrite Hl, Hfirst_day. }
  intros after. subst after. unfold get_running_ytd_percentage. rewrite Hrun.
  split; [done|]. cbn [snd]. split.
  - intros l' Hl'. destruct (Hshift l' Hl') as (c & Hc & Hobj).
    by rewrite Hobj, (shifted_spec _ c).
  - intros l' Hl'. by apply shift_transfers_frame.
Qed.

Lemma days_in_month_bounds y m : 28 <= days_in_month y m <= 31.
Proof.
  unfold days_in_month.
  repeat match goal with |- context [if ?b then _ else _] => destruct b end; lia.
Qed.

Lemma sub_one_day_valid t c :
  datetime_ok t = true -> sub_one_day t = Ok c -> datetime_ok c = true.
Proof.
  intros Hok Hsub. pose proof (sub_one_day_tzoffset _ _ Hsub) as Htz.
  unfold datetime_ok in *. rewrite Htz.
  repeat (apply andb_prop in Hok as [Hok ?]).
  pose proof (days_in_month_bounds (year t) (month t - 1)).
  unfold sub_one_day in Hsub.
  repeat match type of Hsub with
         | (if ?b then _ else _) = _ => destruct b eqn:?
         end; try discriminate; injection Hsub as <-; cbn [year month day hour minute
           second microsecond tzoffset];
    repeat (apply andb_true_intro; split); try assumption; try lia;
    try (change (days_in_month (year t - 1) 12) with 31; lia).
Qed.

(** X8. The shift keeps the datetimes valid: when every listed transfer
    holds a valid datetime after the first day of year one, every listed
    transfer holds a valid datetime after the call. *)
Theorem transfers_stay_valid historical transfers σ
    (Hdup : NoDup transfers)
    (Hvalid : forall l, l ∈ transfers ->
                datetime_ok (created_at (transfer_obj σ l)) = true)
    (Hrange : forall l, l ∈ transfers ->
                is_ok (sub_one_day (created_at (transfer_obj σ l))) = true) :
  forall l, l ∈ transfers ->
    datetime_ok
      (created_at (transfer_obj (get_running_ytd_percentage historical transfers σ).2 l))
    = true.
Proof.
  intros l Hl. rewrite get_running_ytd_percentage_heap.
  destruct (shift_transfers_shifted transfers σ Hdup Hrange) as [_ Hshift].
  destruct (Hshift l Hl) as (c & Hc & ->). simpl.
  eapply sub_one_day_valid; [|exact Hc]. by apply Hvalid.
Qed.

(** ** The cache gives values back as they were *)

Lemma json_loads_JList l :
  json_loads (JList l) = (items ← loads_items l; Ok (VList items)).
Proof. reflexivity. Qed.

Lemma json_loads_JDict d :
  json_loads (JDict d)
  = (obj ← loads_pairs d []; _deserialize_from_cache (VDict obj)).
Proof. reflexivity. Qed.

Lemma has_key_dict_get {A : Type} (d : list (string * A)) k :
  has_key d k = false -> dict_get d k = None.
Proof.
  unfold has_key. induction d as [|[k' v] rest IH]; [done|]. simpl.
  rewrite String.eqb_sym. destruct (String.eqb k' k); [done|]. exact IH.
Qed.

Lemma dict_set_fresh {A : Type} (d : list (string * A)) k v :
  has_key d k = false -> dict_set d k v = d ++ [(k, v)].
Proof.
  unfold has_key. induction d as [|[k' v'] rest IH]; [done|]. simpl.
  rewrite String.eqb_sym. destruct (String.eqb k' k); [done|].
  intros H. simpl. by rewrite IH.
Qed.

Lemma has_key_app {A : Type} (d1 d2 : list (string * A)) k :
  has_key (d1 ++ d2) k = has_key d1 k || has_key d2 k.
Proof. unfold has_key. by rewrite map_app, existsb_app. Qed.

Lemma loads_pairs_round_trip (d : list (string * pyval)) :
  (forall kv, kv ∈ d -> json_loads (json_dumps kv.2) = Ok kv.2) ->
  keys_distinct (map fst d) = true ->
  forall obj,
    (forall kv, kv ∈ d -> has_key obj kv.1 = false) ->
    loads_pairs (map (fun kv => (fst kv, json_dumps (snd kv))) d) obj = Ok (obj ++ d).
Proof.
  induction d as [|[k v] rest IH]; intros Hvalues Hkeys obj Hfresh.
  - by rewrite app_nil_r.
  - cbn [map loads_pairs fst snd].
    assert (Hv : json_loads (json_dumps v) = Ok v).
    { apply (Hvalues (k, v)). by apply elem_of_cons; left. }
    rewrite Hv, bind_Ok.
    simpl in Hkeys. apply andb_prop in Hkeys as [Hk Hrest].
    apply negb_true_iff in Hk.
    rewrite dict_set_fresh by (by apply (Hfresh (k, v)), elem_of_cons; left).
    rewrite IH.
    + by rewrite <- app_assoc.
    + intros kv Hkv. apply Hvalues. by apply elem_of_cons; right.
    + exact Hrest.
    + intros [k' v'] Hkv. rewrite has_key_app. apply orb_false_iff. split.
      * apply (Hfresh (k', v')). by apply elem_of_cons; right.
      * unfold has_key. simpl. rewrite orb_false_r.
        destruct (String.eqb_spec k' k) as [->|]; [|done].
        exfalso. apply not_true_iff_false in Hk. apply Hk.
        apply existsb_exists. exists k. split; [|apply String.eqb_refl].
        apply in_map_iff. exists (k, v'). split; [done|]. by apply list_elem_of_In.
Qed.

Lemma json_loads_dumps :
  forall v, json_safe v = true -> json_loads (json_dumps v) = Ok v.
Proof.
  fix IH 1. intros [| | | | |t|l|d] Hsafe; try reflexivity.
  - cbn [json_dumps _serialize_for_cache map fst snd json_of_basic].
    rewrite json_loads_JDict. cbn [loads_pairs json_loads].
    rewrite !bind_Ok. cbn [dict_set].
    unfold _deserialize_from_cache. cbn [dict_get String.eqb Ascii.eqb Bool.eqb].
    simpl in Hsafe. by rewrite fromisoformat_isoformat.
  - cbn [json_dumps]. rewrite json_loads_JList.
    assert (Hitems : loads_items (map json_dumps l) = Ok l).
    { cbn [json_safe] in Hsafe.
      induction l as [|x rest IHl]; [done|]. cbn [map loads_items].
      simpl in Hsafe. apply andb_prop in Hsafe as [Hx Hrest].
      rewrite (IH x Hx), bind_Ok. by rewrite (IHl Hrest). }
    by rewrite Hitems.
  - cbn [json_dumps]. rewrite json_loads_JDict.
    cbn [json_safe] in Hsafe.
    apply andb_prop in Hsafe as [Hsafe Hvalues].
    apply andb_prop in Hsafe as [Htag Hkeys]. apply negb_true_iff in Htag.
    rewrite loads_pairs_round_trip; [| |exact Hkeys|done].
    + rewrite bind_Ok, app_nil_l. unfold _deserialize_from_cache.
      by rewrite (has_key_dict_get _ _ Htag).
    + clear Htag Hkeys.
      induction d as [|[k x] rest IHd]; intros kv Hkv; [by apply elem_of_nil in Hkv|].
      simpl in Hvalues. apply andb_prop in Hvalues as [Hx Hrest].
      apply elem_of_cons in Hkv as [->|Hkv]; [exact (IH x Hx)|by apply IHd].
Qed.

(** X9. A value whose datetimes are valid and whose dictionaries have
    distinct keys other than [__datetime__] is decoded from its encoding as
    it was.  A dictionary whose only key is [__datetime__] is not: decoding
    gives the datetime that its string spells, or raises when it spells
    none. *)
Theorem json_round_trip :
  (forall v, json_safe v = true -> json_loads (json_dumps v) = Ok v) /\
  (forall s,
     json_loads (json_dumps (VDict [("__datetime__", VStr s)]))
     = (t ← fromisoformat s; Ok (VDatetime t))).
Proof.
  split; [exact json_loads_dumps|].
  intros s. cbn [json_dumps map fst snd]. rewrite json_loads_JDict.
  cbn [loads_pairs json_dumps json_of_basic json_loads]. by rewrite !bind_Ok.
Qed.

(** ** A second call and an expired row *)

Lemma fresh_row_stale ttl_seconds now value timestamp :
  ~ (now - timestamp < inject_Z ttl_seconds)%Q ->
  fresh_row ttl_seconds now (Some (value, timestamp)) = false.
Proof.
  intros Hstale. simpl. destruct (Qlt_bool _ _) eqn:E; [|done].
  apply Qlt_bool_iff in E. contradiction.
Qed.

(** X10. On a store that answers, when a call misses the cache and the
    wrapped function returns a value that the cache gives back as it was,
    a second call less than the TTL later returns the same value. *)
Theorem cached_value_returned table_name ttl_seconds func_name func args kwargs w0 v now
    (Hstore : faults w0 = [])
    (Hmiss : fresh_row ttl_seconds (clock w0)
               (lookup_row w0 table_name (make_cache_key func_name args kwargs)) = false)
    (Hfunc : func (calls w0) = Ok v)
    (Hsafe : json_safe v = true)
    (Hnow : (now - clock w0 < inject_Z ttl_seconds)%Q) :
  let first := wrapper table_name ttl_seconds func_name func args kwargs w0 in
  let second :=
    wrapper table_name ttl_seconds func_name func args kwargs (set_clock first.2 now) in
  first.1 = Ok v /\ second.1 = Ok v.
Proof.
  intros first second. subst first second.
  rewrite (wrapper_miss _ _ _ _ _ _ _ _ Hstore Hmiss Hfunc).
  cbn [fst snd set_clock tables clock faults calls].
  match goal with
  | |- context [wrapper _ _ _ _ _ _ ?w] => set (w2 := w)
  end.
  assert (Hopen2 : __enter__ w2 = (Ok tt, w2)).
  { rewrite enter_succeeds by (by apply next_ops_succeed_nil). reflexivity. }
  rewrite (wrapper_hit _ _ _ _ _ _ w2 w2 (json_dumps v) (clock w0) Hopen2).
  - cbn [fst]. by rewrite json_loads_dumps.
  - by apply next_ops_succeed_nil.
  - unfold lookup_row. simpl. rewrite lookup_insert_eq. simpl.
    by rewrite lookup_insert_eq.
  - exact Hnow.
Qed.

(** X11. On a store that answers, a row that is as old as the TTL or older
    is not used: the wrapped function is invoked once, its value is
    returned and replaces the row with the time of the call, and the rows
    of the other keys and tables stay as they are. *)
Theorem expired_row_recomputed table_name ttl_seconds func_name func args kwargs w value
    timestamp v
    (Hstore : faults w = [])
    (Hrow : lookup_row w table_name (make_cache_key func_name args kwargs)
            = Some (value, timestamp))
    (Hstale : ~ (clock w - timestamp < inject_Z ttl_seconds)%Q)
    (Hfunc : func (calls w) = Ok v) :
  let after := wrapper table_name ttl_seconds func_name func args kwargs w in
  after.1 = Ok v /\
  calls after.2 = S (calls w) /\
  lookup_row after.2 table_name (make_cache_key func_name args kwargs)
  = Some (json_dumps v, clock w) /\
  (forall table_name' cache_key',
     (table_name', cache_key') <> (table_name, make_cache_key func_name args kwargs) ->
     lookup_row after.2 table_name' cache_key' = lookup_row w table_name' cache_key').
Proof.
  intros after. subst after.
  rewrite (wrapper_miss _ _ _ _ _ _ _ v Hstore); [| |exact Hfunc].
  2:{ rewrite Hrow. by apply fresh_row_stale. }
  cbn [fst snd calls]. split; [done|]. split; [done|].
  unfold lookup_row in *. cbn [tables]. split.
  - rewrite lookup_insert_eq. simpl. by rewrite lookup_insert_eq.
  - intros table_name' cache_key' Hne.
    destruct (decide (table_name' = table_name)) as [->|Htable].
    + rewrite lookup_insert_eq. simpl.
      rewrite lookup_insert_ne by congruence.
      by destruct (tables w !! table_name).
    + by rewrite lookup_insert_ne.
Qed.

(** ** The retry policy of the connection *)

Lemma connect_contention w rest :
  faults w = Some OperationalError :: rest ->
  (_ ← store_op; store_op) w = (Raise (SqliteError OperationalError), set_faults w rest).
Proof. intros Hf. rewrite M_bind_unfold. unfold store_op. by rewrite Hf. Qed.

Lemma enter_after_failures (k : nat) :
  forall attempt remaining w rest,
    faults w = repeat (Some OperationalError) k ++ rest ->
    (k < remaining)%nat -> (attempt + k < MAX_RETRIES)%nat ->
    next_ops_succeed 2 (set_faults w rest) ->
    retry_loop (_ ← store_op; store_op) remaining attempt w
    = (Ok tt, mk_world (tables w) (slept attempt k (clock w)) (drop 2 rest) (calls w)).
Proof.
  induction k as [|k IH]; intros attempt remaining w rest Hf Hrem Hatt Hok.
  - destruct remaining as [|remaining]; [lia|].
    simpl in Hf. destruct w as [tb ck fl cl]. simpl in Hf. subst fl.
    apply retry_loop_first_ok. by rewrite store_op_twice.
  - destruct remaining as [|remaining]; [lia|].
    cbn [retry_loop]. simpl in Hf. rewrite (connect_contention _ _ Hf).
    unfold MAX_RETRIES in *.
    destruct (Nat.eqb_spec attempt (5 - 1)) as [Heq|_]; [simpl in Heq; lia|].
    rewrite M_bind_unfold. cbn [sleep].
    rewrite (IH (S attempt) remaining _ rest); [done|done|lia|lia|done].
Qed.

Lemma slept_total (k : nat) (now : Q) :
  (k <= 4)%nat ->
  (slept 0 k now == now + inject_Z (2 ^ Z.of_nat k - 1) / 10)%Q.
Proof.
  intros Hk.
  assert (H : (k = 0 \/ k = 1 \/ k = 2 \/ k = 3 \/ k = 4)%nat) by lia.
  repeat destruct H as [->|H]; try subst k;
    unfold slept, backoff, RETRY_DELAY;
    repeat match goal with
           | |- context [inject_Z ?z] =>
               let v := eval vm_compute in (inject_Z z) in
               change (inject_Z z) with v
           end; field.
Qed.

(** X12. When the connection meets [k] contention errors in a row, [k] at
    most 4, and then succeeds, [__enter__] succeeds: it has slept after
    each failure, 100 ms doubled each time, [(2^k - 1) / 10] seconds in
    all, and has changed nothing else. *)
Theorem connection_retries (k : nat) w rest
    (Hk : (k <= 4)%nat)
    (Hfaults : faults w = repeat (Some OperationalError) k ++ rest)
    (Hthen : next_ops_succeed 2 (set_faults w rest)) :
  __enter__ w
  = (Ok tt, mk_world (tables w) (slept 0 k (clock w)) (drop 2 rest) (calls w)) /\
  (slept 0 k (clock w) == clock w + inject_Z (2 ^ Z.of_nat k - 1) / 10)%Q.
Proof.
  split; [|by apply slept_total].
  unfold __enter__. apply enter_after_failures;
    [done | unfold MAX_RETRIES; lia | unfold MAX_RETRIES; lia | done].
Qed.

(** X13. When the connection meets contention at each of its five attempts
    [__enter__] raises the contention error; it has slept four times, 1.5
    seconds in all, and not after the last attempt. *)
Theorem connection_gives_up w rest
    (Hfaults : faults w = repeat (Some OperationalError) 5 ++ rest) :
  __enter__ w
  = (Raise (SqliteError OperationalError),
     mk_world (tables w) (slept 0 4 (clock w)) rest (calls w)) /\
  (slept 0 4 (clock w) == clock w + 15 / 10)%Q.
Proof.
  split.
  - destruct w as [tb ck fl cl]. simpl in Hfaults. subst fl. reflexivity.
  - rewrite slept_total by lia. reflexivity.
Qed.

(** X14. A store error that is not a contention error is not retried: the
    connection fails at once, without a sleep, and the wrapper answers with
    a direct invocation of the wrapped function. *)
Theorem other_store_error_not_retried table_name ttl_seconds func_name func args kwargs
    w rest
    (Hfaults : faults w = Some DatabaseError :: rest) :
  __enter__ w = (Raise (SqliteError DatabaseError), set_faults w rest) /\
  wrapper table_name ttl_seconds func_name func args kwargs w
  = call func (set_faults w rest).
Proof.
  assert (Henter : __enter__ w = (Raise (SqliteError DatabaseError), set_faults w rest)).
  { unfold __enter__, MAX_RETRIES. cbn [retry_loop].
    rewrite M_bind_unfold. unfold store_op. by rewrite Hfaults. }
  split; [exact Henter|].
  unfold wrapper, except_sqlite. cbv zeta.
  by rewrite (M_bind_raise _ _ _ _ _ Henter).
Qed.

(** ** How often the wrapped function is invoked *)

Lemma calls_within_bind {A B : Type} (a b : nat) (m : M A) (k : A -> M B) :
  calls_within a m -> (forall x, calls_within b (k x)) ->
  calls_within (a + b) (m ≫= k).
Proof.
  intros Hm Hk w. rewrite M_bind_unfold. specialize (Hm w).
  destruct (m w) as [[x|e] w1]; simpl in *; [|lia].
  specialize (Hk x w1). lia.
Qed.

Lemma calls_within_mono {A : Type} (a b : nat) (m : M A) :
  (a <= b)%nat -> calls_within a m -> calls_within b m.
Proof. intros Hab Hm w. specialize (Hm w). lia. Qed.

Lemma calls_within_same_data {A : Type} (m : M A) :
  (forall w, same_data w (m w).2) -> calls_within 0 m.
Proof. intros H w. destruct (H w) as [_ ->]. lia. Qed.

Lemma store_op_calls : calls_within 0 store_op.
Proof. apply calls_within_same_data, store_op_same_data. Qed.

Lemma create_table_calls table_name : calls_within 0 (create_table table_name).
Proof.
  intros w. unfold create_table. rewrite M_bind_unfold.
  pose proof (store_op_calls w) as H1.
  destruct (store_op w) as [[[]|e] w1]; simpl in *; [|lia].
  rewrite M_bind_unfold. unfold get_world.
  destruct (tables w1 !! table_name); simpl; lia.
Qed.

Lemma select_row_calls table_name cache_key :
  calls_within 0 (select_row table_name cache_key).
Proof.
  intros w. unfold select_row. rewrite M_bind_unfold.
  pose proof (store_op_calls w) as H1.
  destruct (store_op w) as [[[]|e] w1]; simpl in *; lia.
Qed.

Lemma insert_or_replace_calls table_name cache_key value timestamp :
  calls_within 0 (insert_or_replace table_name cache_key value timestamp).
Proof.
  intros w. unfold insert_or_replace. rewrite M_bind_unfold.
  pose proof (store_op_calls w) as H1.
  destruct (store_op w) as [[[]|e] w1]; simpl in *; [|lia].
  rewrite M_bind_unfold.
  pose proof (store_op_calls w1) as H2.
  destruct (store_op w1) as [[[]|e] w2]; simpl in *; lia.
Qed.

Lemma retry_loop_calls (body : M unit) :
  calls_within 0 body ->
  forall remaining attempt, calls_within 0 (retry_loop body remaining attempt).
Proof.
  intros Hbody. induction remaining as [|remaining IH]; intros attempt w.
  - simpl. lia.
  - cbn [retry_loop]. specialize (Hbody w).
    destruct (body w) as [[[]|e] w1]; simpl in *; [lia|].
    destruct e as [| | | | | |[|]]; simpl; try lia.
    match goal with
    | |- context [if ?b then _ else _] => destruct b
    end; simpl; [lia|].
    rewrite M_bind_unfold. cbn [sleep].
    match goal with
    | |- context [retry_loop body remaining (S attempt) ?w2] =>
        specialize (IH (S attempt) w2)
    end.
    simpl in IH. lia.
Qed.

Lemma call_calls func : calls_within 1 (call func).
Proof. intros w. simpl. lia. Qed.

Lemma except_sqlite_calls {A : Type} (a b : nat) (body handler : M A) :
  calls_within a body -> calls_within b handler ->
  calls_within (a + b) (except_sqlite body handler).
Proof.
  intros Hbody Hhandler w. unfold except_sqlite. specialize (Hbody w).
  destruct (body w) as [[x|e] w1]; simpl in *; [lia|].
  destruct e; simpl; try lia.
  specialize (Hhandler w1). lia.
Qed.

(** The wrapper is its body under the handler of store errors, and the
    body invokes the wrapped function at most once. *)
Lemma wrapper_body table_name ttl_seconds func_name func args kwargs :
  exists body : M pyval,
    calls_within 1 body /\
    wrapper table_name ttl_seconds func_name func args kwargs
    = except_sqlite body (call func).
Proof.
  refine (ex_intro _ _ (conj _ eq_refl)).
  apply (calls_within_bind 0 1).
  { apply calls_within_same_data, enter_same_data. }
  intros _. apply (calls_within_bind 0 1); [apply create_table_calls|].
  intros _. apply (calls_within_bind 0 1); [apply select_row_calls|].
  intros row. apply (calls_within_bind 0 1); [intros w; simpl; lia|].
  intros current_time.
  assert (Hstore : calls_within 1
    (new_value ← call func;
     _ ← retry_loop
           (insert_or_replace table_name (make_cache_key func_name args kwargs)
              (json_dumps new_value) current_time)
           MAX_RETRIES 0;
     mret new_value)).
  { apply (calls_within_bind 1 0); [apply call_calls|].
    intros new_value. apply (calls_within_bind 0 0).
    - apply retry_loop_calls, insert_or_replace_calls.
    - intros _ w. simpl. lia. }
  destruct row as [[value timestamp]|]; [|exact Hstore].
  destruct (Qlt_bool _ _); [|exact Hstore].
  intros w. simpl. lia.
Qed.

(** X15. Whatever the store does, a call of the wrapper invokes the wrapped
    function at most twice. *)
Theorem wrapped_function_called_at_most_twice table_name ttl_seconds func_name func args
    kwargs :
  calls_within 2 (wrapper table_name ttl_seconds func_name func args kwargs).
Proof.
  destruct (wrapper_body table_name ttl_seconds func_name func args kwargs)
    as (body & Hbody & ->).
  apply (except_sqlite_calls 1 1); [exact Hbody|apply call_calls].
Qed.

(** X16. No failure of the store reaches the caller: when a call of the
    wrapper raises a store error, that error was raised by the wrapped
    function itself, at its first or second invocation of the call. *)
Theorem store_error_comes_from_function table_name ttl_seconds func_name func args kwargs
    w e
    (Hraise : (wrapper table_name ttl_seconds func_name func args kwargs w).1
              = Raise (SqliteError e)) :
  func (calls w) = Raise (SqliteError e) \/ func (S (calls w)) = Raise (SqliteError e).
Proof.
  destruct (wrapper_body table_name ttl_seconds func_name func args kwargs)
    as (body & Hbody & Heq).
  rewrite Heq in Hraise. unfold except_sqlite in Hraise.
  specialize (Hbody w).
  destruct (body w) as [[x|e'] w1]; simpl in *; [discriminate|].
  destruct e'; simpl in Hraise; try discriminate.
  assert (Hc : calls w1 = calls w \/ calls w1 = S (calls w)) by lia.
  destruct Hc as [Hc|Hc]; rewrite Hc in Hraise; auto.
Qed.

(** ** A wrapped function that raises *)

Lemma wrapper_miss_raise table_name ttl_seconds func_name func args kwargs w e :
  faults w = [] ->
  fresh_row ttl_seconds (clock w)
    (lookup_row w table_name (make_cache_key func_name args kwargs)) = false ->
  func (calls w) = Raise e ->
  wrapper table_name ttl_seconds func_name func args kwargs w
  = let w' :=
      mk_world
        (match tables w !! table_name with
         | Some _ => tables w
         | None => <[table_name := ∅]> (tables w)
         end) (clock w) [] (S (calls w)) in
    match e with
    | SqliteError _ => call func w'
    | _ => (Raise e, w')
    end.
Proof.
  intros Hf Hmiss Hfunc.
  set (cache_key := make_cache_key func_name args kwargs) in *.
  destruct w as [tb ck fl cl]. simpl in Hf. subst fl.
  unfold lookup_row in Hmiss. simpl in Hmiss, Hfunc.
  set (w := mk_world tb ck [] cl).
  assert (Hnil : forall n w', faults w' = [] -> next_ops_succeed n w')
    by (intros; by apply next_ops_succeed_nil).
  assert (H1 : __enter__ w = (Ok tt, w)).
  { rewrite enter_succeeds by (by apply Hnil). reflexivity. }
  unfold wrapper, except_sqlite. cbv zeta.
  change (make_cache_key func_name args kwargs) with cache_key.
  rewrite (M_bind_ok _ _ _ _ _ H1).
  cbn [tables clock calls].
  destruct (tb !! table_name) as [t|] eqn:Htable.
  - assert (H2 : create_table table_name w = (Ok tt, w)).
    { rewrite (create_table_existing _ t) by (by apply Hnil || done). reflexivity. }
    rewrite (M_bind_ok _ _ _ _ _ H2).
    assert (H3 : select_row table_name cache_key w = (Ok (t !! cache_key), w)).
    { rewrite select_row_succeeds by (by apply Hnil). simpl. by rewrite Htable. }
    rewrite (M_bind_ok _ _ _ _ _ H3).
    rewrite M_bind_unfold. unfold time. cbn [clock w].
    simpl in Hmiss.
    assert (Hstore :
      (new_value ← call func;
       _ ← retry_loop
             (insert_or_replace table_name cache_key (json_dumps new_value) ck)
             MAX_RETRIES 0;
       mret new_value) w
      = (Raise e, mk_world tb ck [] (S cl))).
    { rewrite M_bind_unfold. unfold call. cbn [calls w]. by rewrite Hfunc. }
    destruct (t !! cache_key) as [[value timestamp]|].
    + simpl in Hmiss. rewrite Hmiss, Hstore. destruct e; unfold w; cbn [tables clock calls]; rewrite ?Htable; reflexivity.
    + rewrite Hstore. destruct e; unfold w; cbn [tables clock calls]; rewrite ?Htable; reflexivity.
  - assert (H2 : create_table table_name w
                 = (Ok tt, mk_world (<[table_name := ∅]> tb) ck [] cl)).
    { rewrite create_table_missing by (by apply Hnil || done). reflexivity. }
    rewrite (M_bind_ok _ _ _ _ _ H2).
    set (w2 := mk_world (<[table_name := ∅]> tb) ck [] cl).
    assert (H3 : select_row table_name cache_key w2 = (Ok None, w2)).
    { rewrite select_row_succeeds by (by apply Hnil). simpl.
      by rewrite lookup_insert_eq. }
    rewrite (M_bind_ok _ _ _ _ _ H3).
    rewrite M_bind_unfold. unfold time. cbn [clock w2].
    rewrite M_bind_unfold. unfold call. cbn [calls w2]. rewrite Hfunc.
    destruct e; unfold w; cbn [tables clock calls]; rewrite ?Htable; reflexivity.
Qed.

(** X17. On a store that answers, when the cache misses and the wrapped
    function raises an exception that is not a store error, the wrapper
    raises that exception after one invocation, and no row of the store
    has changed. *)
Theorem function_error_propagates table_name ttl_seconds func_name func args kwargs w e
    (Hstore : faults w = [])
    (Hmiss : fresh_row ttl_seconds (clock w)
               (lookup_row w table_name (make_cache_key func_name args kwargs)) = false)
    (Hfunc : func (calls w) = Raise e)
    (Hother : forall se, e <> SqliteError se) :
  let after := wrapper table_name ttl_seconds func_name func args kwargs w in
  after.1 = Raise e /\
  calls after.2 = S (calls w) /\
  (forall table_name' cache_key',
     lookup_row after.2 table_name' cache_key' = lookup_row w table_name' cache_key').
Proof.
  intros after. subst after.
  rewrite (wrapper_miss_raise _ _ _ _ _ _ _ _ Hstore Hmiss Hfunc). cbv zeta.
  destruct e as [| | | | | |se]; try (by destruct (Hother se));
    (split; [done|]; split; [done|]);
    intros table_name' cache_key'; unfold lookup_row; cbn [snd tables];
    (destruct (tables w !! table_name) eqn:Htable; [done|]);
    (destruct (decide (table_name' = table_name)) as [->|Hne];
     [by rewrite lookup_insert_eq, Htable | by rewrite lookup_insert_ne]).
Qed.

(** X18. On a store that answers, when the cache misses and the wrapped
    function raises a store error itself, the handler of the wrapper takes
    it for a failure of the cache: the function is invoked a second time
    and the call ends as that invocation does. *)
Theorem function_store_error_invokes_again table_name ttl_seconds func_name func args
    kwargs w se
    (Hstore : faults w = [])
    (Hmiss : fresh_row ttl_seconds (clock w)
               (lookup_row w table_name (make_cache_key func_name args kwargs)) = false)
    (Hfunc : func (calls w) = Raise (SqliteError se)) :
  let after := wrapper table_name ttl_seconds func_name func args kwargs w in
  after.1 = func (S (calls w)) /\ calls after.2 = S (S (calls w)).
Proof.
  intros after. subst after.
  rewrite (wrapper_miss_raise _ _ _ _ _ _ _ _ Hstore Hmiss Hfunc). cbv zeta.
  by split.
Qed.

(** ** The dictionary that the converter returns *)

Lemma convert_fields_result float_of_str data type_hints :
  forall res,
    NoDup (map fst type_hints) ->
    (forall k, k ∈ map fst type_hints -> has_key res k = false) ->
    convert_fields float_of_str (convert_dict_to_typed_dict float_of_str)
      data type_hints res
    = Ok (res ++ declared_fields float_of_str data type_hints).
Proof.
  induction type_hints as [|[field_name ft] rest IH]; intros res Hdup Hfresh.
  - simpl. by rewrite app_nil_r.
  - rewrite convert_fields_step. simpl in Hdup.
    apply NoDup_cons in Hdup as [Hnew Hdup].
    rewrite dict_set_fresh by (apply Hfresh; simpl; apply list_elem_of_here).
    rewrite IH; [by rewrite <- app_assoc|exact Hdup|].
    intros k Hk. rewrite has_key_app, Hfresh by (simpl; by apply list_elem_of_further).
    unfold has_key. simpl.
    destruct (String.eqb_spec k field_name) as [->|]; [contradiction|done].
Qed.

Lemma convert_dict_fields float_of_str d type_hints :
  NoDup (map fst type_hints) ->
  convert_dict_to_typed_dict float_of_str (VDict d) (TypedDict type_hints)
  = Ok (VDict (declared_fields float_of_str d type_hints)).
Proof.
  intros Hdup. cbn [convert_dict_to_typed_dict].
  by rewrite convert_fields_result.
Qed.

Lemma convert_converted float_of_str target_type x :
  convert_dict_to_typed_dict float_of_str x target_type
  = Ok (converted float_of_str target_type x).
Proof.
  unfold converted. destruct target_type as [type_hints].
  destruct x as [| | | | | | |d]; try reflexivity.
  destruct (convert_dict float_of_str d type_hints) as (res & _ & ->). reflexivity.
Qed.

Lemma field_outcome_missing float_of_str d field_name ft :
  dict_get d field_name = None ->
  field_outcome float_of_str d field_name ft = missing_field ft.
Proof.
  intros Hget. unfold field_outcome. rewrite Hget.
  destruct ft as [| | | |[type_hints]]; reflexivity.
Qed.

(** X19. For a dictionary and a type with distinct field names the
    converter returns the declared fields, in the order of the declaration,
    each with the converted value of the input or [None] where the
    conversion raised: keys that the type does not declare are dropped, and
    a declared field that the input lacks is [None], or the empty list for
    a list field. *)
Theorem converter_result_fields float_of_str d type_hints
    (Hdup : NoDup (map fst type_hints)) :
  convert_dict_to_typed_dict float_of_str (VDict d) (TypedDict type_hints)
  = Ok (VDict (declared_fields float_of_str d type_hints)) /\
  map fst (declared_fields float_of_str d type_hints) = map fst type_hints /\
  (forall field_name ft,
     (field_name, ft) ∈ type_hints -> dict_get d field_name = None ->
     dict_get (declared_fields float_of_str d type_hints) field_name
     = Some (missing_field ft)).
Proof.
  split; [by apply convert_dict_fields|]. split.
  - unfold declared_fields. rewrite map_map. reflexivity.
  - intros field_name ft Hin Hget.
    rewrite <- (field_outcome_missing float_of_str d field_name ft Hget).
    eapply (convert_fields_field float_of_str d type_hints []); [done|done|].
    by rewrite convert_fields_result.
Qed.

(** ** Timestamps of the brokerage *)

Lemma replace_Z_app (a b : string) :
  replace_Z (a +:+ b) = replace_Z a +:+ replace_Z b.
Proof.
  induction a as [|c a IH]; [reflexivity|].
  rewrite append_String. cbn [replace_Z]. rewrite IH.
  destruct (Ascii.eqb c "Z"); [|reflexivity].
  by rewrite append_assoc_string.
Qed.

Lemma digit_char_not_Z d : 0 <= d <= 9 -> Ascii.eqb (digit_char d) "Z" = false.
Proof.
  intros Hd.
  assert (H : d = 0 \/ d = 1 \/ d = 2 \/ d = 3 \/ d = 4 \/ d = 5 \/ d = 6 \/ d = 7
              \/ d = 8 \/ d = 9) by lia.
  repeat destruct H as [->|H]; try subst d; reflexivity.
Qed.

Lemma replace_Z_digits (k : nat) :
  forall n, 0 <= n < 10 ^ Z.of_nat k -> replace_Z (digits k n) = digits k n.
Proof.
  induction k as [|k IH]; intros n Hn; [reflexivity|].
  change (digits (S k) n)
    with (String (digit_char (n / 10 ^ Z.of_nat k)) (digits k (n mod 10 ^ Z.of_nat k))).
  cbn [replace_Z].
  assert (Hpow : 10 ^ Z.of_nat (S k) = 10 * 10 ^ Z.of_nat k).
  { rewrite Nat2Z.inj_succ, Z.pow_succ_r by lia. reflexivity. }
  assert (Hpos : 0 < 10 ^ Z.of_nat k) by (apply Z.pow_pos_nonneg; lia).
  rewrite digit_char_not_Z.
  - rewrite IH; [reflexivity|]. by apply Z.mod_pos_bound.
  - split; [apply Z.div_pos; lia|].
    apply Z.lt_succ_r. apply Z.div_lt_upper_bound; lia.
Qed.

Lemma replace_Z_digits_app (k : nat) n rest :
  0 <= n < 10 ^ Z.of_nat k ->
  replace_Z (digits k n +:+ rest) = digits k n +:+ replace_Z rest.
Proof. intros Hn. by rewrite replace_Z_app, replace_Z_digits. Qed.

Lemma replace_Z_char c rest :
  Ascii.eqb c "Z" = false ->
  replace_Z (String c "" +:+ rest) = String c "" +:+ replace_Z rest.
Proof. intros Hc. rewrite !append_String, !append_empty_l. cbn [replace_Z]. by rewrite Hc. Qed.

Lemma isoformat_utc t :
  datetime_ok t = true -> tzoffset t = None ->
  replace_Z (isoformat t +:+ "Z") = isoformat (as_utc t) /\
  datetime_ok (as_utc t) = true.
Proof.
  intros Hok Hnaive. pose proof Hok as Hfields. unfold datetime_ok in Hfields.
  repeat (apply andb_prop in Hfields as [Hfields ?]).
  destruct t as [y m d hh mi ss us tz].
  cbn [year month day hour minute second microsecond tzoffset] in *. subst tz.
  assert (Hd : d <= 31).
  { unfold days_in_month in *.
    repeat match goal with
           | H : context [if ?b then _ else _] |- _ => destruct b
           end; lia. }
  split.
  - unfold isoformat, as_utc. cbn [year month day hour minute second microsecond tzoffset].
    change (format_offset 0) with "+00:00".
    rewrite replace_Z_app.
    change (replace_Z "Z") with "+00:00".
    do 5 (rewrite replace_Z_digits_app by (pow10; lia);
          rewrite replace_Z_char by reflexivity).
    rewrite replace_Z_digits_app by (pow10; lia).
    rewrite append_empty_r.
    destruct (us =? 0).
    + change (replace_Z "") with "". rewrite append_empty_r.
      rewrite !append_assoc_string. reflexivity.
    + rewrite replace_Z_char by reflexivity.
      rewrite replace_Z_digits by (pow10; lia).
      rewrite !append_assoc_string. reflexivity.
  - unfold datetime_ok, as_utc in *.
    cbn [year month day hour minute second microsecond tzoffset] in *.
    rewrite andb_true_r in Hok. rewrite Hok. reflexivity.
Qed.

(** X20. A timestamp as the brokerage writes it, the ISO form of a valid
    wall-clock time followed by [Z], is converted to the aware datetime of
    that time at UTC. *)
Theorem api_timestamp_is_utc float_of_str t
    (Hvalid : datetime_ok t = true)
    (Hnaive : tzoffset t = None) :
  _convert_value_to_type float_of_str (VStr (isoformat t +:+ "Z")) FDatetime
  = Ok (VDatetime (as_utc t)) /\
  aware (as_utc t).
Proof.
  destruct (isoformat_utc t Hvalid Hnaive) as [Hiso Hok].
  split; [|done].
  cbn [_convert_value_to_type]. rewrite Hiso.
  by rewrite fromisoformat_isoformat.
Qed.

(** ** The order of the transfers *)

Lemma mapM_ok {A B : Type} (f : A -> result B) (g : A -> B) (l : list A) :
  (forall x, x ∈ l -> f x = Ok (g x)) -> mapM f l = Ok (map g l).
Proof.
  induction l as [|x rest IH]; intros Hf; [reflexivity|].
  cbn [mapM map]. rewrite (Hf x) by apply list_elem_of_here. rewrite bind_Ok.
  rewrite IH by (intros y Hy; apply Hf; by apply list_elem_of_further).
  reflexivity.
Qed.

Lemma snd_zip_map {A B : Type} (g : A -> B) (l : list A) :
  map snd (zip (map g l) l) = l.
Proof. induction l as [|x rest IH]; [reflexivity|]. simpl. by rewrite IH. Qed.

Lemma zip_map_pairs {A B : Type} (g : A -> B) (l : list A) :
  zip (map g l) l = map (fun x => (g x, x)) l.
Proof. induction l as [|x rest IH]; [reflexivity|]. simpl. by rewrite IH. Qed.

Lemma insert_by_key_perm {A : Type} (k : pyval) (x : A) (sorted r : list (pyval * A)) :
  insert_by_key k x sorted = Ok r -> r ≡ₚ (k, x) :: sorted.
Proof.
  revert r. induction sorted as [|[k' y] rest IH]; intros r Hrun.
  - by injection Hrun as <-.
  - cbn [insert_by_key] in Hrun.
    destruct (py_lt k k') as [[|]|e]; [| |discriminate].
    + rewrite bind_Ok in Hrun. by injection Hrun as <-.
    + rewrite bind_Ok in Hrun.
      destruct (insert_by_key k x rest) as [rest'|e]; [|discriminate].
      rewrite bind_Ok in Hrun. injection Hrun as <-.
      rewrite (IH rest' eq_refl). apply perm_swap.
Qed.

Lemma sort_by_key_perm {A : Type} (l : list (pyval * A)) :
  forall sorted r, sort_by_key l sorted = Ok r -> r ≡ₚ l ++ sorted.
Proof.
  induction l as [|[k x] rest IH]; intros sorted r Hrun.
  - by injection Hrun as <-.
  - cbn [sort_by_key] in Hrun.
    destruct (insert_by_key k x sorted) as [sorted'|e] eqn:Hins; [|discriminate].
    rewrite bind_Ok in Hrun. rewrite (IH _ _ Hrun).
    rewrite (insert_by_key_perm _ _ _ _ Hins).
    simpl. by rewrite <- Permutation_middle.
Qed.

Lemma mapM_length {A B : Type} (f : A -> result B) (l : list A) :
  forall ks, mapM f l = Ok ks -> length ks = length l.
Proof.
  induction l as [|x rest IH]; intros ks Hrun.
  - by injection Hrun as <-.
  - cbn [mapM] in Hrun. destruct (f x) as [k|e]; [|discriminate].
    rewrite bind_Ok in Hrun.
    destruct (mapM f rest) as [ks'|e]; [|discriminate].
    rewrite bind_Ok in Hrun. injection Hrun as <-. simpl. by rewrite (IH ks').
Qed.

Lemma py_sorted_perm {A : Type} (key : A -> result pyval) (l out : list A) :
  py_sorted key l = Ok out -> out ≡ₚ l.
Proof.
  unfold py_sorted. intros Hrun.
  destruct (mapM key l) as [keys|e] eqn:Hkeys; [|discriminate].
  rewrite bind_Ok in Hrun.
  destruct (sort_by_key (zip keys l) []) as [sorted|e] eqn:Hsort; [|discriminate].
  rewrite bind_Ok in Hrun. injection Hrun as <-.
  apply sort_by_key_perm in Hsort. rewrite app_nil_r in Hsort.
  rewrite Hsort. apply mapM_length in Hkeys.
  change (map snd (zip keys l)) with ((zip keys l).*2).
  rewrite snd_zip by lia. reflexivity.
Qed.

Lemma get_bank_transfers_sorted float_of_str transfers :
  get_bank_transfers float_of_str transfers
  = py_sorted updated_at_key
      (map (converted float_of_str BankTransfer_type) (List.filter is_dict transfers)).
Proof.
  unfold get_bank_transfers.
  rewrite (mapM_ok _ (converted float_of_str BankTransfer_type))
    by (intros; apply convert_converted).
  rewrite bind_Ok. f_equal.
  induction transfers as [|x rest IH]; [reflexivity|].
  cbn [map List.filter]. rewrite IH.
  destruct x as [| | | | | | |d]; try reflexivity.
  cbn [is_dict map]. unfold converted at 1.
  destruct (convert_dict float_of_str d
              [("id", FBasic); ("url", FBasic); ("ref_id", FBasic); ("cancel", FBasic);
               ("ach_relationship", FBasic); ("account", FBasic); ("amount", FFloat);
               ("direction", FBasic); ("state", FBasic);
               ("created_at", FDatetime); ("updated_at", FDatetime)])
    as (res & _ & Hres).
  unfold BankTransfer_type, converted. rewrite Hres. reflexivity.
Qed.

(** X21. What [get_bank_transfers] returns is a rearrangement of the
    converted dictionaries of its input: every dictionary of the input is
    there once, and the entries that are not dictionaries are dropped. *)
Theorem bank_transfers_rearranged float_of_str transfers out
    (Hrun : get_bank_transfers float_of_str transfers = Ok out) :
  out ≡ₚ map (converted float_of_str BankTransfer_type) (List.filter is_dict transfers) /\
  length out = length (List.filter is_dict transfers).
Proof.
  rewrite get_bank_transfers_sorted in Hrun. apply py_sorted_perm in Hrun.
  split; [exact Hrun|]. by rewrite Hrun, length_map.
Qed.

Lemma BankTransfer_fields_distinct :
  NoDup (map fst
           [("id", FBasic); ("url", FBasic); ("ref_id", FBasic); ("cancel", FBasic);
            ("ach_relationship", FBasic); ("account", FBasic); ("amount", FFloat);
            ("direction", FBasic); ("state", FBasic);
            ("created_at", FDatetime); ("updated_at", FDatetime)]).
Proof. apply (bool_decide_unpack _). vm_compute. exact I. Qed.

Lemma updated_at_of_converted float_of_str d :
  updated_at_key (converted float_of_str BankTransfer_type (VDict d))
  = Ok (field_outcome float_of_str d "updated_at" FDatetime).
Proof.
  unfold converted, BankTransfer_type.
  rewrite convert_dict_fields by apply BankTransfer_fields_distinct.
  unfold updated_at_key, getitem.
  erewrite (convert_fields_field float_of_str d _ [] _ "updated_at" FDatetime);
    [reflexivity|apply BankTransfer_fields_distinct|find_elem|].
  rewrite convert_fields_result; [reflexivity|apply BankTransfer_fields_distinct|done].
Qed.

Lemma field_outcome_datetime float_of_str d field_name s t :
  dict_get d field_name = Some (VStr s) ->
  fromisoformat (replace_Z s) = Ok t ->
  field_outcome float_of_str d field_name FDatetime = VDatetime t.
Proof.
  intros Hget Hparse. unfold field_outcome. rewrite Hget.
  cbn [default from_option id convert_field _convert_value_to_type]. by rewrite Hparse.
Qed.

Section SortedByInstant.

Context {A : Type} (m : A -> Z).

Abbreviation keyed := (fun kx : pyval * A =>
  exists t, kx.1 = VDatetime t /\ aware t /\ m kx.2 = instant t).
Abbreviation in_order := (fun a b : pyval * A => m a.2 <= m b.2).

Lemma insert_by_key_sorted k x sorted :
  keyed (k, x) -> Forall keyed sorted -> StronglySorted in_order sorted ->
  exists r, insert_by_key k x sorted = Ok r /\ StronglySorted in_order r.
Proof.
  intros (t & Hk & Ht & Hm). simpl in Hk, Hm. subst k.
  induction sorted as [|[k' y] rest IH]; intros Hall Hss.
  - eexists. split; [reflexivity|]. repeat constructor.
  - apply Forall_cons in Hall as [(t' & Hk' & Ht' & Hm') Hall].
    simpl in Hk', Hm'. subst k'.
    apply StronglySorted_inv in Hss as [Hss Hle].
    cbn [insert_by_key py_lt]. unfold dt_lt, aware in *.
    destruct (tzoffset t) as [o|]; [|done].
    destruct (tzoffset t') as [o'|]; [|done].
    rewrite bind_Ok. destruct (Z.ltb_spec (instant t) (instant t')) as [Hlt|Hge].
    + eexists. split; [reflexivity|].
      constructor; [by constructor|].
      apply Forall_cons. split; [simpl; lia|].
      eapply Forall_impl; [exact Hle|]. intros [k z]. simpl. lia.
    + destruct (IH Hall Hss) as (r & Hr & Hsorted).
      rewrite Hr, bind_Ok. eexists. split; [reflexivity|].
      constructor; [exact Hsorted|].
      rewrite (insert_by_key_perm _ _ _ _ Hr).
      apply Forall_cons. split; [simpl; lia|exact Hle].
Qed.

Lemma sort_by_key_sorted (l : list (pyval * A)) :
  forall sorted,
    Forall keyed l -> Forall keyed sorted -> StronglySorted in_order sorted ->
    exists r, sort_by_key l sorted = Ok r /\ StronglySorted in_order r.
Proof.
  induction l as [|[k x] rest IH]; intros sorted Hl Hall Hss.
  - by exists sorted.
  - apply Forall_cons in Hl as [Hkx Hl].
    destruct (insert_by_key_sorted k x sorted Hkx Hall Hss) as (s' & Hins & Hs').
    cbn [sort_by_key]. rewrite Hins, bind_Ok.
    apply IH; [exact Hl| |exact Hs'].
    rewrite (insert_by_key_perm _ _ _ _ Hins). by apply Forall_cons.
Qed.

Lemma py_sorted_by_instant (key : A -> result pyval) (l : list A) :
  (forall x, x ∈ l -> exists t, key x = Ok (VDatetime t) /\ aware t /\ m x = instant t) ->
  exists out, py_sorted key l = Ok out /\ StronglySorted (fun a b => m a <= m b) out.
Proof.
  intros Hkeys. unfold py_sorted.
  rewrite (mapM_ok key (fun x => match key x with Ok v => v | Raise _ => VNone end)).
  2:{ intros x Hx. destruct (Hkeys x Hx) as (t & -> & _). reflexivity. }
  rewrite bind_Ok, zip_map_pairs.
  destruct (sort_by_key_sorted
              (map (fun x => (match key x with Ok v => v | Raise _ => VNone end, x)) l) [])
    as (r & Hr & Hsorted).
  - apply Forall_forall. intros kx Hin.
    apply list_elem_of_fmap in Hin as (x & -> & Hx).
    destruct (Hkeys x Hx) as (t & Hkey & Ht & Hm). exists t. simpl. by rewrite Hkey.
  - constructor.
  - constructor.
  - rewrite Hr, bind_Ok. eexists. split; [reflexivity|].
    clear Hr. induction Hsorted as [|a rest Hrest IH Hle]; [constructor|].
    simpl. constructor; [exact IH|].
    apply Forall_forall. intros b Hb. apply list_elem_of_fmap in Hb as (kb & -> & Hkb).
    rewrite Forall_forall in Hle. by apply Hle.
Qed.

End SortedByInstant.

(** X22. When the [updated_at] of every dictionary of the input is a
    timestamp that parses to an aware datetime, [get_bank_transfers]
    returns, and what it returns is in the order of the instants of
    [updated_at], earliest first. *)
Theorem bank_transfers_in_update_order float_of_str transfers
    (Hstamped : Forall stamped transfers) :
  exists out,
    get_bank_transfers float_of_str transfers = Ok out /\
    StronglySorted (fun a b => updated_instant a <= updated_instant b) out.
Proof.
  rewrite get_bank_transfers_sorted.
  apply py_sorted_by_instant. intros x Hx.
  apply list_elem_of_fmap in Hx as (raw & -> & Hraw).
  apply list_elem_of_In, filter_In in Hraw as [Hraw Hdict].
  apply list_elem_of_In in Hraw.
  rewrite Forall_forall in Hstamped. specialize (Hstamped raw Hraw).
  destruct raw as [| | | | | | |d]; try discriminate.
  destruct Hstamped as (s & t & Hget & Hparse & Ht).
  exists t. unfold updated_instant.
  rewrite updated_at_of_converted, (field_outcome_datetime _ _ _ s t Hget Hparse).
  done.
Qed.

(** ** A transfer without a usable timestamp *)

Lemma py_lt_raise : forall a b e, py_lt a b = Raise e -> e = TypeError.
Proof.
  fix IH 1. intros a b e H.
  destruct a as [| | | | |t1|l1|d1], b as [| | | | |t2|l2|d2];
    cbn [py_lt number_of] in H; try discriminate; try congruence.
  - unfold dt_lt in H. destruct (tzoffset t1), (tzoffset t2); congruence.
  - revert l2 H. induction l1 as [|x r1 IHl]; intros [|y r2] H; try discriminate.
    destruct (py_eq x y); [by eapply IHl|by eapply IH].
Qed.

Lemma py_lt_none_r a : py_lt a VNone = Raise TypeError.
Proof. by destruct a. Qed.

Lemma py_lt_none_l b : py_lt VNone b = Raise TypeError.
Proof. by destruct b. Qed.

Lemma insert_by_key_raise {A : Type} (k : pyval) (x : A) (sorted : list (pyval * A)) e :
  insert_by_key k x sorted = Raise e -> e = TypeError.
Proof.
  induction sorted as [|[k' y] rest IH]; intros H; [discriminate|].
  cbn [insert_by_key] in H.
  destruct (py_lt k k') as [[|]|e'] eqn:Hlt.
  - discriminate.
  - rewrite bind_Ok in H.
    destruct (insert_by_key k x rest) as [r|e']; [discriminate|].
    rewrite bind_Raise in H. injection H as <-. by apply IH.
  - rewrite bind_Raise in H. injection H as <-. by eapply py_lt_raise.
Qed.

Lemma sort_by_key_after_none {A : Type} (l : list (pyval * A)) (y : A) :
  l <> [] -> sort_by_key l [(VNone, y)] = Raise TypeError.
Proof.
  destruct l as [|[k x] rest]; [done|]. intros _.
  cbn [sort_by_key insert_by_key]. by rewrite py_lt_none_r.
Qed.

Lemma sort_by_key_none {A : Type} (l : list (pyval * A)) :
  forall sorted,
    Exists (fun kx => kx.1 = VNone) l ->
    sorted <> [] \/ (2 <= length l)%nat ->
    sort_by_key l sorted = Raise TypeError.
Proof.
  induction l as [|[k x] rest IH]; intros sorted Hnone Hsize.
  - by apply Exists_nil in Hnone.
  - cbn [sort_by_key].
    assert (Hk : k = VNone \/ k <> VNone) by (destruct k; (by left) || (by right)).
    destruct Hk as [->|Hk].
    + destruct sorted as [|[k' y] sorted'].
      * cbn [insert_by_key]. rewrite bind_Ok. apply sort_by_key_after_none.
        destruct Hsize as [|Hlen]; [done|]. destruct rest; simpl in Hlen; [lia|done].
      * cbn [insert_by_key]. by rewrite py_lt_none_l.
    + apply Exists_cons in Hnone as [Hhead|Hnone]; [done|].
      destruct (insert_by_key k x sorted) as [sorted'|e] eqn:Hins.
      * rewrite bind_Ok. apply IH; [exact Hnone|]. left. intros ->.
        apply insert_by_key_perm in Hins. by apply Permutation_nil_cons in Hins.
      * rewrite bind_Raise. f_equal. by eapply insert_by_key_raise.
Qed.

Lemma py_sorted_none {A : Type} (key : A -> result pyval) (l : list A) :
  (forall x, x ∈ l -> exists v, key x = Ok v) ->
  (2 <= length l)%nat ->
  (exists x, x ∈ l /\ key x = Ok VNone) ->
  py_sorted key l = Raise TypeError.
Proof.
  intros Hkeys Hlen (x & Hx & Hnone). unfold py_sorted.
  rewrite (mapM_ok key (fun x => match key x with Ok v => v | Raise _ => VNone end)).
  2:{ intros z Hz. destruct (Hkeys z Hz) as (v & ->). reflexivity. }
  rewrite bind_Ok, zip_map_pairs, sort_by_key_none; [reflexivity| |].
  - apply Exists_exists. eexists. split.
    + apply list_elem_of_fmap. by exists x.
    + simpl. by rewrite Hnone.
  - right. by rewrite length_map.
Qed.

Lemma field_outcome_unstamped float_of_str d :
  unstamped d -> field_outcome float_of_str d "updated_at" FDatetime = VNone.
Proof.
  unfold unstamped, field_outcome. intros H.
  destruct (dict_get d "updated_at") as [[| | | |s| | |]|]; try done.
  cbn [default from_option id convert_field _convert_value_to_type].
  by destruct (fromisoformat (replace_Z s)).
Qed.

(** X23. When the input has two dictionaries or more and one of them has no
    usable [updated_at] (the key is missing, the value is null or the
    string does not parse), the sort compares [None] and
    [get_bank_transfers] raises [TypeError]. *)
Theorem bank_transfers_unstamped float_of_str transfers d
    (Htwo : (2 <= length (List.filter is_dict transfers))%nat)
    (Hin : VDict d ∈ transfers)
    (Hnone : unstamped d) :
  get_bank_transfers float_of_str transfers = Raise TypeError.
Proof.
  rewrite get_bank_transfers_sorted. apply py_sorted_none.
  - intros x Hx. apply list_elem_of_fmap in Hx as (raw & -> & Hraw).
    apply list_elem_of_In, filter_In in Hraw as [_ Hdict].
    destruct raw as [| | | | | | |d']; try discriminate.
    rewrite updated_at_of_converted. by eexists.
  - by rewrite length_map.
  - exists (converted float_of_str BankTransfer_type (VDict d)). split.
    + apply list_elem_of_fmap. exists (VDict d). split; [done|].
      apply list_elem_of_In, filter_In. split; [by apply list_elem_of_In|done].
    + rewrite updated_at_of_converted. f_equal. by apply field_outcome_unstamped.
Qed.

(** ** get_historical_portfolio *)

Lemma HistoricalPortfolio_fields_distinct :
  NoDup (map fst
    [("adjusted_open_equity", FFloat); ("adjusted_previous_close_equity", FFloat);
     ("open_equity", FFloat); ("previous_close_equity", FFloat);
     ("open_time", FDatetime); ("interval", FBasic); ("span", FBasic);
     ("bounds", FBasic); ("total_return", FFloat);
     ("equity_historicals", FList EquityHistorical_type); ("use_new_hp", FBasic)]).
Proof. apply (bool_decide_unpack _). vm_compute. exact I. Qed.

Lemma field_outcome_list float_of_str d field_name element_type :
  field_outcome float_of_str d field_name (FList element_type)
  = match dict_get d field_name with
    | Some (VList items) => VList (map (convert_item float_of_str element_type) items)
    | _ => VList []
    end.
Proof.
  unfold field_outcome.
  destruct (dict_get d field_name) as [[| | | | | |items|]|]; try reflexivity.
  cbn [default from_option id convert_field].
  rewrite (mapM_ok _ (convert_item float_of_str element_type)); [reflexivity|].
  intros item _. unfold convert_item.
  destruct (is_dict item); [apply convert_converted|reflexivity].
Qed.

(** X24. [get_historical_portfolio] never raises.  For a dictionary whose
    [equity_historicals] is a list it returns that list, each dictionary of
    it converted to the declared fields of a sample and the other items as
    they are; for anything else it returns the empty list. *)
Theorem historical_portfolio_samples float_of_str historical :
  get_historical_portfolio float_of_str historical
  = Ok (match historical with
        | VDict d =>
            match dict_get d "equity_historicals" with
            | Some (VList items) =>
                VList (map (convert_item float_of_str EquityHistorical_type) items)
            | _ => VList []
            end
        | _ => VList []
        end).
Proof.
  unfold get_historical_portfolio.
  destruct historical as [| | | | | | |d]; try reflexivity.
  unfold HistoricalPortfolio_type.
  rewrite convert_dict_fields by apply HistoricalPortfolio_fields_distinct.
  rewrite bind_Ok. unfold declared_fields at 1. cbn [map is_falsy].
  rewrite <- field_outcome_list.
  unfold getitem.
  erewrite (convert_fields_field float_of_str d _ [] _ "equity_historicals"
              (FList EquityHistorical_type));
    [reflexivity|apply HistoricalPortfolio_fields_distinct|find_elem|].
  rewrite convert_fields_result;
    [reflexivity|apply HistoricalPortfolio_fields_distinct|done].
Qed.

(** ** A cache write that meets contention *)

Lemma retry_after_failures (body : M unit) (k : nat) :
  (forall w rest,
     faults w = Some OperationalError :: rest ->
     body w = (Raise (SqliteError OperationalError), set_faults w rest)) ->
  forall attempt remaining w rest,
    faults w = repeat (Some OperationalError) k ++ rest ->
    (k <= remaining)%nat -> (attempt + k < MAX_RETRIES)%nat ->
    retry_loop body remaining attempt w
    = retry_loop body (remaining - k) (attempt + k)
        (mk_world (tables w) (slept attempt k (clock w)) rest (calls w)).
Proof.
  intros Hfail. induction k as [|k IH]; intros attempt remaining w rest Hf Hrem Hatt.
  - simpl in Hf. destruct w as [tb ck fl cl]. simpl in Hf. subst fl.
    by rewrite Nat.sub_0_r, Nat.add_0_r.
  - destruct remaining as [|remaining]; [lia|].
    cbn [retry_loop]. simpl in Hf. rewrite (Hfail _ _ Hf).
    unfold MAX_RETRIES in *.
    destruct (Nat.eqb_spec attempt (5 - 1)) as [Heq|_]; [simpl in Heq; lia|].
    rewrite M_bind_unfold. cbn [sleep].
    rewrite (IH (S attempt) remaining _ rest); [|done|lia|lia].
    cbn [tables clock calls set_faults slept]. f_equal. lia.
Qed.

Lemma insert_or_replace_contention table_name cache_key value timestamp w rest :
  faults w = Some OperationalError :: rest ->
  insert_or_replace table_name cache_key value timestamp w
  = (Raise (SqliteError OperationalError), set_faults w rest).
Proof.
  intros Hf. unfold insert_or_replace. rewrite M_bind_unfold.
  unfold store_op. by rewrite Hf.
Qed.

(** X25. When the store answers but for [k] contention errors at the
    write, [k] at most 4, a call that misses the cache invokes the wrapped
    function once and returns its value; the write is tried again after
    each error, with the sleeps of the connection, and the row it leaves
    holds the time read before the invocation. *)
Theorem cache_write_retried table_name ttl_seconds func_name func args kwargs w v (k : nat)
    (Hk : (k <= 4)%nat)
    (Hfaults : faults w = repeat None 4 ++ repeat (Some OperationalError) k)
    (Hmiss : fresh_row ttl_seconds (clock w)
               (lookup_row w table_name (make_cache_key func_name args kwargs)) = false)
    (Hfunc : func (calls w) = Ok v) :
  wrapper table_name ttl_seconds func_name func args kwargs w
  = (Ok v,
     mk_world
       (<[table_name := <[make_cache_key func_name args kwargs
                            := (json_dumps v, clock w)]>
                          (default ∅ (tables w !! table_name))]> (tables w))
       (slept 0 k (clock w)) [] (S (calls w))).
Proof.
  set (cache_key := make_cache_key func_name args kwargs) in *.
  destruct w as [tb ck fl cl]. cbn [faults clock calls tables] in *. subst fl.
  unfold lookup_row in Hmiss. cbn [tables] in Hmiss.
  set (F := repeat (Some OperationalError) k).
  set (tb' := match tb !! table_name with
              | Some _ => tb
              | None => <[table_name := ∅]> tb
              end).
  assert (Htable : tb' !! table_name = Some (default ∅ (tb !! table_name))).
  { unfold tb'. destruct (tb !! table_name) eqn:Ht; [done|].
    by rewrite lookup_insert_eq. }
  assert (Hrow : (tb' !! table_name ≫= fun t => t !! cache_key)
                 = (tb !! table_name ≫= fun t => t !! cache_key)).
  { rewrite Htable. by destruct (tb !! table_name). }
  assert (Hfinal : <[table_name := <[cache_key := (json_dumps v, ck)]>
                                     (default ∅ (tb !! table_name))]> tb'
                   = <[table_name := <[cache_key := (json_dumps v, ck)]>
                                       (default ∅ (tb !! table_name))]> tb).
  { unfold tb'. destruct (tb !! table_name); [done|]. by rewrite insert_insert_eq. }
  assert (H1 : __enter__ (mk_world tb ck (repeat None 4 ++ F) cl)
               = (Ok tt, mk_world tb ck (None :: None :: F) cl)) by reflexivity.
  assert (H2 : create_table table_name (mk_world tb ck (None :: None :: F) cl)
               = (Ok tt, mk_world tb' ck (None :: F) cl)).
  { unfold create_table. rewrite M_bind_unfold. cbn [store_op faults tables clock calls].
    rewrite M_bind_unfold. unfold get_world. cbn [tables]. unfold tb'.
    by destruct (tb !! table_name). }
  assert (H3 : select_row table_name cache_key (mk_world tb' ck (None :: F) cl)
               = (Ok (tb !! table_name ≫= fun t => t !! cache_key),
                  mk_world tb' ck F cl)).
  { unfold select_row. rewrite M_bind_unfold. cbn [store_op faults tables clock calls].
    rewrite M_bind_unfold. unfold get_world. cbn [tables]. by rewrite Hrow. }
  assert (Hstore :
    (new_value ← call func;
     _ ← retry_loop
           (insert_or_replace table_name cache_key (json_dumps new_value) ck)
           MAX_RETRIES 0;
     mret new_value) (mk_world tb' ck F cl)
    = (Ok v,
       mk_world (<[table_name := <[cache_key := (json_dumps v, ck)]>
                                   (default ∅ (tb !! table_name))]> tb)
         (slept 0 k ck) [] (S cl))).
  { rewrite M_bind_unfold. unfold call. cbn [calls tables clock faults]. rewrite Hfunc.
    rewrite M_bind_unfold.
    rewrite (retry_after_failures _ k) with (rest := []);
      [|intros; by apply insert_or_replace_contention
       |cbn [faults]; by rewrite app_nil_r
       |unfold MAX_RETRIES; lia
       |unfold MAX_RETRIES; lia].
    cbn [tables clock calls]. unfold MAX_RETRIES.
    destruct (5 - k)%nat as [|remaining] eqn:Hrem; [lia|].
    erewrite retry_loop_first_ok;
      [|apply insert_or_replace_succeeds; by apply next_ops_succeed_nil].
    cbn [tables clock calls faults set_faults set_tables drop].
    rewrite Htable. cbn [default from_option id]. by rewrite Hfinal. }
  unfold wrapper, except_sqlite. cbv zeta.
  change (make_cache_key func_name args kwargs) with cache_key.
  rewrite (M_bind_ok _ _ _ _ _ H1), (M_bind_ok _ _ _ _ _ H2), (M_bind_ok _ _ _ _ _ H3).
  rewrite M_bind_unfold. unfold time. cbn [clock].
  destruct (tb !! table_name ≫= fun t => t !! cache_key) as [[value timestamp]|].
  - simpl in Hmiss. by rewrite Hmiss, Hstore.
  - by rewrite Hstore.
Qed.

(** ** Instances of the further theorems *)

(** Each listed element satisfies the goal, by evaluation. *)
Ltac each_elem tac :=
  let l := fresh "l" in
  let Hl := fresh "Hl" in
  intros l Hl;
  repeat (apply elem_of_cons in Hl as [->|Hl]; [tac|]);
  by apply elem_of_nil in Hl.

(** A zero close in the middle raises; a zero close at the end would not. *)
Lemma percentage_series_zero_close_witness :
  _get_historical_portfolio_percentage zero_close_series = Raise ZeroDivisionError /\
  exists pairs,
    _get_historical_portfolio_percentage
      [equity_sample 100 100 (utc 2024 1 1); equity_sample 100 0 (utc 2024 1 2)]
    = Ok pairs /\ length pairs = 2%nat.
Proof.
  split.
  - apply (proj1 (percentage_series_zero_close
                    (equity_sample 100 100 (utc 2024 1 1))
                    [equity_sample 100 0 (utc 2024 1 2);
                     equity_sample 0 50 (utc 2024 1 3)])).
    apply Exists_cons_tl, Exists_cons_hd. vm_compute. reflexivity.
  - apply (proj2 (percentage_series_zero_close
                    (equity_sample 100 100 (utc 2024 1 1))
                    [equity_sample 100 0 (utc 2024 1 2)])).
    repeat constructor. intros H. vm_compute in H. discriminate.
Defined.

(** The series of two days starts with January 1st, 2024. *)
Lemma ytd_points_shape_witness :
  exists points rest,
    (get_running_ytd_percentage [0; 1]%nat [0; 1; 2]%nat
       (heap_of two_day_series mixed_transfers)).1 = Ok points /\
    points = anchor 2024 :: rest.
Proof.
  assert (Hrun : exists points,
             (get_running_ytd_percentage [0; 1]%nat [0; 1; 2]%nat
                (heap_of two_day_series mixed_transfers)).1 = Ok points)
    by (vm_compute; eexists; reflexivity).
  destruct Hrun as [points Hrun].
  destruct (ytd_points_shape _ _ _ _ Hrun) as (h_last & rest & Hlast & Hpoints & _).
  exists points, rest. split; [exact Hrun|].
  vm_compute in Hlast. injection Hlast as <-. exact Hpoints.
Defined.

(** Without samples the call fails, and the first transfer is dated
    December 31st all the same. *)
Lemma ytd_empty_series_witness :
  (get_running_ytd_percentage [] [0; 1; 2]%nat (heap_of [] mixed_transfers)).1
  = Raise IndexError /\
  created_at
    (transfer_obj
       (get_running_ytd_percentage [] [0; 1; 2]%nat (heap_of [] mixed_transfers)).2 0%nat)
  = utc 2023 12 31.
Proof.
  destruct (ytd_empty_series [0; 1; 2]%nat (heap_of [] mixed_transfers))
    as [Hraise Hshift].
  - apply (bool_decide_unpack _). vm_compute. exact I.
  - each_elem ltac:(vm_compute; reflexivity).
  - split; [exact Hraise|]. rewrite Hshift by find_elem. vm_compute. reflexivity.
Defined.


(** A series that starts in the year before: the one further point is
    against the opening equity of December 31st. *)
Lemma ytd_without_transfers_witness :
  (get_running_ytd_percentage [0; 1; 2]%nat [] (heap_of prior_year_series [])).1
  = Ok [anchor 2024;
        point_against (500 + 0) (equity_sample 1000 1100 (utc 2024 1 2))].
Proof.
  rewrite (ytd_without_transfers [0; 1; 2]%nat (heap_of prior_year_series [])
             (equity_sample 500 500 (utc 2023 12 31))
             (equity_sample 1000 1100 (utc 2024 1 2)) eq_refl eq_refl).
  reflexivity.
Defined.

(** A transfer of June in front of one of January hides it. *)
Lemma ytd_blocked_by_late_transfer_witness :
  running_ytd prior_year_series late_transfers = running_ytd prior_year_series [].
Proof.
  apply (ytd_blocked_by_late_transfer prior_year_series late_transfers
           (equity_sample 1000 1100 (utc 2024 1 2))
           (transfer_sample 500 "deposit" "completed" (utc 2024 6 1)) eq_refl eq_refl).
  intros d Hd. vm_compute in Hd.
  apply elem_of_cons in Hd as [->|Hd]; [vm_compute; reflexivity|].
  by apply elem_of_nil in Hd.
Defined.

(** The first transfer has moved, the third one has not. *)
Lemma ytd_overflow_partial_witness :
  (get_running_ytd_percentage [0; 1]%nat ([0%nat] ++ 1%nat :: [2%nat])
     (heap_of two_day_series first_day_transfers)).1 = Raise OverflowError /\
  created_at
    (transfer_obj
       (get_running_ytd_percentage [0; 1]%nat ([0%nat] ++ 1%nat :: [2%nat])
          (heap_of two_day_series first_day_transfers)).2 0%nat)
  = utc 2023 12 31 /\
  created_at
    (transfer_obj
       (get_running_ytd_percentage [0; 1]%nat ([0%nat] ++ 1%nat :: [2%nat])
          (heap_of two_day_series first_day_transfers)).2 2%nat)
  = utc 2024 1 2.
Proof.
  pose proof (ytd_overflow_partial [0; 1]%nat [0%nat] 1%nat [2%nat]
                (heap_of two_day_series first_day_transfers)) as H.
  cbv zeta in H. destruct H as (Hraise & Hpre & Hpost).
  - apply (bool_decide_unpack _). vm_compute. exact I.
  - each_elem ltac:(vm_compute; reflexivity).
  - vm_compute. reflexivity.
  - split; [exact Hraise|]. split.
    + rewrite Hpre by find_elem. vm_compute. reflexivity.
    + rewrite Hpost; [vm_compute; reflexivity|].
      intros Hin. apply elem_of_cons in Hin as [Heq|Hin]; [discriminate|].
      by apply elem_of_nil in Hin.
Defined.

(** The transfer of January 1st holds December 31st, a valid date. *)
Lemma transfers_stay_valid_witness :
  datetime_ok
    (created_at
       (transfer_obj
          (get_running_ytd_percentage [0; 1]%nat [0; 1; 2]%nat
             (heap_of two_day_series mixed_transfers)).2 0%nat))
  = true.
Proof.
  apply (transfers_stay_valid [0; 1]%nat [0; 1; 2]%nat
           (heap_of two_day_series mixed_transfers)).
  - apply (bool_decide_unpack _). vm_compute. exact I.
  - each_elem ltac:(vm_compute; reflexivity).
  - each_elem ltac:(vm_compute; reflexivity).
  - find_elem.
Defined.

(** A dictionary with a datetime inside comes back; a dictionary that has
    the tag of the hooks as its key comes back as a datetime. *)
Lemma json_round_trip_witness :
  json_loads (json_dumps dated_value) = Ok dated_value /\
  json_loads (json_dumps (VDict [("__datetime__", VStr "2024-01-02T00:00:00+00:00")]))
  = Ok (VDatetime (utc 2024 1 2)).
Proof.
  destruct json_round_trip as [Hsafe Htag]. split.
  - apply Hsafe. vm_compute. reflexivity.
  - rewrite Htag. vm_compute. reflexivity.
Defined.

(** The value with a datetime inside is the answer of the second call. *)
Lemma cached_value_returned_witness :
  (wrapper "t" 3600 "f" dated_func "(5,)" "{}"
     (set_clock (wrapper "t" 3600 "f" dated_func "(5,)" "{}" (empty_store [])).2 1500)).1
  = Ok dated_value.
Proof.
  destruct (cached_value_returned "t" 3600 "f" dated_func "(5,)" "{}" (empty_store [])
              dated_value 1500%Q eq_refl eq_refl eq_refl eq_refl eq_refl)
    as [_ Hsecond].
  exact Hsecond.
Defined.

(** With a TTL of one minute the row written 100 seconds ago is replaced. *)
Lemma expired_row_recomputed_witness :
  (wrapper "t" 60 "f" counting_func "(5,)" "{}" warm_store).1 = Ok (VInt 13) /\
  lookup_row (wrapper "t" 60 "f" counting_func "(5,)" "{}" warm_store).2 "t" "f:(5,):{}"
  = Some (JInt 13, 1000%Q).
Proof.
  pose proof (expired_row_recomputed "t" 60 "f" counting_func "(5,)" "{}" warm_store
                (JInt 7) 900%Q (VInt 13) eq_refl) as H.
  cbv zeta in H. destruct H as (Hval & _ & Hrow & _).
  - vm_compute. reflexivity.
  - intros Hlt. vm_compute in Hlt. discriminate.
  - reflexivity.
  - split; [exact Hval | exact Hrow].
Defined.

(** Two contention errors cost 0.1 s and 0.2 s. *)
Lemma connection_retries_witness :
  (__enter__ (empty_store (repeat (Some OperationalError) 2))).1 = Ok tt /\
  (clock (__enter__ (empty_store (repeat (Some OperationalError) 2))).2
   == 1000 + 3 / 10)%Q.
Proof.
  destruct (connection_retries 2 (empty_store (repeat (Some OperationalError) 2)) [])
    as [Hrun Hclock].
  - lia.
  - reflexivity.
  - intros i e _. destruct i; discriminate.
  - rewrite Hrun. split; [reflexivity | exact Hclock].
Defined.

(** Five contention errors cost 1.5 s and the connection fails. *)
Lemma connection_gives_up_witness :
  (__enter__ (empty_store (repeat (Some OperationalError) 5))).1
  = Raise (SqliteError OperationalError) /\
  (clock (__enter__ (empty_store (repeat (Some OperationalError) 5))).2
   == 1000 + 15 / 10)%Q.
Proof.
  destruct (connection_gives_up (empty_store (repeat (Some OperationalError) 5)) [])
    as [Hrun Hclock].
  - reflexivity.
  - rewrite Hrun. split; [reflexivity | exact Hclock].
Defined.

(** A corrupt database file: no sleep, and the value of the function. *)
Lemma other_store_error_not_retried_witness :
  __enter__ (empty_store [Some DatabaseError])
  = (Raise (SqliteError DatabaseError), empty_store []) /\
  (wrapper "t" 3600 "f" counting_func "(5,)" "{}" (empty_store [Some DatabaseError])).1
  = Ok (VInt 10).
Proof.
  destruct (other_store_error_not_retried "t" 3600 "f" counting_func "(5,)" "{}"
              (empty_store [Some DatabaseError]) [] eq_refl)
    as [Henter Hwrapper].
  split; [exact Henter|]. rewrite Hwrapper. reflexivity.
Defined.

(** The store fails and the function raises a store error of its own. *)
Lemma store_error_comes_from_function_witness :
  locked_func 0 = Raise (SqliteError OperationalError) \/
  locked_func 1 = Raise (SqliteError OperationalError).
Proof.
  apply (store_error_comes_from_function "t" 3600 "f" locked_func "(5,)" "{}"
           (empty_store [Some DatabaseError]) OperationalError).
  vm_compute. reflexivity.
Defined.

(** The [ValueError] of the function reaches the caller and leaves no row. *)
Lemma function_error_propagates_witness :
  (wrapper "t" 3600 "f" failing_func "(5,)" "{}" (empty_store [])).1 = Raise ValueError /\
  lookup_row (wrapper "t" 3600 "f" failing_func "(5,)" "{}" (empty_store [])).2
    "t" "f:(5,):{}" = None.
Proof.
  pose proof (function_error_propagates "t" 3600 "f" failing_func "(5,)" "{}"
                (empty_store []) ValueError eq_refl eq_refl eq_refl) as H.
  cbv zeta in H. destruct H as (Hraise & _ & Hrows).
  - intros se Hse. discriminate.
  - split; [exact Hraise|]. rewrite Hrows. reflexivity.
Defined.

(** The second invocation answers. *)
Lemma function_store_error_invokes_again_witness :
  (wrapper "t" 3600 "f" locked_func "(5,)" "{}" (empty_store [])).1 = Ok (VInt 1) /\
  calls (wrapper "t" 3600 "f" locked_func "(5,)" "{}" (empty_store [])).2 = 2%nat.
Proof.
  exact (function_store_error_invokes_again "t" 3600 "f" locked_func "(5,)" "{}"
           (empty_store []) OperationalError eq_refl eq_refl eq_refl).
Defined.

(** The malformed transfer has the eleven fields of a transfer; the one it
    lacks is [None]. *)
Lemma converter_result_fields_witness :
  exists res,
    convert_dict_to_typed_dict (fun _ => None) malformed_transfer BankTransfer_type
    = Ok (VDict res) /\
    length res = 11%nat /\
    dict_get res "updated_at" = Some VNone.
Proof.
  destruct (converter_result_fields (fun _ => None)
              [("amount", VStr "abc"); ("created_at", VStr "yesterday")]
              [("id", FBasic); ("url", FBasic); ("ref_id", FBasic); ("cancel", FBasic);
               ("ach_relationship", FBasic); ("account", FBasic); ("amount", FFloat);
               ("direction", FBasic); ("state", FBasic);
               ("created_at", FDatetime); ("updated_at", FDatetime)]
              BankTransfer_fields_distinct)
    as (Hrun & Hkeys & Hmissing).
  eexists. split; [exact Hrun|]. split.
  - rewrite <- (length_map fst), Hkeys. reflexivity.
  - apply (Hmissing "updated_at" FDatetime); [find_elem|reflexivity].
Defined.

(** Five past one in the afternoon. *)
Lemma api_timestamp_is_utc_witness :
  _convert_value_to_type (fun _ => None) (VStr "2024-01-05T13:05:09Z") FDatetime
  = Ok (VDatetime (mk_datetime 2024 1 5 13 5 9 0 (Some 0))).
Proof.
  destruct (api_timestamp_is_utc (fun _ => None) (mk_datetime 2024 1 5 13 5 9 0 None)
              eq_refl eq_refl) as [Hrun _].
  exact Hrun.
Defined.

(** A string among the transfers is dropped. *)
Lemma bank_transfers_rearranged_witness :
  exists out,
    get_bank_transfers (fun _ => None) (VStr "x" :: late_update_transfers) = Ok out /\
    length out = 2%nat.
Proof.
  assert (Hrun : exists out,
             get_bank_transfers (fun _ => None) (VStr "x" :: late_update_transfers)
             = Ok out)
    by (vm_compute; eexists; reflexivity).
  destruct Hrun as [out Hrun].
  destruct (bank_transfers_rearranged _ _ _ Hrun) as [_ Hlen].
  exists out. split; [exact Hrun | exact Hlen].
Defined.

(** The two transfers come out by their update. *)
Lemma bank_transfers_in_update_order_witness :
  exists out,
    get_bank_transfers (fun _ => None) late_update_transfers = Ok out /\
    StronglySorted (fun a b => updated_instant a <= updated_instant b) out.
Proof.
  apply bank_transfers_in_update_order.
  repeat constructor;
    (simpl; eexists _, _; split; [reflexivity|];
     split; [vm_compute; reflexivity | vm_compute; discriminate]).
Defined.

(** One transfer of two has no [updated_at]. *)
Lemma bank_transfers_unstamped_witness :
  get_bank_transfers (fun _ => None) unstamped_transfers = Raise TypeError.
Proof.
  apply (bank_transfers_unstamped (fun _ => None) unstamped_transfers
           [("id", VStr "T3")]).
  - simpl. lia.
  - find_elem.
  - vm_compute. exact I.
Defined.

(** Two contention errors at the write: the value of the first invocation
    is returned and stored with the time 1000, and the clock is at
    1000.3. *)
Lemma cache_write_retried_witness :
  (wrapper "t" 3600 "f" counting_func "(5,)" "{}"
     (empty_store (repeat None 4 ++ repeat (Some OperationalError) 2))).1
  = Ok (VInt 10) /\
  lookup_row
    (wrapper "t" 3600 "f" counting_func "(5,)" "{}"
       (empty_store (repeat None 4 ++ repeat (Some OperationalError) 2))).2
    "t" "f:(5,):{}"
  = Some (JInt 10, 1000%Q).
Proof.
  rewrite (cache_write_retried "t" 3600 "f" counting_func "(5,)" "{}"
             (empty_store (repeat None 4 ++ repeat (Some OperationalError) 2))
             (VInt 10) 2); [|lia|reflexivity|reflexivity|reflexivity].
  split; [reflexivity|]. vm_compute. reflexivity.
Defined.
